(** * ide: a terminal UI over tmux sessions, embedded in Rocq

    The development follows the three Go packages of the repository:
    [config] (the JSON document of environments, templates and theme),
    [tmux] (the session gateway) and [ui] (the Bubble Tea model, its
    [Update] function, the window-spec codec and the asynchronous commands).

    Modelling conventions.
    - A Go [string] is a byte string ([string] of the Standard Library).
      The functions of Go package [strings] are written out below on bytes;
      [TrimSpace], [ToLower] and [EqualFold] act on the ASCII range (white
      space is tab, line feed, vertical tab, form feed, carriage return and
      space; letters are A-Z and a-z), every other byte is an ordinary
      character.  [Split], [SplitN] and [ReplaceAll] are specialised to the
      one-byte separators the program passes to them.
    - A Go [int] is a [Z]; [len] of a slice is [Z.of_nat (length _)].
    - A run-time panic (a slice index out of range) is [None] in the option
      monad; everything else in [Update] returns [Some].
    - [map[string]struct{}] is a [gset string], [map[string][]string] a
      [gmap string (list string)].
    - The file system and the tmux server are explicit state ([config.Disk],
      [tmux.Server], [exec.World]) threaded through the command bodies.
    - What the program takes from its host (environment variables, path
      cleaning, [strconv.Quote], the unstable [sort.Slice]) is the interface
      [Host]. *)

From Stdlib Require Import Ascii ZArith Lia Sorting.Sorted Sorting.Permutation.
From stdpp Require Import gmap strings list pretty.

Local Open Scope Z_scope.

Abbreviation len l := (Z.of_nat (length l)).

(** ** Package strings *)

Module strings.

Fixpoint TrimLeft (s : string) : string :=
  match s with
  | "" => ""
  | String c s' => if Ascii.is_space c then TrimLeft s' else s
  end.

Fixpoint TrimRight (s : string) : string :=
  match s with
  | "" => ""
  | String c s' =>
      match TrimRight s' with
      | "" => if Ascii.is_space c then "" else String c ""
      | r => String c r
      end
  end.

Definition TrimSpace (s : string) : string := TrimRight (TrimLeft s).

Definition lowerByte (c : ascii) : ascii :=
  let n := N_of_ascii c in
  if ((65 <=? n) && (n <=? 90))%N then ascii_of_N (n + 32) else c.

Fixpoint ToLower (s : string) : string :=
  match s with
  | "" => ""
  | String c s' => String (lowerByte c) (ToLower s')
  end.

Definition EqualFold (s t : string) : bool :=
  String.eqb (ToLower s) (ToLower t).

Fixpoint HasPrefix (s prefix : string) : bool :=
  match prefix, s with
  | "", _ => true
  | String _ _, "" => false
  | String a p', String b s' => Ascii.eqb a b && HasPrefix s' p'
  end.

Fixpoint Contains (s substr : string) : bool :=
  HasPrefix s substr ||
  match s with
  | "" => false
  | String _ s' => Contains s' substr
  end.

(** [Split s sep] for a one-byte separator: all the pieces between the
    occurrences of [sep]; never the empty list. *)
Fixpoint Split (s : string) (sep : ascii) : list string :=
  match s with
  | "" => [""]
  | String c s' =>
      if Ascii.eqb c sep then "" :: Split s' sep
      else match Split s' sep with
           | [] => [String c ""]
           | p :: ps => String c p :: ps
           end
  end.

(** [SplitN s sep 2] for a one-byte separator: cut at the first [sep]. *)
Fixpoint SplitN2 (s : string) (sep : ascii) : list string :=
  match s with
  | "" => [""]
  | String c s' =>
      if Ascii.eqb c sep then [""; s']
      else match SplitN2 s' sep with
           | [] => [String c ""]
           | p :: ps => String c p :: ps
           end
  end.

Fixpoint Join (elems : list string) (sep : string) : string :=
  match elems with
  | [] => ""
  | [e] => e
  | e :: es => e +:+ sep +:+ Join es sep
  end.

(** [ReplaceAll s old new] for one-byte [old] and [new]. *)
Fixpoint ReplaceAll (s : string) (old new : ascii) : string :=
  match s with
  | "" => ""
  | String c s' =>
      String (if Ascii.eqb c old then new else c) (ReplaceAll s' old new)
  end.

(** Go's [<] on strings: byte-wise lexicographic. *)
Definition lt (s t : string) : bool := String.ltb s t.

End strings.

(** [trimLastRune] of package ui, on the ASCII range: drop the last byte. *)
Fixpoint trimLastRune (input : string) : string :=
  match input with
  | "" => ""
  | String c "" => ""
  | String c s' => String c (trimLastRune s')
  end.

(** ** Errors

    An [error] built by [fmt.Errorf] or [errors.New] keeps its format and
    its arguments: [%q] arguments are the quoted values, a [%w] argument is
    the text of the wrapped error. *)

Inductive error := Errorf (format : string) (args : list string).

(** ** The host *)

Definition strictWeak {A} (less : A → A → bool) : Prop :=
  (∀ a, less a a = false) ∧
  (∀ a b c, less a b = true → less b c = true → less a c = true) ∧
  (∀ a b c, less a b = false → less b c = false → less a c = false).

Class Host := {
  (** [os.UserConfigDir]; [inl] is the text of its error *)
  UserConfigDir : string + string;
  ExpandEnv : string → string;
  (** [os.UserHomeDir]; [None] when it fails *)
  UserHomeDir : option string;
  filepath_Join : list string → string;
  filepath_Clean : string → string;
  strconv_Quote : string → string;
  (** [sort.Slice] is not stable: all that is known of its result is that
      it is a sorted rearrangement, whenever [less] is a strict weak order *)
  sort_Slice : ∀ A : Type, (A → A → bool) → list A → list A;
  sort_Slice_perm : ∀ A less (l : list A), Permutation l (sort_Slice A less l);
  sort_Slice_sorted : ∀ A less (l : list A),
    strictWeak less → Sorted (λ a b, less b a = false) (sort_Slice A less l);
}.

(** [err.Error()]: the format with each verb replaced by its argument. *)
Fixpoint Sprintf `{Host} (format : string) (args : list string) : string :=
  match format with
  | String "%" (String v rest) =>
      match args with
      | a :: args' =>
          (if Ascii.eqb v "q" then strconv_Quote a else a) +:+ Sprintf rest args'
      | [] => String "%" (String v (Sprintf rest []))
      end
  | String c rest => String c (Sprintf rest args)
  | "" => ""
  end.

Definition Error `{Host} (e : error) : string :=
  match e with Errorf format args => Sprintf format args end.

(** [sort.SliceStable]: the stable sort.  For a strict weak order its result
    is determined, and insertion from the right computes it. *)
Fixpoint insertSorted {A} (less : A → A → bool) (x : A) (l : list A) : list A :=
  match l with
  | [] => [x]
  | y :: l' => if less y x then y :: insertSorted less x l' else x :: l
  end.

Definition sort_SliceStable {A} (less : A → A → bool) (l : list A) : list A :=
  foldr (insertSorted less) [] l.

(** ** Package config *)

Module config.

Module WindowTemplate.
Record t := mk { Name : string; Cmd : string; Cwd : string }.
End WindowTemplate.

Module Template.
Record t := mk { Name : string; Windows : list WindowTemplate.t }.
End Template.

Module Environment.
Record t := mk {
  Name : string;
  Root : string;
  Folder : string;
  DBConnection : string;
  Windows : list WindowTemplate.t;
}.
Definition zero : t := mk "" "" "" "" [].
End Environment.

Record Data := {
  Environments : list Environment.t;
  Templates : list Template.t;
  Theme : string;
}.

(** The JSON document; [json.Unmarshal] and [json.MarshalIndent] go between
    the bytes of the file and this record. *)
Record fileSchema := {
  fsEnvironments : list Environment.t;
  fsTemplates : list Template.t;
  fsTheme : string;
}.

Definition cloneWindows (windows : list WindowTemplate.t) : list WindowTemplate.t :=
  windows.

Definition legacyDefaultWindows (dbConnection : string) : list WindowTemplate.t :=
  let dbCmd :=
    if decide (strings.TrimSpace dbConnection ≠ "")
    then "dbdash connect " +:+ strings.TrimSpace dbConnection
    else "dbdash" in
  [ WindowTemplate.mk "editor" "nvim ." "";
    WindowTemplate.mk "terminal" "" "";
    WindowTemplate.mk "lazygit" "lazygit" "";
    WindowTemplate.mk "k9s" "k9s -n te" "";
    WindowTemplate.mk "database" dbCmd "" ].

Definition DefaultWindows : list WindowTemplate.t :=
  cloneWindows (legacyDefaultWindows "").

Definition DefaultTemplates : list Template.t :=
  [ Template.mk "default" DefaultWindows ].

(** The loop of [normalizeWindows]; [out] is the slice built so far. *)
Fixpoint normalizeWindows_loop (out windows : list WindowTemplate.t)
  : list WindowTemplate.t :=
  match windows with
  | [] => out
  | w :: rest =>
      let name := strings.TrimSpace (WindowTemplate.Name w) in
      let cmd := strings.TrimSpace (WindowTemplate.Cmd w) in
      let cwd := strings.TrimSpace (WindowTemplate.Cwd w) in
      let name :=
        if decide (name = "") then "window-" +:+ pretty (len out + 1) else name in
      normalizeWindows_loop (out ++ [WindowTemplate.mk name cmd cwd]) rest
  end.

Definition normalizeWindows (windows : list WindowTemplate.t)
  : list WindowTemplate.t :=
  if decide (len windows = 0) then [WindowTemplate.mk "shell" "" ""]
  else normalizeWindows_loop [] windows.

Section WithHost.
Context `{Host}.

Definition normalizePath (value : string) : string :=
  let value := ExpandEnv (strings.TrimSpace value) in
  let value :=
    if strings.HasPrefix value "~/" then
      match UserHomeDir with
      | Some home => filepath_Join [home; String.substring 2 (String.length value - 2) value]
      | None => value
      end
    else value in
  if decide (value = "") then value else filepath_Clean value.

Definition normalizeEnvironment (env : Environment.t) : Environment.t :=
  let name := strings.TrimSpace (Environment.Name env) in
  let folder := strings.TrimSpace (Environment.Folder env) in
  let db := strings.TrimSpace (Environment.DBConnection env) in
  let root := if decide (Environment.Root env = "") then folder else Environment.Root env in
  let root := normalizePath root in
  let windows :=
    if decide (len (Environment.Windows env) = 0) then legacyDefaultWindows db
    else Environment.Windows env in
  Environment.mk name root folder db (normalizeWindows windows).

Definition normalizeTemplate (template : Template.t) : Template.t :=
  let name := strings.TrimSpace (Template.Name template) in
  let name := if decide (name = "") then "template" else name in
  let windows :=
    if decide (len (Template.Windows template) = 0) then DefaultWindows
    else Template.Windows template in
  Template.mk name (normalizeWindows windows).

(** *** The config file *)

Inductive File :=
| Absent                      (* no file at the config path *)
| Unparsable (e : string)     (* not the JSON of a [fileSchema]; [e] is the parse error *)
| Document (cfg : fileSchema).

(** [writeErr = Some e]: [os.WriteFile] fails with [e].  The directory of
    the file can always be made and the file, when there, can be read. *)
Record Disk := { file : File; writeErr : option string }.

Definition ConfigFilePath : error + string :=
  match UserConfigDir with
  | inl e => inl (Errorf "resolve user config dir: %w" [e])
  | inr base => inr (filepath_Join [base; "ide"; "environments.json"])
  end.

Definition WriteFile (cfg : fileSchema) (d : Disk) : option string * Disk :=
  match writeErr d with
  | None => (None, {| file := Document cfg; writeErr := None |})
  | Some e => (Some e, d)
  end.

Definition EnsureExists (d : Disk) : option error * Disk :=
  match ConfigFilePath with
  | inl err => (Some err, d)
  | inr _ =>
      match file d with
      | Absent =>
          let initial :=
            {| fsEnvironments := []; fsTemplates := DefaultTemplates;
               fsTheme := "Midnight" |} in
          let '(e, d') := WriteFile initial d in
          match e with
          | None => (None, d')
          | Some e => (Some (Errorf "write default config: %w" [e]), d')
          end
      | _ => (None, d)
      end
  end.

Definition LoadAll (d : Disk) : (error + Data) * Disk :=
  let '(e, d) := EnsureExists d in
  match e with
  | Some err => (inl err, d)
  | None =>
      match ConfigFilePath with
      | inl err => (inl err, d)
      | inr _ =>
          match file d with
          | Absent => (inl (Errorf "read config file: %w" ["no such file or directory"]), d)
          | Unparsable e => (inl (Errorf "parse config json: %w" [e]), d)
          | Document cfg =>
              let environments := normalizeEnvironment <$> fsEnvironments cfg in
              let templates := normalizeTemplate <$> fsTemplates cfg in
              let templates :=
                if decide (len templates = 0) then DefaultTemplates else templates in
              (inr {| Environments := environments; Templates := templates;
                      Theme := strings.TrimSpace (fsTheme cfg) |}, d)
          end
      end
  end.

Definition Load (d : Disk) : (error + list Environment.t) * Disk :=
  let '(r, d) := LoadAll d in
  match r with
  | inl err => (inl err, d)
  | inr data => (inr (Environments data), d)
  end.

Definition SaveAll (data : Data) (d : Disk) : option error * Disk :=
  let '(e, d) := EnsureExists d in
  match e with
  | Some err => (Some err, d)
  | None =>
      match ConfigFilePath with
      | inl err => (Some err, d)
      | inr _ =>
          let cfg :=
            {| fsEnvironments := normalizeEnvironment <$> Environments data;
               fsTemplates := normalizeTemplate <$> Templates data;
               fsTheme := strings.TrimSpace (Theme data) |} in
          let '(e, d') := WriteFile cfg d in
          match e with
          | None => (None, d')
          | Some e => (Some (Errorf "write config file: %w" [e]), d')
          end
      end
  end.

Definition Save (environments : list Environment.t) (d : Disk)
  : option error * Disk :=
  let '(r, d) := LoadAll d in
  match r with
  | inl err => (Some err, d)
  | inr data =>
      SaveAll {| Environments := environments; Templates := Templates data;
                 Theme := Theme data |} d
  end.

Definition SaveTemplates (templates : list Template.t) (d : Disk)
  : option error * Disk :=
  let '(r, d) := LoadAll d in
  match r with
  | inl err => (Some err, d)
  | inr data =>
      SaveAll {| Environments := Environments data; Templates := templates;
                 Theme := Theme data |} d
  end.

Definition SaveTheme (theme : string) (d : Disk) : option error * Disk :=
  let '(r, d) := LoadAll d in
  match r with
  | inl err => (Some err, d)
  | inr data =>
      SaveAll {| Environments := Environments data; Templates := Templates data;
                 Theme := strings.TrimSpace theme |} d
  end.

End WithHost.
End config.

(** ** Package tmux *)

Module tmux.

Definition SessionName (envName : string) : string :=
  let clean := strings.TrimSpace (strings.ToLower envName) in
  let clean := strings.ReplaceAll clean " " "-" in
  if decide (clean = "") then "ide" else "ide-" +:+ clean.

Definition safeWindowName (name : string) : string :=
  let name := strings.TrimSpace name in
  if decide (name = "") then "shell" else strings.ReplaceAll name " " "-".

Definition AttachTarget (env : config.Environment.t) (windowName : string) : string :=
  let session := SessionName (config.Environment.Name env) in
  if decide (strings.TrimSpace windowName = "") then session
  else session +:+ ":" +:+ safeWindowName windowName.

Definition WindowNames (env : config.Environment.t) : list string :=
  if decide (len (config.Environment.Windows env) = 0) then ["shell"]
  else (λ w, safeWindowName (config.WindowTemplate.Name w))
         <$> config.Environment.Windows env.

(** *** The tmux server

    [installed]: the [tmux] binary is in PATH.  [sessions]: the live
    sessions with the names of their windows, in order.  A tmux command on
    an installed binary does what it is asked; the working directory and the
    start-up command of a window do not show in this state. *)
Record Server := { installed : bool; sessions : gmap string (list string) }.

Definition CheckTmuxExists (s : Server) : option error :=
  if installed s then None
  else Some (Errorf "tmux is not installed or not in PATH" []).

Definition HasSession (session : string) (s : Server) : bool :=
  installed s && bool_decide (is_Some (sessions s !! session)).

(** the lines of a command's output: trimmed, blank lines dropped *)
Definition outputLines (lines : list string) : list string :=
  filter (λ line, line ≠ "") (strings.TrimSpace <$> lines).

Definition ListSessions (s : Server) : error + list string :=
  if installed s then inr (outputLines (map_to_list (sessions s)).*1)
  else inl (Errorf "list tmux sessions: %w" ["executable file not found in $PATH"]).

Definition KillSession (session : string) (s : Server) : option error * Server :=
  if installed s then
    (None, {| installed := true; sessions := delete session (sessions s) |})
  else (Some (Errorf "kill tmux session %q: %w"
                [session; "executable file not found in $PATH"]), s).

Definition ListWindows (session : string) (s : Server) : error + list string :=
  if installed s then
    match sessions s !! session with
    | Some ws => inr (outputLines ws)
    | None => inr []
    end
  else inl (Errorf "list windows for %q: %w"
              [session; "executable file not found in $PATH"]).

Definition HasWindow (session window : string) (s : Server) : error + bool :=
  let window := safeWindowName window in
  if decide (window = "") then inr true
  else match ListWindows session s with
       | inl err => inl err
       | inr windows =>
           inr (bool_decide (Exists (λ w, strings.TrimSpace w = window) windows))
       end.

Definition EnsureSession (env : config.Environment.t) (s : Server)
  : option error * Server :=
  let session := SessionName (config.Environment.Name env) in
  if HasSession session s then (None, s)
  else
    let windows :=
      if decide (len (config.Environment.Windows env) = 0)
      then [config.WindowTemplate.mk "shell" "" ""]
      else config.Environment.Windows env in
    if installed s then
      (None, {| installed := true;
                sessions := <[session :=
                  (λ w, safeWindowName (config.WindowTemplate.Name w)) <$> windows]>
                  (sessions s) |})
    else (Some (Errorf "create tmux session %q: %w"
                  [session; "executable file not found in $PATH"]), s).

(** [tmux swap-window -s session:a -t session:b] *)
Definition swapWindow (session a b : string) (s : Server) : option string * Server :=
  match sessions s !! session with
  | Some ws =>
      if bool_decide (a ∈ ws ∧ b ∈ ws) then
        (None, {| installed := installed s;
                  sessions := <[session :=
                    (λ w, if decide (w = a) then b else if decide (w = b) then a else w)
                      <$> ws]> (sessions s) |})
      else (Some "exit status 1", s)
  | None => (Some "exit status 1", s)
  end.

End tmux.

(** ** Package ui *)

Module tea.
(** A key press: [key_String] is what [msg.String()] returns. *)
Record KeyMsg := { key_String : string; Runes : string; Alt : bool }.
End tea.

Module ui.
Import config.

Definition createFieldName : Z := 0.
Definition createFieldRoot : Z := 1.
Definition createFieldTemplate : Z := 2.
Definition createFieldCustomWindows : Z := 3.

Definition focusPaneEnvironments : Z := 0.
Definition focusPaneWindows : Z := 1.
Definition focusPaneTemplates : Z := 2.

Definition templateFieldName : Z := 0.
Definition templateFieldWindows : Z := 1.

Module uiTheme.
Record t := mk {
  Name : string;
  AppBG : string;
  AppFG : string;
  PaneBG : string;
  Border : string;
  SelectedFG : string;
  SelectedBG : string;
  Active : string;
  Inactive : string;
  Accent : string;
  Muted : string;
  Status : string;
}.
End uiTheme.

(** columns: Name AppBG AppFG PaneBG Border SelectedFG SelectedBG Active Inactive Accent Muted Status *)
Definition defaultThemes : list uiTheme.t :=
  let mk := uiTheme.mk in
  [ mk "Midnight" "#0f1020" "#d7dce2" "#17182b" "#3b3f63" "#f8f8f2" "#3a4a8a" "#8bd5ca" "#7f849c" "#f9e2af" "#a6adc8" "#cdd6f4";
  mk "Catppuccin Mocha" "#1e1e2e" "#cdd6f4" "#181825" "#6c7086" "#f5e0dc" "#45475a" "#a6e3a1" "#7f849c" "#89b4fa" "#a6adc8" "#cdd6f4";
  mk "Catppuccin Latte" "#eff1f5" "#4c4f69" "#e6e9ef" "#9ca0b0" "#1e66f5" "#ccd0da" "#40a02b" "#8c8fa1" "#8839ef" "#7c7f93" "#4c4f69";
  mk "Gruvbox Dark" "#282828" "#ebdbb2" "#32302f" "#665c54" "#fbf1c7" "#504945" "#b8bb26" "#a89984" "#fabd2f" "#d5c4a1" "#ebdbb2";
  mk "Gruvbox Light" "#fbf1c7" "#3c3836" "#f2e5bc" "#bdae93" "#282828" "#d5c4a1" "#79740e" "#928374" "#af3a03" "#665c54" "#3c3836";
  mk "Tokyo Night" "#1a1b26" "#c0caf5" "#24283b" "#414868" "#c0caf5" "#33467c" "#9ece6a" "#565f89" "#7aa2f7" "#a9b1d6" "#c0caf5";
  mk "Nord" "#2e3440" "#d8dee9" "#3b4252" "#4c566a" "#eceff4" "#434c5e" "#a3be8c" "#81a1c1" "#88c0d0" "#d8dee9" "#e5e9f0";
  mk "Dracula" "#282a36" "#f8f8f2" "#303444" "#6272a4" "#f8f8f2" "#44475a" "#50fa7b" "#8be9fd" "#bd93f9" "#a4a7b5" "#f1fa8c";
  mk "Solarized Dark" "#002b36" "#93a1a1" "#073642" "#586e75" "#fdf6e3" "#005f73" "#859900" "#657b83" "#b58900" "#839496" "#93a1a1";
  mk "Solarized Light" "#fdf6e3" "#586e75" "#eee8d5" "#93a1a1" "#073642" "#d3cbb6" "#859900" "#93a1a1" "#b58900" "#657b83" "#586e75";
  mk "One Dark" "#282c34" "#abb2bf" "#21252b" "#5c6370" "#e6e6e6" "#3e4451" "#98c379" "#7f848e" "#61afef" "#c5c8cf" "#abb2bf";
  mk "Monokai Pro" "#2d2a2e" "#fcfcfa" "#36333a" "#727072" "#fffef9" "#5b595c" "#a9dc76" "#939293" "#ffd866" "#c1c0c0" "#fcfcfa";
  mk "Night Owl" "#011627" "#d6deeb" "#0b1f33" "#24496a" "#ffffff" "#1d3b53" "#addb67" "#7fdbca" "#82aaff" "#7e97b0" "#d6deeb";
  mk "Rose Pine" "#191724" "#e0def4" "#1f1d2e" "#6e6a86" "#faf4ed" "#403d52" "#9ccfd8" "#908caa" "#ebbcba" "#c4a7e7" "#e0def4";
  mk "Everforest Dark" "#2b3339" "#d3c6aa" "#323d43" "#4f585e" "#fdf6e3" "#475258" "#a7c080" "#7fbbb3" "#e69875" "#9da9a0" "#d3c6aa";
  mk "Kanagawa" "#1f1f28" "#dcd7ba" "#2a2a37" "#54546d" "#f2ecbc" "#363646" "#98bb6c" "#7e9cd8" "#ffa066" "#c8c093" "#dcd7ba";
  mk "Ayu Mirage" "#1f2430" "#cccac2" "#242b38" "#5c6773" "#ffffff" "#34455e" "#87d96c" "#80bfff" "#ffcc66" "#b8c2cc" "#cccac2";
  mk "Ice" "#0f172a" "#e2e8f0" "#1e293b" "#475569" "#f8fafc" "#334155" "#22d3ee" "#94a3b8" "#38bdf8" "#cbd5e1" "#e2e8f0";
  mk "Amber" "#1f1300" "#f8e7c2" "#2b1a00" "#7a4b00" "#1f1300" "#f59e0b" "#fbbf24" "#d6a54f" "#f59e0b" "#fcd34d" "#fde68a" ].

Record Model := Build_Model {
  width : Z;
  height : Z;
  environments : list config.Environment.t;
  templates : list config.Template.t;
  focusPane : Z;
  selectedEnv : Z;
  selectedWindow : Z;
  selectedTemplate : Z;
  sessions : gset string;
  sessionWindows : gmap string (list string);
  createMode : bool;
  createField : Z;
  createName : string;
  createRoot : string;
  createTemplate : Z;
  createCustom : string;
  templateMode : bool;
  templateField : Z;
  templateName : string;
  templateSpec : string;
  templateEditing : bool;
  templateOrigin : string;
  showShortcuts : bool;
  showThemePicker : bool;
  themeQuery : string;
  themePickerCursor : Z;
  killConfirm : string;
  deleteConfirm : string;
  templateDeleteConfirm : string;
  pendingSelect : string;
  pendingTemplateSelect : string;
  themes : list uiTheme.t;
  themeIndex : Z;
  status : string;
  previewContent : string;
  previewSession : string;
  previewWindow : string;
  previewProcess : string;
}.

(** Assignment to one field: [m <| f := v |>] is [m] after [m.f = v]. *)
Class Setter {R T} (proj : R → T) := set : T → R → R.
Global Arguments set {R T} proj {Setter} _ _ /.
Notation "m <| proj := v |>" := (set proj v m)
  (at level 1, left associativity, format "m  <| proj  :=  v |>").

#[global] Instance set_width : Setter width := λ v m,
  Build_Model
    v (height m) (environments m) (templates m) (focusPane m) (selectedEnv m)
    (selectedWindow m) (selectedTemplate m) (sessions m) (sessionWindows m)
    (createMode m) (createField m) (createName m) (createRoot m) (createTemplate m)
    (createCustom m) (templateMode m) (templateField m) (templateName m)
    (templateSpec m) (templateEditing m) (templateOrigin m) (showShortcuts m)
    (showThemePicker m) (themeQuery m) (themePickerCursor m) (killConfirm m)
    (deleteConfirm m) (templateDeleteConfirm m) (pendingSelect m)
    (pendingTemplateSelect m) (themes m) (themeIndex m) (status m) (previewContent m)
    (previewSession m) (previewWindow m) (previewProcess m).
#[global] Instance set_height : Setter height := λ v m,
  Build_Model
    (width m) v (environments m) (templates m) (focusPane m) (selectedEnv m)
    (selectedWindow m) (selectedTemplate m) (sessions m) (sessionWindows m)
    (createMode m) (createField m) (createName m) (createRoot m) (createTemplate m)
    (createCustom m) (templateMode m) (templateField m) (templateName m)
    (templateSpec m) (templateEditing m) (templateOrigin m) (showShortcuts m)
    (showThemePicker m) (themeQuery m) (themePickerCursor m) (killConfirm m)
    (deleteConfirm m) (templateDeleteConfirm m) (pendingSelect m)
    (pendingTemplateSelect m) (themes m) (themeIndex m) (status m) (previewContent m)
    (previewSession m) (previewWindow m) (previewProcess m).
#[global] Instance set_environments : Setter environments := λ v m,
  Build_Model
    (width m) (height m) v (templates m) (focusPane m) (selectedEnv m)
    (selectedWindow m) (selectedTemplate m) (sessions m) (sessionWindows m)
    (createMode m) (createField m) (createName m) (createRoot m) (createTemplate m)
    (createCustom m) (templateMode m) (templateField m) (templateName m)
    (templateSpec m) (templateEditing m) (templateOrigin m) (showShortcuts m)
    (showThemePicker m) (themeQuery m) (themePickerCursor m) (killConfirm m)
    (deleteConfirm m) (templateDeleteConfirm m) (pendingSelect m)
    (pendingTemplateSelect m) (themes m) (themeIndex m) (status m) (previewContent m)
    (previewSession m) (previewWindow m) (previewProcess m).
#[global] Instance set_templates : Setter templates := λ v m,
  Build_Model
    (width m) (height m) (environments m) v (focusPane m) (selectedEnv m)
    (selectedWindow m) (selectedTemplate m) (sessions m) (sessionWindows m)
    (createMode m) (createField m) (createName m) (createRoot m) (createTemplate m)
    (createCustom m) (templateMode m) (templateField m) (templateName m)
    (templateSpec m) (templateEditing m) (templateOrigin m) (showShortcuts m)
    (showThemePicker m) (themeQuery m) (themePickerCursor m) (killConfirm m)
    (deleteConfirm m) (templateDeleteConfirm m) (pendingSelect m)
    (pendingTemplateSelect m) (themes m) (themeIndex m) (status m) (previewContent m)
    (previewSession m) (previewWindow m) (previewProcess m).
#[global] Instance set_focusPane : Setter focusPane := λ v m,
  Build_Model
    (width m) (height m) (environments m) (templates m) v (selectedEnv m)
    (selectedWindow m) (selectedTemplate m) (sessions m) (sessionWindows m)
    (createMode m) (createField m) (createName m) (createRoot m) (createTemplate m)
    (createCustom m) (templateMode m) (templateField m) (templateName m)
    (templateSpec m) (templateEditing m) (templateOrigin m) (showShortcuts m)
    (showThemePicker m) (themeQuery m) (themePickerCursor m) (killConfirm m)
    (deleteConfirm m) (templateDeleteConfirm m) (pendingSelect m)
    (pendingTemplateSelect m) (themes m) (themeIndex m) (status m) (previewContent m)
    (previewSession m) (previewWindow m) (previewProcess m).
#[global] Instance set_selectedEnv : Setter selectedEnv := λ v m,
  Build_Model
    (width m) (height m) (environments m) (templates m) (focusPane m) v
    (selectedWindow m) (selectedTemplate m) (sessions m) (sessionWindows m)
    (createMode m) (createField m) (createName m) (createRoot m) (createTemplate m)
    (createCustom m) (templateMode m) (templateField m) (templateName m)
    (templateSpec m) (templateEditing m) (templateOrigin m) (showShortcuts m)
    (showThemePicker m) (themeQuery m) (themePickerCursor m) (killConfirm m)
    (deleteConfirm m) (templateDeleteConfirm m) (pendingSelect m)
    (pendingTemplateSelect m) (themes m) (themeIndex m) (status m) (previewContent m)
    (previewSession m) (previewWindow m) (previewProcess m).
#[global] Instance set_selectedWindow : Setter selectedWindow := λ v m,
  Build_Model
    (width m) (height m) (environments m) (templates m) (focusPane m) (selectedEnv m) v
    (selectedTemplate m) (sessions m) (sessionWindows m) (createMode m) (createField m)
    (createName m) (createRoot m) (createTemplate m) (createCustom m) (templateMode m)
    (templateField m) (templateName m) (templateSpec m) (templateEditing m)
    (templateOrigin m) (showShortcuts m) (showThemePicker m) (themeQuery m)
    (themePickerCursor m) (killConfirm m) (deleteConfirm m) (templateDeleteConfirm m)
    (pendingSelect m) (pendingTemplateSelect m) (themes m) (themeIndex m) (status m)
    (previewContent m) (previewSession m) (previewWindow m) (previewProcess m).
#[global] Instance set_selectedTemplate : Setter selectedTemplate := λ v m,
  Build_Model
    (width m) (height m) (environments m) (templates m) (focusPane m) (selectedEnv m)
    (selectedWindow m) v (sessions m) (sessionWindows m) (createMode m) (createField m)
    (createName m) (createRoot m) (createTemplate m) (createCustom m) (templateMode m)
    (templateField m) (templateName m) (templateSpec m) (templateEditing m)
    (templateOrigin m) (showShortcuts m) (showThemePicker m) (themeQuery m)
    (themePickerCursor m) (killConfirm m) (deleteConfirm m) (templateDeleteConfirm m)
    (pendingSelect m) (pendingTemplateSelect m) (themes m) (themeIndex m) (status m)
    (previewContent m) (previewSession m) (previewWindow m) (previewProcess m).
#[global] Instance set_sessions : Setter sessions := λ v m,
  Build_Model
    (width m) (height m) (environments m) (templates m) (focusPane m) (selectedEnv m)
    (selectedWindow m) (selectedTemplate m) v (sessionWindows m) (createMode m)
    (createField m) (createName m) (createRoot m) (createTemplate m) (createCustom m)
    (templateMode m) (templateField m) (templateName m) (templateSpec m)
    (templateEditing m) (templateOrigin m) (showShortcuts m) (showThemePicker m)
    (themeQuery m) (themePickerCursor m) (killConfirm m) (deleteConfirm m)
    (templateDeleteConfirm m) (pendingSelect m) (pendingTemplateSelect m) (themes m)
    (themeIndex m) (status m) (previewContent m) (previewSession m) (previewWindow m)
    (previewProcess m).
#[global] Instance set_sessionWindows : Setter sessionWindows := λ v m,
  Build_Model
    (width m) (height m) (environments m) (templates m) (focusPane m) (selectedEnv m)
    (selectedWindow m) (selectedTemplate m) (sessions m) v (createMode m)
    (createField m) (createName m) (createRoot m) (createTemplate m) (createCustom m)
    (templateMode m) (templateField m) (templateName m) (templateSpec m)
    (templateEditing m) (templateOrigin m) (showShortcuts m) (showThemePicker m)
    (themeQuery m) (themePickerCursor m) (killConfirm m) (deleteConfirm m)
    (templateDeleteConfirm m) (pendingSelect m) (pendingTemplateSelect m) (themes m)
    (themeIndex m) (status m) (previewContent m) (previewSession m) (previewWindow m)
    (previewProcess m).
#[global] Instance set_createMode : Setter createMode := λ v m,
  Build_Model
    (width m) (height m) (environments m) (templates m) (focusPane m) (selectedEnv m)
    (selectedWindow m) (selectedTemplate m) (sessions m) (sessionWindows m) v
    (createField m) (createName m) (createRoot m) (createTemplate m) (createCustom m)
    (templateMode m) (templateField m) (templateName m) (templateSpec m)
    (templateEditing m) (templateOrigin m) (showShortcuts m) (showThemePicker m)
    (themeQuery m) (themePickerCursor m) (killConfirm m) (deleteConfirm m)
    (templateDeleteConfirm m) (pendingSelect m) (pendingTemplateSelect m) (themes m)
    (themeIndex m) (status m) (previewContent m) (previewSession m) (previewWindow m)
    (previewProcess m).
#[global] Instance set_createField : Setter createField := λ v m,
  Build_Model
    (width m) (height m) (environments m) (templates m) (focusPane m) (selectedEnv m)
    (selectedWindow m) (selectedTemplate m) (sessions m) (sessionWindows m)
    (createMode m) v (createName m) (createRoot m) (createTemplate m) (createCustom m)
    (templateMode m) (templateField m) (templateName m) (templateSpec m)
    (templateEditing m) (templateOrigin m) (showShortcuts m) (showThemePicker m)
    (themeQuery m) (themePickerCursor m) (killConfirm m) (deleteConfirm m)
    (templateDeleteConfirm m) (pendingSelect m) (pendingTemplateSelect m) (themes m)
    (themeIndex m) (status m) (previewContent m) (previewSession m) (previewWindow m)
    (previewProcess m).
#[global] Instance set_createName : Setter createName := λ v m,
  Build_Model
    (width m) (height m) (environments m) (templates m) (focusPane m) (selectedEnv m)
    (selectedWindow m) (selectedTemplate m) (sessions m) (sessionWindows m)
    (createMode m) (createField m) v (createRoot m) (createTemplate m) (createCustom m)
    (templateMode m) (templateField m) (templateName m) (templateSpec m)
    (templateEditing m) (templateOrigin m) (showShortcuts m) (showThemePicker m)
    (themeQuery m) (themePickerCursor m) (killConfirm m) (deleteConfirm m)
    (templateDeleteConfirm m) (pendingSelect m) (pendingTemplateSelect m) (themes m)
    (themeIndex m) (status m) (previewContent m) (previewSession m) (previewWindow m)
    (previewProcess m).
#[global] Instance set_createRoot : Setter createRoot := λ v m,
  Build_Model
    (width m) (height m) (environments m) (templates m) (focusPane m) (selectedEnv m)
    (selectedWindow m) (selectedTemplate m) (sessions m) (sessionWindows m)
    (createMode m) (createField m) (createName m) v (createTemplate m) (createCustom m)
    (templateMode m) (templateField m) (templateName m) (templateSpec m)
    (templateEditing m) (templateOrigin m) (showShortcuts m) (showThemePicker m)
    (themeQuery m) (themePickerCursor m) (killConfirm m) (deleteConfirm m)
    (templateDeleteConfirm m) (pendingSelect m) (pendingTemplateSelect m) (themes m)
    (themeIndex m) (status m) (previewContent m) (previewSession m) (previewWindow m)
    (previewProcess m).
#[global] Instance set_createTemplate : Setter createTemplate := λ v m,
  Build_Model
    (width m) (height m) (environments m) (templates m) (focusPane m) (selectedEnv m)
    (selectedWindow m) (selectedTemplate m) (sessions m) (sessionWindows m)
    (createMode m) (createField m) (createName m) (createRoot m) v (createCustom m)
    (templateMode m) (templateField m) (templateName m) (templateSpec m)
    (templateEditing m) (templateOrigin m) (showShortcuts m) (showThemePicker m)
    (themeQuery m) (themePickerCursor m) (killConfirm m) (deleteConfirm m)
    (templateDeleteConfirm m) (pendingSelect m) (pendingTemplateSelect m) (themes m)
    (themeIndex m) (status m) (previewContent m) (previewSession m) (previewWindow m)
    (previewProcess m).
#[global] Instance set_createCustom : Setter createCustom := λ v m,
  Build_Model
    (width m) (height m) (environments m) (templates m) (focusPane m) (selectedEnv m)
    (selectedWindow m) (selectedTemplate m) (sessions m) (sessionWindows m)
    (createMode m) (createField m) (createName m) (createRoot m) (createTemplate m) v
    (templateMode m) (templateField m) (templateName m) (templateSpec m)
    (templateEditing m) (templateOrigin m) (showShortcuts m) (showThemePicker m)
    (themeQuery m) (themePickerCursor m) (killConfirm m) (deleteConfirm m)
    (templateDeleteConfirm m) (pendingSelect m) (pendingTemplateSelect m) (themes m)
    (themeIndex m) (status m) (previewContent m) (previewSession m) (previewWindow m)
    (previewProcess m).
#[global] Instance set_templateMode : Setter templateMode := λ v m,
  Build_Model
    (width m) (height m) (environments m) (templates m) (focusPane m) (selectedEnv m)
    (selectedWindow m) (selectedTemplate m) (sessions m) (sessionWindows m)
    (createMode m) (createField m) (createName m) (createRoot m) (createTemplate m)
    (createCustom m) v (templateField m) (templateName m) (templateSpec m)
    (templateEditing m) (templateOrigin m) (showShortcuts m) (showThemePicker m)
    (themeQuery m) (themePickerCursor m) (killConfirm m) (deleteConfirm m)
    (templateDeleteConfirm m) (pendingSelect m) (pendingTemplateSelect m) (themes m)
    (themeIndex m) (status m) (previewContent m) (previewSession m) (previewWindow m)
    (previewProcess m).
#[global] Instance set_templateField : Setter templateField := λ v m,
  Build_Model
    (width m) (height m) (environments m) (templates m) (focusPane m) (selectedEnv m)
    (selectedWindow m) (selectedTemplate m) (sessions m) (sessionWindows m)
    (createMode m) (createField m) (createName m) (createRoot m) (createTemplate m)
    (createCustom m) (templateMode m) v (templateName m) (templateSpec m)
    (templateEditing m) (templateOrigin m) (showShortcuts m) (showThemePicker m)
    (themeQuery m) (themePickerCursor m) (killConfirm m) (deleteConfirm m)
    (templateDeleteConfirm m) (pendingSelect m) (pendingTemplateSelect m) (themes m)
    (themeIndex m) (status m) (previewContent m) (previewSession m) (previewWindow m)
    (previewProcess m).
#[global] Instance set_templateName : Setter templateName := λ v m,
  Build_Model
    (width m) (height m) (environments m) (templates m) (focusPane m) (selectedEnv m)
    (selectedWindow m) (selectedTemplate m) (sessions m) (sessionWindows m)
    (createMode m) (createField m) (createName m) (createRoot m) (createTemplate m)
    (createCustom m) (templateMode m) (templateField m) v (templateSpec m)
    (templateEditing m) (templateOrigin m) (showShortcuts m) (showThemePicker m)
    (themeQuery m) (themePickerCursor m) (killConfirm m) (deleteConfirm m)
    (templateDeleteConfirm m) (pendingSelect m) (pendingTemplateSelect m) (themes m)
    (themeIndex m) (status m) (previewContent m) (previewSession m) (previewWindow m)
    (previewProcess m).
#[global] Instance set_templateSpec : Setter templateSpec := λ v m,
  Build_Model
    (width m) (height m) (environments m) (templates m) (focusPane m) (selectedEnv m)
    (selectedWindow m) (selectedTemplate m) (sessions m) (sessionWindows m)
    (createMode m) (createField m) (createName m) (createRoot m) (createTemplate m)
    (createCustom m) (templateMode m) (templateField m) (templateName m) v
    (templateEditing m) (templateOrigin m) (showShortcuts m) (showThemePicker m)
    (themeQuery m) (themePickerCursor m) (killConfirm m) (deleteConfirm m)
    (templateDeleteConfirm m) (pendingSelect m) (pendingTemplateSelect m) (themes m)
    (themeIndex m) (status m) (previewContent m) (previewSession m) (previewWindow m)
    (previewProcess m).
#[global] Instance set_templateEditing : Setter templateEditing := λ v m,
  Build_Model
    (width m) (height m) (environments m) (templates m) (focusPane m) (selectedEnv m)
    (selectedWindow m) (selectedTemplate m) (sessions m) (sessionWindows m)
    (createMode m) (createField m) (createName m) (createRoot m) (createTemplate m)
    (createCustom m) (templateMode m) (templateField m) (templateName m)
    (templateSpec m) v (templateOrigin m) (showShortcuts m) (showThemePicker m)
    (themeQuery m) (themePickerCursor m) (killConfirm m) (deleteConfirm m)
    (templateDeleteConfirm m) (pendingSelect m) (pendingTemplateSelect m) (themes m)
    (themeIndex m) (status m) (previewContent m) (previewSession m) (previewWindow m)
    (previewProcess m).
#[global] Instance set_templateOrigin : Setter templateOrigin := λ v m,
  Build_Model
    (width m) (height m) (environments m) (templates m) (focusPane m) (selectedEnv m)
    (selectedWindow m) (selectedTemplate m) (sessions m) (sessionWindows m)
    (createMode m) (createField m) (createName m) (createRoot m) (createTemplate m)
    (createCustom m) (templateMode m) (templateField m) (templateName m)
    (templateSpec m) (templateEditing m) v (showShortcuts m) (showThemePicker m)
    (themeQuery m) (themePickerCursor m) (killConfirm m) (deleteConfirm m)
    (templateDeleteConfirm m) (pendingSelect m) (pendingTemplateSelect m) (themes m)
    (themeIndex m) (status m) (previewContent m) (previewSession m) (previewWindow m)
    (previewProcess m).
#[global] Instance set_showShortcuts : Setter showShortcuts := λ v m,
  Build_Model
    (width m) (height m) (environments m) (templates m) (focusPane m) (selectedEnv m)
    (selectedWindow m) (selectedTemplate m) (sessions m) (sessionWindows m)
    (createMode m) (createField m) (createName m) (createRoot m) (createTemplate m)
    (createCustom m) (templateMode m) (templateField m) (templateName m)
    (templateSpec m) (templateEditing m) (templateOrigin m) v (showThemePicker m)
    (themeQuery m) (themePickerCursor m) (killConfirm m) (deleteConfirm m)
    (templateDeleteConfirm m) (pendingSelect m) (pendingTemplateSelect m) (themes m)
    (themeIndex m) (status m) (previewContent m) (previewSession m) (previewWindow m)
    (previewProcess m).
#[global] Instance set_showThemePicker : Setter showThemePicker := λ v m,
  Build_Model
    (width m) (height m) (environments m) (templates m) (focusPane m) (selectedEnv m)
    (selectedWindow m) (selectedTemplate m) (sessions m) (sessionWindows m)
    (createMode m) (createField m) (createName m) (createRoot m) (createTemplate m)
    (createCustom m) (templateMode m) (templateField m) (templateName m)
    (templateSpec m) (templateEditing m) (templateOrigin m) (showShortcuts m) v
    (themeQuery m) (themePickerCursor m) (killConfirm m) (deleteConfirm m)
    (templateDeleteConfirm m) (pendingSelect m) (pendingTemplateSelect m) (themes m)
    (themeIndex m) (status m) (previewContent m) (previewSession m) (previewWindow m)
    (previewProcess m).
#[global] Instance set_themeQuery : Setter themeQuery := λ v m,
  Build_Model
    (width m) (height m) (environments m) (templates m) (focusPane m) (selectedEnv m)
    (selectedWindow m) (selectedTemplate m) (sessions m) (sessionWindows m)
    (createMode m) (createField m) (createName m) (createRoot m) (createTemplate m)
    (createCustom m) (templateMode m) (templateField m) (templateName m)
    (templateSpec m) (templateEditing m) (templateOrigin m) (showShortcuts m)
    (showThemePicker m) v (themePickerCursor m) (killConfirm m) (deleteConfirm m)
    (templateDeleteConfirm m) (pendingSelect m) (pendingTemplateSelect m) (themes m)
    (themeIndex m) (status m) (previewContent m) (previewSession m) (previewWindow m)
    (previewProcess m).
#[global] Instance set_themePickerCursor : Setter themePickerCursor := λ v m,
  Build_Model
    (width m) (height m) (environments m) (templates m) (focusPane m) (selectedEnv m)
    (selectedWindow m) (selectedTemplate m) (sessions m) (sessionWindows m)
    (createMode m) (createField m) (createName m) (createRoot m) (createTemplate m)
    (createCustom m) (templateMode m) (templateField m) (templateName m)
    (templateSpec m) (templateEditing m) (templateOrigin m) (showShortcuts m)
    (showThemePicker m) (themeQuery m) v (killConfirm m) (deleteConfirm m)
    (templateDeleteConfirm m) (pendingSelect m) (pendingTemplateSelect m) (themes m)
    (themeIndex m) (status m) (previewContent m) (previewSession m) (previewWindow m)
    (previewProcess m).
#[global] Instance set_killConfirm : Setter killConfirm := λ v m,
  Build_Model
    (width m) (height m) (environments m) (templates m) (focusPane m) (selectedEnv m)
    (selectedWindow m) (selectedTemplate m) (sessions m) (sessionWindows m)
    (createMode m) (createField m) (createName m) (createRoot m) (createTemplate m)
    (createCustom m) (templateMode m) (templateField m) (templateName m)
    (templateSpec m) (templateEditing m) (templateOrigin m) (showShortcuts m)
    (showThemePicker m) (themeQuery m) (themePickerCursor m) v (deleteConfirm m)
    (templateDeleteConfirm m) (pendingSelect m) (pendingTemplateSelect m) (themes m)
    (themeIndex m) (status m) (previewContent m) (previewSession m) (previewWindow m)
    (previewProcess m).
#[global] Instance set_deleteConfirm : Setter deleteConfirm := λ v m,
  Build_Model
    (width m) (height m) (environments m) (templates m) (focusPane m) (selectedEnv m)
    (selectedWindow m) (selectedTemplate m) (sessions m) (sessionWindows m)
    (createMode m) (createField m) (createName m) (createRoot m) (createTemplate m)
    (createCustom m) (templateMode m) (templateField m) (templateName m)
    (templateSpec m) (templateEditing m) (templateOrigin m) (showShortcuts m)
    (showThemePicker m) (themeQuery m) (themePickerCursor m) (killConfirm m) v
    (templateDeleteConfirm m) (pendingSelect m) (pendingTemplateSelect m) (themes m)
    (themeIndex m) (status m) (previewContent m) (previewSession m) (previewWindow m)
    (previewProcess m).
#[global] Instance set_templateDeleteConfirm : Setter templateDeleteConfirm := λ v m,
  Build_Model
    (width m) (height m) (environments m) (templates m) (focusPane m) (selectedEnv m)
    (selectedWindow m) (selectedTemplate m) (sessions m) (sessionWindows m)
    (createMode m) (createField m) (createName m) (createRoot m) (createTemplate m)
    (createCustom m) (templateMode m) (templateField m) (templateName m)
    (templateSpec m) (templateEditing m) (templateOrigin m) (showShortcuts m)
    (showThemePicker m) (themeQuery m) (themePickerCursor m) (killConfirm m)
    (deleteConfirm m) v (pendingSelect m) (pendingTemplateSelect m) (themes m)
    (themeIndex m) (status m) (previewContent m) (previewSession m) (previewWindow m)
    (previewProcess m).
#[global] Instance set_pendingSelect : Setter pendingSelect := λ v m,
  Build_Model
    (width m) (height m) (environments m) (templates m) (focusPane m) (selectedEnv m)
    (selectedWindow m) (selectedTemplate m) (sessions m) (sessionWindows m)
    (createMode m) (createField m) (createName m) (createRoot m) (createTemplate m)
    (createCustom m) (templateMode m) (templateField m) (templateName m)
    (templateSpec m) (templateEditing m) (templateOrigin m) (showShortcuts m)
    (showThemePicker m) (themeQuery m) (themePickerCursor m) (killConfirm m)
    (deleteConfirm m) (templateDeleteConfirm m) v (pendingTemplateSelect m) (themes m)
    (themeIndex m) (status m) (previewContent m) (previewSession m) (previewWindow m)
    (previewProcess m).
#[global] Instance set_pendingTemplateSelect : Setter pendingTemplateSelect := λ v m,
  Build_Model
    (width m) (height m) (environments m) (templates m) (focusPane m) (selectedEnv m)
    (selectedWindow m) (selectedTemplate m) (sessions m) (sessionWindows m)
    (createMode m) (createField m) (createName m) (createRoot m) (createTemplate m)
    (createCustom m) (templateMode m) (templateField m) (templateName m)
    (templateSpec m) (templateEditing m) (templateOrigin m) (showShortcuts m)
    (showThemePicker m) (themeQuery m) (themePickerCursor m) (killConfirm m)
    (deleteConfirm m) (templateDeleteConfirm m) (pendingSelect m) v (themes m)
    (themeIndex m) (status m) (previewContent m) (previewSession m) (previewWindow m)
    (previewProcess m).
#[global] Instance set_themes : Setter themes := λ v m,
  Build_Model
    (width m) (height m) (environments m) (templates m) (focusPane m) (selectedEnv m)
    (selectedWindow m) (selectedTemplate m) (sessions m) (sessionWindows m)
    (createMode m) (createField m) (createName m) (createRoot m) (createTemplate m)
    (createCustom m) (templateMode m) (templateField m) (templateName m)
    (templateSpec m) (templateEditing m) (templateOrigin m) (showShortcuts m)
    (showThemePicker m) (themeQuery m) (themePickerCursor m) (killConfirm m)
    (deleteConfirm m) (templateDeleteConfirm m) (pendingSelect m)
    (pendingTemplateSelect m) v (themeIndex m) (status m) (previewContent m)
    (previewSession m) (previewWindow m) (previewProcess m).
#[global] Instance set_themeIndex : Setter themeIndex := λ v m,
  Build_Model
    (width m) (height m) (environments m) (templates m) (focusPane m) (selectedEnv m)
    (selectedWindow m) (selectedTemplate m) (sessions m) (sessionWindows m)
    (createMode m) (createField m) (createName m) (createRoot m) (createTemplate m)
    (createCustom m) (templateMode m) (templateField m) (templateName m)
    (templateSpec m) (templateEditing m) (templateOrigin m) (showShortcuts m)
    (showThemePicker m) (themeQuery m) (themePickerCursor m) (killConfirm m)
    (deleteConfirm m) (templateDeleteConfirm m) (pendingSelect m)
    (pendingTemplateSelect m) (themes m) v (status m) (previewContent m)
    (previewSession m) (previewWindow m) (previewProcess m).
#[global] Instance set_status : Setter status := λ v m,
  Build_Model
    (width m) (height m) (environments m) (templates m) (focusPane m) (selectedEnv m)
    (selectedWindow m) (selectedTemplate m) (sessions m) (sessionWindows m)
    (createMode m) (createField m) (createName m) (createRoot m) (createTemplate m)
    (createCustom m) (templateMode m) (templateField m) (templateName m)
    (templateSpec m) (templateEditing m) (templateOrigin m) (showShortcuts m)
    (showThemePicker m) (themeQuery m) (themePickerCursor m) (killConfirm m)
    (deleteConfirm m) (templateDeleteConfirm m) (pendingSelect m)
    (pendingTemplateSelect m) (themes m) (themeIndex m) v (previewContent m)
    (previewSession m) (previewWindow m) (previewProcess m).
#[global] Instance set_previewContent : Setter previewContent := λ v m,
  Build_Model
    (width m) (height m) (environments m) (templates m) (focusPane m) (selectedEnv m)
    (selectedWindow m) (selectedTemplate m) (sessions m) (sessionWindows m)
    (createMode m) (createField m) (createName m) (createRoot m) (createTemplate m)
    (createCustom m) (templateMode m) (templateField m) (templateName m)
    (templateSpec m) (templateEditing m) (templateOrigin m) (showShortcuts m)
    (showThemePicker m) (themeQuery m) (themePickerCursor m) (killConfirm m)
    (deleteConfirm m) (templateDeleteConfirm m) (pendingSelect m)
    (pendingTemplateSelect m) (themes m) (themeIndex m) (status m) v (previewSession m)
    (previewWindow m) (previewProcess m).
#[global] Instance set_previewSession : Setter previewSession := λ v m,
  Build_Model
    (width m) (height m) (environments m) (templates m) (focusPane m) (selectedEnv m)
    (selectedWindow m) (selectedTemplate m) (sessions m) (sessionWindows m)
    (createMode m) (createField m) (createName m) (createRoot m) (createTemplate m)
    (createCustom m) (templateMode m) (templateField m) (templateName m)
    (templateSpec m) (templateEditing m) (templateOrigin m) (showShortcuts m)
    (showThemePicker m) (themeQuery m) (themePickerCursor m) (killConfirm m)
    (deleteConfirm m) (templateDeleteConfirm m) (pendingSelect m)
    (pendingTemplateSelect m) (themes m) (themeIndex m) (status m) (previewContent m) v
    (previewWindow m) (previewProcess m).
#[global] Instance set_previewWindow : Setter previewWindow := λ v m,
  Build_Model
    (width m) (height m) (environments m) (templates m) (focusPane m) (selectedEnv m)
    (selectedWindow m) (selectedTemplate m) (sessions m) (sessionWindows m)
    (createMode m) (createField m) (createName m) (createRoot m) (createTemplate m)
    (createCustom m) (templateMode m) (templateField m) (templateName m)
    (templateSpec m) (templateEditing m) (templateOrigin m) (showShortcuts m)
    (showThemePicker m) (themeQuery m) (themePickerCursor m) (killConfirm m)
    (deleteConfirm m) (templateDeleteConfirm m) (pendingSelect m)
    (pendingTemplateSelect m) (themes m) (themeIndex m) (status m) (previewContent m)
    (previewSession m) v (previewProcess m).
#[global] Instance set_previewProcess : Setter previewProcess := λ v m,
  Build_Model
    (width m) (height m) (environments m) (templates m) (focusPane m) (selectedEnv m)
    (selectedWindow m) (selectedTemplate m) (sessions m) (sessionWindows m)
    (createMode m) (createField m) (createName m) (createRoot m) (createTemplate m)
    (createCustom m) (templateMode m) (templateField m) (templateName m)
    (templateSpec m) (templateEditing m) (templateOrigin m) (showShortcuts m)
    (showThemePicker m) (themeQuery m) (themePickerCursor m) (killConfirm m)
    (deleteConfirm m) (templateDeleteConfirm m) (pendingSelect m)
    (pendingTemplateSelect m) (themes m) (themeIndex m) (status m) (previewContent m)
    (previewSession m) (previewWindow m) v.

Inductive Msg :=
| WindowSizeMsg (Width Height : Z)
| KeyMsg (msg : tea.KeyMsg)
| configLoadedMsg (envs : list Environment.t) (templates : list Template.t)
    (theme : string) (err : option error)
| sessionsLoadedMsg (names : list string) (windows : gmap string (list string))
    (err : option error)
| attachReadyMsg (target : string) (err : option error)
| attachDoneMsg (err : option error)
| environmentCreatedMsg (env : Environment.t) (sessionErr err : option error)
| windowMovedMsg (envName : string) (direction : Z) (sessionErr err : option error)
| templateSavedMsg (name : string) (edited : bool) (err : option error)
| templateDeletedMsg (name : string) (err : option error)
| sessionKilledMsg (session : string) (err : option error)
| environmentDeletedMsg (environment session : string) (killed : bool)
    (err : option error)
| themePersistedMsg (name : string) (err : option error)
| panePreviewMsg (session window content process : string)
| otherMsg.

(** A [tea.Cmd] is a closure; here it is the request it stands for.  The
    bodies of the closures are in module [exec]. *)
Inductive Cmd :=
| nilCmd
| tea_Quit
| tea_Batch (c1 c2 : Cmd)
| loadConfigCmd
| loadSessionsCmd
| saveThemePreferenceCmd (theme : string)
| createEnvironmentCmd (name root : string) (windows : list WindowTemplate.t)
| saveTemplateCmd (originalName name : string) (windows : list WindowTemplate.t)
| killSessionCmd (session : string)
| deleteTemplateCmd (name : string)
| deleteEnvironmentCmd (name : string)
| moveWindowOrderCmd (envName windowName : string) (direction : Z)
| prepareAttachCmd (env : Environment.t) (windowName : string)
| execAttachCmd (target : string)
| capturePaneCmd (session window : string).

(** [l[i]] of Go: [None] is the panic of an index out of range. *)
Definition index {A} (l : list A) (i : Z) : option A :=
  if i <? 0 then None else l !! Z.to_nat i.

(** [for i := range l { if p l[i] { ...i...; break } }]: the first hit. *)
Fixpoint firstIndex {A} (p : A → bool) (l : list A) : option Z :=
  match l with
  | [] => None
  | x :: l' => if p x then Some 0 else Z.succ <$> firstIndex p l'
  end.

Definition oneOf (key : string) (cases : list string) : bool :=
  bool_decide (key ∈ cases).

(** *** The window-spec codec *)

Definition formatWindowEntry (w : WindowTemplate.t) : option string :=
  let name := strings.TrimSpace (WindowTemplate.Name w) in
  if decide (name = "") then None
  else
    let cmd := strings.TrimSpace (WindowTemplate.Cmd w) in
    let cwd := strings.TrimSpace (WindowTemplate.Cwd w) in
    Some (if decide (cmd ≠ "" ∨ cwd ≠ "") then
            let entry := name +:+ "=" +:+ cmd in
            if decide (cwd ≠ "") then entry +:+ "|" +:+ cwd else entry
          else name).

Definition formatWindowSpec (windows : list WindowTemplate.t) : string :=
  if decide (len windows = 0) then ""
  else strings.Join (omap formatWindowEntry windows) ";".

Definition splitWindowEntries (spec : string) : list string :=
  let spec := strings.TrimSpace spec in
  if decide (spec = "") then []
  else
    let separator := if strings.Contains spec ";" then ";"%char else ","%char in
    let raw := strings.Split spec separator in
    filter (λ item, item ≠ "") (strings.TrimSpace <$> raw).

Definition parseWindowEntry (entry : string) : error + WindowTemplate.t :=
  let entry := strings.TrimSpace entry in
  if decide (entry = "") then inl (Errorf "empty window entry" [])
  else if strings.Contains entry "=" then
    let parts := strings.SplitN2 entry "=" in
    let name := strings.TrimSpace (parts !!! 0%nat) in
    if decide (name = "") then
      inl (Errorf "window name cannot be empty in %q" [entry])
    else
      let cmdPart := strings.TrimSpace (parts !!! 1%nat) in
      if strings.Contains cmdPart "|" then
        let cmdCwd := strings.SplitN2 cmdPart "|" in
        inr (WindowTemplate.mk name (strings.TrimSpace (cmdCwd !!! 0%nat))
               (strings.TrimSpace (cmdCwd !!! 1%nat)))
      else inr (WindowTemplate.mk name cmdPart "")
  else if strings.Contains entry "|" then
    let parts := strings.Split entry "|" in
    if 3 <? len parts then inl (Errorf "invalid window entry %q" [entry])
    else
      let name := strings.TrimSpace (parts !!! 0%nat) in
      if decide (name = "") then
        inl (Errorf "window name cannot be empty in %q" [entry])
      else
        let cmd := if 2 <=? len parts then strings.TrimSpace (parts !!! 1%nat) else "" in
        let cwd := if len parts =? 3 then strings.TrimSpace (parts !!! 2%nat) else "" in
        inr (WindowTemplate.mk name cmd cwd)
  else
    let name := strings.TrimSpace entry in
    if decide (name = "") then inl (Errorf "window name cannot be empty" [])
    else inr (WindowTemplate.mk name "" "").

(** The loop of [parseWindowSpec]: stop at the first entry that fails. *)
Fixpoint parseWindowEntries (entries : list string) : error + list WindowTemplate.t :=
  match entries with
  | [] => inr []
  | entry :: rest =>
      match parseWindowEntry entry with
      | inl err => inl err
      | inr window =>
          match parseWindowEntries rest with
          | inl err => inl err
          | inr windows => inr (window :: windows)
          end
      end
  end.

Definition parseWindowSpec (spec : string) : error + list WindowTemplate.t :=
  let entries := splitWindowEntries spec in
  if decide (len entries = 0) then inl (Errorf "at least one window is required" [])
  else parseWindowEntries entries.

Definition cloneWindowTemplates (windows : list WindowTemplate.t)
  : list WindowTemplate.t := windows.

Definition normalizeWindowName (name : string) : string :=
  let name := strings.TrimSpace name in
  if decide (name = "") then "shell" else strings.ReplaceAll name " " "-".

(** *** Themes *)

(** [applyThemeStyles] rebuilds the package-level lipgloss styles of the
    renderer; they are not part of [Model], so only what [applyCurrentTheme]
    does to the model is kept. *)
Definition applyCurrentTheme (m : Model) : Model :=
  let m := if decide (len (themes m) = 0) then m <| themes := defaultThemes |> else m in
  if decide (len (themes m) = 0) then m
  else if (themeIndex m <? 0) || (len (themes m) <=? themeIndex m)
       then m <| themeIndex := 0 |>
       else m.

Definition currentThemeName (m : Model) : string :=
  if decide (len (themes m) = 0) then ""
  else
    let idx := themeIndex m in
    let idx := if (idx <? 0) || (len (themes m) <=? idx) then 0 else idx in
    from_option uiTheme.Name "" (index (themes m) idx).

Definition themeIndexByName (m : Model) (name : string) : option Z :=
  let name := strings.TrimSpace name in
  if decide (name = "") then None
  else firstIndex
         (λ t, strings.EqualFold (strings.TrimSpace (uiTheme.Name t)) name)
         (themes m).

(** The loop of [filteredThemeIndices], from index [idx] on. *)
Fixpoint filteredFrom (query : string) (idx : Z) (ts : list uiTheme.t) : list Z :=
  match ts with
  | [] => []
  | t :: ts' =>
      if bool_decide (query = "") || strings.Contains (strings.ToLower (uiTheme.Name t)) query
      then idx :: filteredFrom query (idx + 1) ts'
      else filteredFrom query (idx + 1) ts'
  end.

Definition filteredThemeIndices (m : Model) : list Z :=
  let query := strings.ToLower (strings.TrimSpace (themeQuery m)) in
  filteredFrom query 0 (themes m).

Definition normalizeThemePickerCursor (m : Model) : Model :=
  let indices := filteredThemeIndices m in
  if decide (len indices = 0) then m <| themePickerCursor := 0 |>
  else
    let m := if themePickerCursor m <? 0 then m <| themePickerCursor := 0 |> else m in
    if len indices <=? themePickerCursor m
    then m <| themePickerCursor := len indices - 1 |>
    else m.

Definition openThemePicker (m : Model) : Model :=
  let m := m <| showThemePicker := true |> <| showShortcuts := false |>
             <| themeQuery := "" |> <| themePickerCursor := 0 |> in
  let indices := filteredThemeIndices m in
  match firstIndex (λ themeIdx, themeIdx =? themeIndex m) indices with
  | Some i => m <| themePickerCursor := i |>
  | None => m
  end.

Definition updateThemePickerMode (m : Model) (msg : tea.KeyMsg) : option (Model * Cmd) :=
  let key := tea.key_String msg in
  if oneOf key ["esc"] then
    Some (m <| showThemePicker := false |> <| status := "Theme picker closed." |>, nilCmd)
  else if oneOf key ["q"; "ctrl+c"] then Some (m, tea_Quit)
  else if oneOf key ["up"; "k"] then
    Some (normalizeThemePickerCursor
            (m <| themePickerCursor := themePickerCursor m - 1 |>), nilCmd)
  else if oneOf key ["down"; "j"] then
    Some (normalizeThemePickerCursor
            (m <| themePickerCursor := themePickerCursor m + 1 |>), nilCmd)
  else if oneOf key ["backspace"; "ctrl+h"] then
    Some (normalizeThemePickerCursor
            (m <| themeQuery := trimLastRune (themeQuery m) |>), nilCmd)
  else if oneOf key ["ctrl+u"] then
    Some (normalizeThemePickerCursor (m <| themeQuery := "" |>), nilCmd)
  else if oneOf key ["enter"] then
    let indices := filteredThemeIndices m in
    if decide (len indices = 0) then
      Some (m <| status := "No theme matches the search query." |>, nilCmd)
    else
      selectedThemeIndex ← index indices (themePickerCursor m);
      let m := applyCurrentTheme (m <| themeIndex := selectedThemeIndex |>) in
      let m := m <| showThemePicker := false |> in
      let themeName := currentThemeName m in
      Some (m <| status := "Theme: " +:+ themeName |>, saveThemePreferenceCmd themeName)
  else if bool_decide (tea.Runes msg ≠ "") && negb (tea.Alt msg) then
    Some (normalizeThemePickerCursor
            (m <| themeQuery := themeQuery m +:+ tea.Runes msg |>), nilCmd)
  else Some (m, nilCmd).

(** *** Selection *)

Definition currentEnv (m : Model) : option Environment.t :=
  if decide (len (environments m) = 0) then None
  else if (selectedEnv m <? 0) || (len (environments m) <=? selectedEnv m) then None
  else index (environments m) (selectedEnv m).

Definition currentWindowNames (m : Model) : list string :=
  match currentEnv m with
  | None => []
  | Some env =>
      let session := tmux.SessionName (Environment.Name env) in
      match sessionWindows m !! session with
      | Some windows =>
          if 0 <? len windows then windows else tmux.WindowNames env
      | None => tmux.WindowNames env
      end
  end.

Definition moveEnv (delta : Z) (m : Model) : Model :=
  if decide (len (environments m) = 0) then
    m <| selectedEnv := 0 |> <| selectedWindow := 0 |>
  else
    let m := m <| selectedEnv := selectedEnv m + delta |> in
    let m := if selectedEnv m <? 0 then m <| selectedEnv := 0 |> else m in
    let m := if len (environments m) <=? selectedEnv m
             then m <| selectedEnv := len (environments m) - 1 |> else m in
    m <| selectedWindow := 0 |>.

Definition moveWindow (delta : Z) (m : Model) : Model :=
  let windows := currentWindowNames m in
  if decide (len windows = 0) then m <| selectedWindow := 0 |>
  else
    let m := m <| selectedWindow := selectedWindow m + delta |> in
    let m := if selectedWindow m <? 0 then m <| selectedWindow := 0 |> else m in
    if len windows <=? selectedWindow m
    then m <| selectedWindow := len windows - 1 |> else m.

Definition moveTemplate (delta : Z) (m : Model) : Model :=
  if decide (len (templates m) = 0) then m <| selectedTemplate := 0 |>
  else
    let m := m <| selectedTemplate := selectedTemplate m + delta |> in
    let m := if selectedTemplate m <? 0 then m <| selectedTemplate := 0 |> else m in
    if len (templates m) <=? selectedTemplate m
    then m <| selectedTemplate := len (templates m) - 1 |> else m.

Definition normalizeSelection (m : Model) : Model :=
  let m :=
    if decide (len (environments m) = 0) then
      m <| selectedEnv := 0 |> <| selectedWindow := 0 |>
    else
      let m := if len (environments m) <=? selectedEnv m
               then m <| selectedEnv := len (environments m) - 1 |> else m in
      let m := if selectedEnv m <? 0 then m <| selectedEnv := 0 |> else m in
      let wins := currentWindowNames m in
      if decide (len wins = 0) then m <| selectedWindow := 0 |>
      else
        let m := if len wins <=? selectedWindow m
                 then m <| selectedWindow := len wins - 1 |> else m in
        if selectedWindow m <? 0 then m <| selectedWindow := 0 |> else m in
  if decide (len (templates m) = 0) then m <| selectedTemplate := 0 |>
  else
    let m := if len (templates m) <=? selectedTemplate m
             then m <| selectedTemplate := len (templates m) - 1 |> else m in
    if selectedTemplate m <? 0 then m <| selectedTemplate := 0 |> else m.

Definition toggleFocusPane (m : Model) : Model :=
  if decide (focusPane m = focusPaneEnvironments) then m <| focusPane := focusPaneWindows |>
  else if decide (focusPane m = focusPaneWindows) then m <| focusPane := focusPaneTemplates |>
  else m <| focusPane := focusPaneEnvironments |>.

Definition parsePaneShortcut (key : string) : option Z :=
  if oneOf key ["1"] then Some focusPaneEnvironments
  else if oneOf key ["2"] then Some focusPaneWindows
  else if oneOf key ["3"] then Some focusPaneTemplates
  else None.

Definition focusedPaneStatus (pane : Z) : string :=
  if decide (pane = focusPaneEnvironments) then "Focused [1] Sessions panel"
  else if decide (pane = focusPaneWindows) then "Focused [2] Windows panel"
  else if decide (pane = focusPaneTemplates) then "Focused [3] Templates panel"
  else "Focused panel".

Definition captureCurrentWindowCmd (m : Model) : option Cmd :=
  match currentEnv m with
  | None => Some nilCmd
  | Some env =>
      let session := tmux.SessionName (Environment.Name env) in
      if bool_decide (session ∉ sessions m) then Some nilCmd
      else
        let windows := currentWindowNames m in
        if bool_decide (len windows = 0) || (len windows <=? selectedWindow m)
        then Some nilCmd
        else w ← index windows (selectedWindow m); Some (capturePaneCmd session w)
  end.

(** *** Templates panel *)

Definition currentTemplate (m : Model) : option Template.t :=
  if decide (len (templates m) = 0) then None
  else if (selectedTemplate m <? 0) || (len (templates m) <=? selectedTemplate m) then None
  else index (templates m) (selectedTemplate m).

Definition openCreateTemplateMode (m : Model) : Model :=
  m <| templateMode := true |> <| createMode := false |>
    <| templateField := templateFieldName |> <| templateName := "" |>
    <| templateSpec := "" |> <| templateEditing := false |>
    <| templateOrigin := "" |>
    <| status := "Template mode: name and window spec." |>.

Definition startEditTemplateMode (m : Model) : Model * Cmd :=
  match currentTemplate m with
  | None => (m <| status := "No template selected." |>, nilCmd)
  | Some tpl =>
      (m <| templateMode := true |> <| createMode := false |>
         <| templateField := templateFieldName |>
         <| templateName := Template.Name tpl |>
         <| templateSpec := formatWindowSpec (Template.Windows tpl) |>
         <| templateEditing := true |>
         <| templateOrigin := Template.Name tpl |>
         <| status := "Edit template mode." |>, nilCmd)
  end.

Definition startDeleteTemplate (m : Model) : Model * Cmd :=
  match currentTemplate m with
  | None => (m <| status := "No template selected." |>, nilCmd)
  | Some tpl =>
      let name := strings.TrimSpace (Template.Name tpl) in
      if decide (name = "") then
        (m <| status := "Selected template has empty name." |>, nilCmd)
      else if decide (templateDeleteConfirm m ≠ name) then
        (m <| templateDeleteConfirm := name |>
           <| status := "Press d again to delete template: " +:+ name |>, nilCmd)
      else
        (m <| templateDeleteConfirm := "" |> <| status := "Deleting template..." |>,
         deleteTemplateCmd name)
  end.

(** *** Sessions and windows panels *)

Definition startAttachSelected (m : Model) : option (Model * Cmd) :=
  match currentEnv m with
  | None => Some (m <| status := "No environment selected." |>, nilCmd)
  | Some env =>
      let windows := currentWindowNames m in
      wName ← (if (0 <? len windows) && (selectedWindow m <? len windows)
               then index windows (selectedWindow m) else Some "");
      Some (m <| status := "Preparing tmux session..." |>, prepareAttachCmd env wName)
  end.

Definition startMoveWindow (direction : Z) (m : Model) : option (Model * Cmd) :=
  match currentEnv m with
  | None => Some (m <| status := "No environment selected." |>, nilCmd)
  | Some env =>
      let windows := currentWindowNames m in
      if len windows <? 2 then
        Some (m <| status := "Need at least two windows to reorder." |>, nilCmd)
      else if (selectedWindow m <? 0) || (len windows <=? selectedWindow m) then
        Some (m <| status := "No window selected." |>, nilCmd)
      else if (direction <? 0) && (selectedWindow m =? 0) then
        Some (m <| status := "Window is already first." |>, nilCmd)
      else if (0 <? direction) && (selectedWindow m =? len windows - 1) then
        Some (m <| status := "Window is already last." |>, nilCmd)
      else
        windowName ← index windows (selectedWindow m);
        Some (m <| status := "Reordering window..." |>,
              moveWindowOrderCmd (Environment.Name env) windowName direction)
  end.

Definition startKillSession (m : Model) : Model * Cmd :=
  match currentEnv m with
  | None => (m <| status := "No environment selected." |>, nilCmd)
  | Some env =>
      let session := tmux.SessionName (Environment.Name env) in
      if bool_decide (session ∉ sessions m) then
        (m <| status := "Session is not running: " +:+ session |>
           <| killConfirm := "" |>, nilCmd)
      else if decide (killConfirm m ≠ session) then
        (m <| killConfirm := session |>
           <| status := "Press x again to kill session: " +:+ session |>, nilCmd)
      else
        (m <| killConfirm := "" |> <| status := "Killing session..." |>,
         killSessionCmd session)
  end.

Definition startDeleteEnvironment (m : Model) : Model * Cmd :=
  match currentEnv m with
  | None => (m <| status := "No environment selected." |>, nilCmd)
  | Some env =>
      let name := strings.TrimSpace (Environment.Name env) in
      if decide (name = "") then
        (m <| status := "Selected environment has empty name." |>, nilCmd)
      else if decide (deleteConfirm m ≠ name) then
        (m <| deleteConfirm := name |>
           <| status := "Press d again to delete environment: " +:+ name |>, nilCmd)
      else
        (m <| deleteConfirm := "" |> <| status := "Deleting environment..." |>,
         deleteEnvironmentCmd name)
  end.

(** *** The create-environment form *)

Definition normalizeCreateTemplate (m : Model) : Model :=
  if decide (len (templates m) = 0) then m <| createTemplate := 0 |>
  else
    let total := len (templates m) + 1 in
    let m := if createTemplate m <? 0 then m <| createTemplate := 0 |> else m in
    if total <=? createTemplate m then m <| createTemplate := 0 |> else m.

Definition defaultTemplateIndex (m : Model) : Z :=
  default 0 (firstIndex (λ t, strings.EqualFold (Template.Name t) "default") (templates m)).

Definition isCustomTemplateSelected (m : Model) : bool :=
  if decide (len (templates m) = 0) then true
  else len (templates m) <=? createTemplate m.

Definition createTemplateOptions (m : Model) : list string :=
  (Template.Name <$> templates m) ++ ["custom"].

Definition selectedCreateTemplateName (m : Model) : string :=
  let options := createTemplateOptions m in
  if decide (len options = 0) then "custom"
  else
    let idx := createTemplate m in
    let idx := if idx <? 0 then 0 else idx in
    let idx := if len options <=? idx then len options - 1 else idx in
    default "" (index options idx).

Definition moveCreateTemplate (delta : Z) (m : Model) : Model :=
  let options := createTemplateOptions m in
  if decide (len options = 0) then m <| createTemplate := 0 |>
  else
    let m := m <| createTemplate := createTemplate m + delta |> in
    let m := if createTemplate m <? 0
             then m <| createTemplate := len options - 1 |> else m in
    let m := if len options <=? createTemplate m
             then m <| createTemplate := 0 |> else m in
    if negb (isCustomTemplateSelected m) && (createField m =? createFieldCustomWindows)
    then m <| createField := createFieldTemplate |>
    else m.

Definition createFieldOrder (m : Model) : list Z :=
  let order := [createFieldName; createFieldRoot; createFieldTemplate] in
  if isCustomTemplateSelected m then order ++ [createFieldCustomWindows] else order.

Definition shiftCreateField (direction : Z) (m : Model) : Model :=
  let order := createFieldOrder m in
  if decide (len order = 0) then m <| createField := createFieldName |>
  else
    let current := default 0 (firstIndex (λ f, f =? createField m) order) in
    let current := current + direction in
    let current := if current <? 0 then len order - 1 else current in
    let current := if len order <=? current then 0 else current in
    m <| createField := default createFieldName (index order current) |>.

Definition isCreateLastField (m : Model) : bool :=
  let order := createFieldOrder m in
  match last order with
  | None => true
  | Some f => createField m =? f
  end.

Definition appendCreateField (s : string) (m : Model) : Model :=
  if decide (createField m = createFieldName) then m <| createName := createName m +:+ s |>
  else if decide (createField m = createFieldRoot) then m <| createRoot := createRoot m +:+ s |>
  else if decide (createField m = createFieldCustomWindows)
       then m <| createCustom := createCustom m +:+ s |>
  else m.

Definition backspaceCreateField (m : Model) : Model :=
  if decide (createField m = createFieldName)
  then m <| createName := trimLastRune (createName m) |>
  else if decide (createField m = createFieldRoot)
  then m <| createRoot := trimLastRune (createRoot m) |>
  else if decide (createField m = createFieldCustomWindows)
  then m <| createCustom := trimLastRune (createCustom m) |>
  else m.

Definition clearCreateField (m : Model) : Model :=
  if decide (createField m = createFieldName) then m <| createName := "" |>
  else if decide (createField m = createFieldRoot) then m <| createRoot := "" |>
  else if decide (createField m = createFieldCustomWindows) then m <| createCustom := "" |>
  else m.

Definition resolveCreateWindows (m : Model) : error + list WindowTemplate.t :=
  if isCustomTemplateSelected m then parseWindowSpec (createCustom m)
  else if (createTemplate m <? 0) || (len (templates m) <=? createTemplate m)
  then inl (Errorf "selected template is invalid" [])
  else match index (templates m) (createTemplate m) with
       | Some t => inr (cloneWindowTemplates (Template.Windows t))
       | None => inl (Errorf "selected template is invalid" [])
       end.

Section WithHost.
Context `{Host}.

Definition updateCreateMode (m : Model) (msg : tea.KeyMsg) : Model * Cmd :=
  let key := tea.key_String msg in
  if oneOf key ["ctrl+c"] then (m, tea_Quit)
  else if oneOf key ["esc"] then
    (m <| createMode := false |> <| createField := createFieldName |>
       <| createName := "" |> <| createRoot := "" |>
       <| createTemplate := defaultTemplateIndex m |> <| createCustom := "" |>
       <| status := "Create canceled." |>, nilCmd)
  else if oneOf key ["tab"; "down"] then (shiftCreateField 1 m, nilCmd)
  else if oneOf key ["shift+tab"; "up"] then (shiftCreateField (-1) m, nilCmd)
  else if oneOf key ["left"] then
    (if decide (createField m = createFieldTemplate) then moveCreateTemplate (-1) m else m,
     nilCmd)
  else if oneOf key ["right"] then
    (if decide (createField m = createFieldTemplate) then moveCreateTemplate 1 m else m,
     nilCmd)
  else if oneOf key ["backspace"; "ctrl+h"] then (backspaceCreateField m, nilCmd)
  else if oneOf key ["ctrl+u"] then (clearCreateField m, nilCmd)
  else if oneOf key ["enter"] then
    if negb (isCreateLastField m) then (shiftCreateField 1 m, nilCmd)
    else
      let name := strings.TrimSpace (createName m) in
      let root := strings.TrimSpace (createRoot m) in
      if decide (name = "" ∨ root = "") then
        if decide (name = "") then
          (m <| createField := createFieldName |> <| status := "Name is required." |>,
           nilCmd)
        else
          (m <| createField := createFieldRoot |>
             <| status := "Root path is required." |>, nilCmd)
      else
        match resolveCreateWindows m with
        | inl err =>
            let m := m <| status := "Template error: " +:+ Error err |> in
            (if isCustomTemplateSelected m
             then m <| createField := createFieldCustomWindows |> else m, nilCmd)
        | inr windows =>
            (m <| status := "Creating environment and tmux session..." |>,
             createEnvironmentCmd name root windows)
        end
  else if bool_decide (tea.Runes msg ≠ "") && negb (tea.Alt msg)
  then (appendCreateField (tea.Runes msg) m, nilCmd)
  else (m, nilCmd).

(** *** The template form *)

Definition appendTemplateField (s : string) (m : Model) : Model :=
  if decide (templateField m = templateFieldName)
  then m <| templateName := templateName m +:+ s |>
  else m <| templateSpec := templateSpec m +:+ s |>.

Definition backspaceTemplateField (m : Model) : Model :=
  if decide (templateField m = templateFieldName)
  then m <| templateName := trimLastRune (templateName m) |>
  else m <| templateSpec := trimLastRune (templateSpec m) |>.

Definition clearTemplateField (m : Model) : Model :=
  if decide (templateField m = templateFieldName) then m <| templateName := "" |>
  else m <| templateSpec := "" |>.

Definition updateTemplateMode (m : Model) (msg : tea.KeyMsg) : Model * Cmd :=
  let key := tea.key_String msg in
  if oneOf key ["ctrl+c"] then (m, tea_Quit)
  else if oneOf key ["esc"] then
    (m <| templateMode := false |> <| templateEditing := false |>
       <| templateOrigin := "" |> <| templateField := templateFieldName |>
       <| templateName := "" |> <| templateSpec := "" |>
       <| status := "Template mode canceled." |>, nilCmd)
  else if oneOf key ["tab"; "down"; "up"; "shift+tab"] then
    (if decide (templateField m = templateFieldName)
     then m <| templateField := templateFieldWindows |>
     else m <| templateField := templateFieldName |>, nilCmd)
  else if oneOf key ["backspace"; "ctrl+h"] then (backspaceTemplateField m, nilCmd)
  else if oneOf key ["ctrl+u"] then (clearTemplateField m, nilCmd)
  else if oneOf key ["enter"] then
    if decide (templateField m = templateFieldName) then
      (m <| templateField := templateFieldWindows |>, nilCmd)
    else
      let name := strings.TrimSpace (templateName m) in
      if decide (name = "") then
        (m <| templateField := templateFieldName |>
           <| status := "Template name is required." |>, nilCmd)
      else
        match parseWindowSpec (templateSpec m) with
        | inl err =>
            (m <| templateField := templateFieldWindows |>
               <| status := "Template windows error: " +:+ Error err |>, nilCmd)
        | inr windows =>
            let m := m <| status := "Saving template..." |> in
            let origin := if templateEditing m then templateOrigin m else "" in
            (m, saveTemplateCmd origin name windows)
        end
  else if bool_decide (tea.Runes msg ≠ "") && negb (tea.Alt msg)
  then (appendTemplateField (tea.Runes msg) m, nilCmd)
  else (m, nilCmd).

(** *** Normal mode, by focused panel *)

Definition updateEnvironmentPanelKey (m : Model) (key : string) : option (Model * Cmd) :=
  if oneOf key ["up"; "k"] then
    let m := moveEnv (-1) m in c ← captureCurrentWindowCmd m; Some (m, c)
  else if oneOf key ["down"; "j"] then
    let m := moveEnv 1 m in c ← captureCurrentWindowCmd m; Some (m, c)
  else if oneOf key ["a"] then
    Some (m <| createMode := true |> <| templateMode := false |>
            <| createField := createFieldName |> <| createName := "" |>
            <| createRoot := "" |> <| createTemplate := defaultTemplateIndex m |>
            <| createCustom := "" |>
            <| status := "Create mode: enter environment name and root path." |>,
          nilCmd)
  else if oneOf key ["t"] then
    Some (m <| status := "Switch to [3] Templates panel for template actions" |>, nilCmd)
  else if oneOf key ["x"] then Some (startKillSession m)
  else if oneOf key ["d"] then Some (startDeleteEnvironment m)
  else if oneOf key ["left"; "right"; "h"; "l"] then
    Some (m <| status := "[1] Sessions panel focused" |>, nilCmd)
  else if oneOf key ["H"; "L"] then
    Some (m <| status := "Window reorder is available in [2] Windows panel" |>, nilCmd)
  else if oneOf key ["enter"] then startAttachSelected m
  else Some (m, nilCmd).

Definition updateWindowPanelKey (m : Model) (key : string) : option (Model * Cmd) :=
  if oneOf key ["left"; "h"; "up"; "k"] then
    let m := moveWindow (-1) m in c ← captureCurrentWindowCmd m; Some (m, c)
  else if oneOf key ["right"; "l"; "down"; "j"] then
    let m := moveWindow 1 m in c ← captureCurrentWindowCmd m; Some (m, c)
  else if oneOf key ["x"; "d"] then
    Some (m <| status := "Switch to [1] Sessions panel for this action" |>, nilCmd)
  else if oneOf key ["a"] then
    Some (m <| status := "Switch to [1] Sessions panel to create environments" |>, nilCmd)
  else if oneOf key ["t"; "e"; "c"] then
    Some (m <| status := "Switch to [3] Templates panel for template actions" |>, nilCmd)
  else if oneOf key ["H"] then startMoveWindow (-1) m
  else if oneOf key ["L"] then startMoveWindow 1 m
  else if oneOf key ["enter"] then startAttachSelected m
  else Some (m, nilCmd).

Definition updateTemplatesPanelKey (m : Model) (key : string) : Model * Cmd :=
  if oneOf key ["up"; "k"] then (moveTemplate (-1) m, nilCmd)
  else if oneOf key ["down"; "j"] then (moveTemplate 1 m, nilCmd)
  else if oneOf key ["a"] then (openCreateTemplateMode m, nilCmd)
  else if oneOf key ["e"; "enter"] then startEditTemplateMode m
  else if oneOf key ["d"] then startDeleteTemplate m
  else if oneOf key ["left"; "right"; "h"; "l"] then
    (m <| status := "[3] Templates panel focused" |>, nilCmd)
  else if oneOf key ["x"] then
    (m <| status := "Session kill is available in [1] Sessions panel" |>, nilCmd)
  else (m, nilCmd).

(** *** The state machine *)

Definition NewModel : Model :=
  applyCurrentTheme
    {| width := 0; height := 0; environments := []; templates := [];
       focusPane := focusPaneEnvironments;
       selectedEnv := 0; selectedWindow := 0; selectedTemplate := 0;
       sessions := ∅; sessionWindows := ∅;
       createMode := false; createField := 0; createName := ""; createRoot := "";
       createTemplate := 0; createCustom := "";
       templateMode := false; templateField := 0; templateName := "";
       templateSpec := ""; templateEditing := false; templateOrigin := "";
       showShortcuts := false; showThemePicker := false; themeQuery := "";
       themePickerCursor := 0;
       killConfirm := ""; deleteConfirm := ""; templateDeleteConfirm := "";
       pendingSelect := ""; pendingTemplateSelect := "";
       themes := defaultThemes; themeIndex := 0;
       status := "Loading environments...";
       previewContent := ""; previewSession := ""; previewWindow := "";
       previewProcess := "" |}.

Definition Init (m : Model) : Cmd := tea_Batch loadConfigCmd loadSessionsCmd.

Definition updateKey (m : Model) (msg : tea.KeyMsg) : option (Model * Cmd) :=
  let key := tea.key_String msg in
  if decide (key = "ctrl+t") then
    if showThemePicker m then
      Some (m <| showThemePicker := false |> <| status := "Theme picker closed." |>, nilCmd)
    else
      Some (openThemePicker m
              <| status := "Theme picker open. Type to filter, Enter to apply." |>, nilCmd)
  else if decide (key = "?") then
    let m := m <| showThemePicker := false |>
               <| showShortcuts := negb (showShortcuts m) |> in
    if showShortcuts m
    then Some (m <| status := "Shortcuts open. Press ? or Esc to close." |>, nilCmd)
    else Some (m <| status := "Shortcuts closed." |>, nilCmd)
  else if showThemePicker m then updateThemePickerMode m msg
  else if showShortcuts m then
    if oneOf key ["esc"] then
      Some (m <| showShortcuts := false |> <| status := "Shortcuts closed." |>, nilCmd)
    else if oneOf key ["q"; "ctrl+c"] then Some (m, tea_Quit)
    else Some (m, nilCmd)
  else if createMode m then Some (updateCreateMode m msg)
  else if templateMode m then Some (updateTemplateMode m msg)
  else
    let m := if decide (key ≠ "x") then m <| killConfirm := "" |> else m in
    let m := if decide (key ≠ "d")
             then m <| deleteConfirm := "" |> <| templateDeleteConfirm := "" |>
             else m in
    match parsePaneShortcut key with
    | Some pane =>
        let m := m <| focusPane := pane |> <| status := focusedPaneStatus pane |> in
        c ← captureCurrentWindowCmd m; Some (m, c)
    | None =>
        if oneOf key ["q"; "ctrl+c"] then Some (m, tea_Quit)
        else if oneOf key ["tab"] then
          let m := toggleFocusPane m in
          let m := m <| status := focusedPaneStatus (focusPane m) |> in
          c ← captureCurrentWindowCmd m; Some (m, c)
        else if oneOf key ["r"] then
          Some (m <| status := "Refreshing..." |>, tea_Batch loadConfigCmd loadSessionsCmd)
        else if decide (focusPane m = focusPaneEnvironments)
        then updateEnvironmentPanelKey m key
        else if decide (focusPane m = focusPaneWindows)
        then updateWindowPanelKey m key
        else Some (updateTemplatesPanelKey m key)
    end.

Definition Update (m : Model) (msg : Msg) : option (Model * Cmd) :=
  match msg with
  | WindowSizeMsg Width Height =>
      Some (m <| width := Width |> <| height := Height |>, nilCmd)

  | KeyMsg msg => updateKey m msg

  | configLoadedMsg envs tpls theme err =>
      match err with
      | Some err => Some (m <| status := "Config error: " +:+ Error err |>, nilCmd)
      | None =>
          let m := m <| environments := envs |> <| templates := tpls |> in
          let m :=
            match themeIndexByName m theme with
            | Some idx =>
                if decide (idx ≠ themeIndex m)
                then applyCurrentTheme (m <| themeIndex := idx |>) else m
            | None => m
            end in
          let m := normalizeCreateTemplate m in
          let m :=
            if decide (strings.TrimSpace (pendingSelect m) ≠ "") then
              let m :=
                match firstIndex
                        (λ e, strings.EqualFold (Environment.Name e) (pendingSelect m))
                        (environments m) with
                | Some i => m <| selectedEnv := i |> <| selectedWindow := 0 |>
                | None => m
                end in
              m <| pendingSelect := "" |>
            else m in
          let m :=
            if decide (strings.TrimSpace (pendingTemplateSelect m) ≠ "") then
              let m :=
                match firstIndex
                        (λ t, strings.EqualFold (Template.Name t) (pendingTemplateSelect m))
                        (templates m) with
                | Some i => m <| selectedTemplate := i |>
                | None => m
                end in
              m <| pendingTemplateSelect := "" |>
            else m in
          let m := normalizeSelection m in
          let m :=
            if decide (len (environments m) = 0) then
              match ConfigFilePath with
              | inl _ => m <| status := "No environments configured." |>
              | inr path => m <| status := "No environments configured in " +:+ path |>
              end
            else if strings.HasPrefix (status m) "Loading"
                    || strings.HasPrefix (status m) "Refreshing"
                    || strings.HasPrefix (status m) "No environments configured"
            then m <| status := "Ready. Enter attaches, Ctrl-b d detaches back here." |>
            else m in
          Some (m, nilCmd)
      end

  | sessionsLoadedMsg names windows err =>
      match err with
      | Some err => Some (m <| status := "Tmux error: " +:+ Error err |>, nilCmd)
      | None =>
          let m := m <| sessions := list_to_set names |>
                     <| sessionWindows := windows |> in
          let m := normalizeSelection m in
          c ← captureCurrentWindowCmd m; Some (m, c)
      end

  | panePreviewMsg session window content process =>
      Some (m <| previewContent := content |> <| previewSession := session |>
              <| previewWindow := window |> <| previewProcess := process |>, nilCmd)

  | themePersistedMsg name err =>
      match err with
      | Some err =>
          Some (m <| status := "Theme applied but not saved: " +:+ Error err |>, nilCmd)
      | None => Some (m <| status := "Theme: " +:+ name |>, nilCmd)
      end

  | attachReadyMsg target err =>
      match err with
      | Some err => Some (m <| status := "Attach failed: " +:+ Error err |>, nilCmd)
      | None =>
          Some (m <| status := "Attached. Detach with Ctrl-b d to return." |>,
                execAttachCmd target)
      end

  | attachDoneMsg err =>
      match err with
      | Some err =>
          Some (m <| status := "Returned from tmux with error: " +:+ Error err |>,
                loadSessionsCmd)
      | None => Some (m <| status := "Returned from tmux." |>, loadSessionsCmd)
      end

  | environmentCreatedMsg env sessionErr err =>
      match err with
      | Some err => Some (m <| status := "Create failed: " +:+ Error err |>, nilCmd)
      | None =>
          let m := m <| createMode := false |> <| createName := "" |>
                     <| createRoot := "" |> <| createField := createFieldName |>
                     <| createTemplate := defaultTemplateIndex m |>
                     <| createCustom := "" |>
                     <| pendingSelect := Environment.Name env |> in
          let m :=
            match sessionErr with
            | Some e =>
                m <| status := "Environment saved, but tmux session was not created: "
                                 +:+ Error e |>
            | None =>
                m <| status := "Environment and tmux session created. Press Enter to attach." |>
            end in
          Some (m, tea_Batch loadConfigCmd loadSessionsCmd)
      end

  | windowMovedMsg envName direction sessionErr err =>
      match err with
      | Some err => Some (m <| status := "Reorder failed: " +:+ Error err |>, nilCmd)
      | None =>
          let m := if direction <? 0 then moveWindow (-1) m else moveWindow 1 m in
          let m := m <| pendingSelect := envName |> in
          let m :=
            match sessionErr with
            | Some e =>
                m <| status := "Template order saved, but live tmux reorder failed: "
                                 +:+ Error e |>
            | None =>
                if direction <? 0 then m <| status := "Window moved left." |>
                else m <| status := "Window moved right." |>
            end in
          Some (m, tea_Batch loadConfigCmd loadSessionsCmd)
      end

  | templateSavedMsg name edited err =>
      match err with
      | Some err => Some (m <| status := "Template save failed: " +:+ Error err |>, nilCmd)
      | None =>
          let m := m <| templateMode := false |> <| templateEditing := false |>
                     <| templateOrigin := "" |> <| templateField := templateFieldName |>
                     <| templateName := "" |> <| templateSpec := "" |>
                     <| pendingTemplateSelect := name |> in
          Some (if edited then m <| status := "Template updated: " +:+ name |>
                else m <| status := "Template created: " +:+ name |>, loadConfigCmd)
      end

  | templateDeletedMsg name err =>
      match err with
      | Some err => Some (m <| status := "Template delete failed: " +:+ Error err |>, nilCmd)
      | None =>
          Some (m <| templateDeleteConfirm := "" |>
                  <| status := "Template deleted: " +:+ name |>, loadConfigCmd)
      end

  | sessionKilledMsg session err =>
      match err with
      | Some err => Some (m <| status := "Kill failed: " +:+ Error err |>, nilCmd)
      | None =>
          Some (m <| status := "Killed session: " +:+ session |> <| killConfirm := "" |>,
                loadSessionsCmd)
      end

  | environmentDeletedMsg environment session killed err =>
      match err with
      | Some err => Some (m <| status := "Delete failed: " +:+ Error err |>, nilCmd)
      | None =>
          let m := m <| deleteConfirm := "" |> in
          Some (if killed
                then m <| status := "Deleted environment " +:+ environment
                                      +:+ " and killed session " +:+ session |>
                else m <| status := "Deleted environment " +:+ environment |>,
                tea_Batch loadConfigCmd loadSessionsCmd)
      end

  | otherMsg => Some (m, nilCmd)
  end.

End WithHost.
End ui.

(** ** The bodies of the commands

    Each [tea.Cmd] of package ui is a closure that runs off the event loop
    against the config file and the tmux server and returns one message. *)

Module exec.
Import config.
Import ui.

Record World := { disk : config.Disk; server : tmux.Server }.

Section WithHost.
Context `{Host}.

Definition normalizeRootPath (value : string) : string :=
  let value := ExpandEnv (strings.TrimSpace value) in
  let value :=
    if strings.HasPrefix value "~/" then
      match UserHomeDir with
      | Some home => filepath_Join [home; String.substring 2 (String.length value - 2) value]
      | None => value
      end
    else value in
  if decide (value = "") then value else filepath_Clean value.

Definition envLess (a b : Environment.t) : bool :=
  strings.lt (strings.ToLower (Environment.Name a)) (strings.ToLower (Environment.Name b)).

Definition templateLess (a b : Template.t) : bool :=
  let leftDefault := strings.EqualFold (Template.Name a) "default" in
  let rightDefault := strings.EqualFold (Template.Name b) "default" in
  if leftDefault && negb rightDefault then true
  else if negb leftDefault && rightDefault then false
  else strings.lt (strings.ToLower (Template.Name a)) (strings.ToLower (Template.Name b)).

Definition loadConfigCmd (w : World) : Msg * World :=
  let '(r, d) := config.LoadAll (disk w) in
  let w := {| disk := d; server := server w |} in
  match r with
  | inl err => (configLoadedMsg [] [] "" (Some err), w)
  | inr data =>
      let theme := strings.TrimSpace (Theme data) in
      let envs := sort_Slice _ envLess (Environments data) in
      let templates := sort_SliceStable templateLess (Templates data) in
      (configLoadedMsg envs templates theme None, w)
  end.

(** The loop of [loadSessionsCmd] over the session names. *)
Fixpoint listAllWindows (names : list string) (s : tmux.Server)
  : error + gmap string (list string) :=
  match names with
  | [] => inr ∅
  | name :: rest =>
      match tmux.ListWindows name s with
      | inl winErr => inl winErr
      | inr ws =>
          match listAllWindows rest s with
          | inl winErr => inl winErr
          | inr windows => inr (<[name := ws]> windows)
          end
      end
  end.

Definition loadSessionsCmd (w : World) : Msg * World :=
  match tmux.ListSessions (server w) with
  | inl err => (sessionsLoadedMsg [] ∅ (Some err), w)
  | inr names =>
      match listAllWindows names (server w) with
      | inl winErr => (sessionsLoadedMsg [] ∅ (Some winErr), w)
      | inr windows => (sessionsLoadedMsg names windows None, w)
      end
  end.

Definition saveThemePreferenceCmd (theme : string) (w : World) : Msg * World :=
  let theme := strings.TrimSpace theme in
  if decide (theme = "") then
    (themePersistedMsg "" (Some (Errorf "theme name is required" [])), w)
  else
    let '(err, d) := config.SaveTheme theme (disk w) in
    (themePersistedMsg theme err, {| disk := d; server := server w |}).

Definition createEnvironmentCmd (name root : string) (windows : list WindowTemplate.t)
    (w : World) : Msg * World :=
  let name := strings.TrimSpace name in
  let root := normalizeRootPath root in
  let failed err w := (environmentCreatedMsg Environment.zero None (Some err), w) in
  if decide (name = "") then failed (Errorf "name is required" []) w
  else if decide (root = "") then failed (Errorf "root path is required" []) w
  else
    let '(r, d) := config.LoadAll (disk w) in
    let w := {| disk := d; server := server w |} in
    match r with
    | inl err => failed err w
    | inr data =>
        if existsb (λ env, strings.EqualFold (strings.TrimSpace (Environment.Name env)) name)
             (Environments data)
        then failed (Errorf "environment %q already exists" [name]) w
        else
          let windows := if decide (len windows = 0) then config.DefaultWindows else windows in
          let newEnv := Environment.mk name root "" "" (cloneWindowTemplates windows) in
          let data := {| Environments := Environments data ++ [newEnv];
                         Templates := Templates data; Theme := Theme data |} in
          let '(e, d) := config.SaveAll data (disk w) in
          let w := {| disk := d; server := server w |} in
          match e with
          | Some err => failed err w
          | None =>
              match tmux.CheckTmuxExists (server w) with
              | Some sessionErr => (environmentCreatedMsg newEnv (Some sessionErr) None, w)
              | None =>
                  let '(sessionErr, s) := tmux.EnsureSession newEnv (server w) in
                  (environmentCreatedMsg newEnv sessionErr None,
                   {| disk := disk w; server := s |})
              end
          end
    end.

Definition saveTemplateCmd (originalName name : string) (windows : list WindowTemplate.t)
    (w : World) : Msg * World :=
  let originalName := strings.TrimSpace originalName in
  let name := strings.TrimSpace name in
  let failed err w := (templateSavedMsg "" false (Some err), w) in
  if decide (name = "") then failed (Errorf "template name is required" []) w
  else if decide (len windows = 0)
  then failed (Errorf "template must contain at least one window" []) w
  else
    let '(r, d) := config.LoadAll (disk w) in
    let w := {| disk := d; server := server w |} in
    match r with
    | inl err => failed err w
    | inr data =>
        let targetIdx :=
          if decide (originalName ≠ "") then
            firstIndex
              (λ t, strings.EqualFold (strings.TrimSpace (Template.Name t)) originalName)
              (Templates data)
          else None in
        if bool_decide (originalName ≠ "" ∧ targetIdx = None)
        then failed (Errorf "template %q not found" [originalName]) w
        else
          let clash :=
            firstIndex
              (λ it, strings.EqualFold (strings.TrimSpace (Template.Name it.2)) name
                     && negb (bool_decide (targetIdx = Some it.1)))
              (zip (seqZ 0 (len (Templates data))) (Templates data)) in
          if bool_decide (is_Some clash)
          then failed (Errorf "template %q already exists" [name]) w
          else
            let template := Template.mk name (cloneWindowTemplates windows) in
            let edited := bool_decide (is_Some targetIdx) in
            let templates :=
              match targetIdx with
              | Some i => <[Z.to_nat i := template]> (Templates data)
              | None => Templates data ++ [template]
              end in
            let data := {| Environments := Environments data; Templates := templates;
                           Theme := Theme data |} in
            let '(e, d) := config.SaveAll data (disk w) in
            let w := {| disk := d; server := server w |} in
            match e with
            | Some err => failed err w
            | None => (templateSavedMsg name edited None, w)
            end
    end.

Definition killSessionCmd (session : string) (w : World) : Msg * World :=
  match tmux.CheckTmuxExists (server w) with
  | Some err => (sessionKilledMsg session (Some err), w)
  | None =>
      let '(err, s) := tmux.KillSession session (server w) in
      (sessionKilledMsg session err, {| disk := disk w; server := s |})
  end.

Definition deleteTemplateCmd (name : string) (w : World) : Msg * World :=
  let name := strings.TrimSpace name in
  let failed err w := (templateDeletedMsg "" (Some err), w) in
  if decide (name = "") then failed (Errorf "template name is required" []) w
  else
    let '(r, d) := config.LoadAll (disk w) in
    let w := {| disk := d; server := server w |} in
    match r with
    | inl err => failed err w
    | inr data =>
        match firstIndex
                (λ t, strings.EqualFold (strings.TrimSpace (Template.Name t)) name)
                (Templates data) with
        | None => failed (Errorf "template %q not found" [name]) w
        | Some idx =>
            let deletedName :=
              from_option Template.Name "" (index (Templates data) idx) in
            let data := {| Environments := Environments data;
                           Templates := delete (Z.to_nat idx) (Templates data);
                           Theme := Theme data |} in
            let '(e, d) := config.SaveAll data (disk w) in
            let w := {| disk := d; server := server w |} in
            match e with
            | Some err => failed err w
            | None => (templateDeletedMsg deletedName None, w)
            end
        end
    end.

Definition deleteEnvironmentCmd (name : string) (w : World) : Msg * World :=
  let failed err w := (environmentDeletedMsg "" "" false (Some err), w) in
  let '(r, d) := config.LoadAll (disk w) in
  let w := {| disk := d; server := server w |} in
  match r with
  | inl err => failed err w
  | inr data =>
      match firstIndex
              (λ e, strings.EqualFold (strings.TrimSpace (Environment.Name e))
                      (strings.TrimSpace name))
              (Environments data) with
      | None => failed (Errorf "environment %q not found" [name]) w
      | Some idx =>
          let removed := default Environment.zero (index (Environments data) idx) in
          let data := {| Environments := delete (Z.to_nat idx) (Environments data);
                         Templates := Templates data; Theme := Theme data |} in
          let '(e, d) := config.SaveAll data (disk w) in
          let w := {| disk := d; server := server w |} in
          match e with
          | Some err => failed err w
          | None =>
              let session := tmux.SessionName (Environment.Name removed) in
              if bool_decide (tmux.CheckTmuxExists (server w) = None)
                 && tmux.HasSession session (server w)
              then
                let '(err, s) := tmux.KillSession session (server w) in
                let w := {| disk := disk w; server := s |} in
                match err with
                | Some err => failed err w
                | None =>
                    (environmentDeletedMsg (Environment.Name removed) session true None, w)
                end
              else (environmentDeletedMsg (Environment.Name removed) session false None, w)
          end
      end
  end.

Definition moveWindowOrderCmd (envName windowName : string) (direction : Z)
    (w : World) : Msg * World :=
  let failed err w := (windowMovedMsg "" 0 None (Some err), w) in
  if decide (direction = 0) then failed (Errorf "direction must be non-zero" []) w
  else
    let '(r, d) := config.Load (disk w) in
    let w := {| disk := d; server := server w |} in
    match r with
    | inl err => failed err w
    | inr envs =>
        match firstIndex
                (λ e, strings.EqualFold (strings.TrimSpace (Environment.Name e))
                        (strings.TrimSpace envName)) envs with
        | None => failed (Errorf "environment %q not found" [envName]) w
        | Some envIdx =>
            let env := default Environment.zero (index envs envIdx) in
            let windows := Environment.Windows env in
            if len windows <? 2 then
              failed (Errorf "environment %q has fewer than 2 windows"
                        [Environment.Name env]) w
            else
              let targetWindow := normalizeWindowName windowName in
              match firstIndex
                      (λ x, bool_decide
                              (normalizeWindowName (WindowTemplate.Name x) = targetWindow))
                      windows with
              | None => failed (Errorf "window %q not found in template" [windowName]) w
              | Some sourceIdx =>
                  let destinationIdx := sourceIdx + direction in
                  if (destinationIdx <? 0) || (len windows <=? destinationIdx) then
                    if direction <? 0 then failed (Errorf "window is already first" []) w
                    else failed (Errorf "window is already last" []) w
                  else
                    let zeroW := WindowTemplate.mk "" "" "" in
                    let src := default zeroW (index windows sourceIdx) in
                    let dst := default zeroW (index windows destinationIdx) in
                    let sourceWindow := normalizeWindowName (WindowTemplate.Name src) in
                    let destinationWindow := normalizeWindowName (WindowTemplate.Name dst) in
                    let windows :=
                      <[Z.to_nat destinationIdx := src]> (<[Z.to_nat sourceIdx := dst]> windows) in
                    let env := Environment.mk (Environment.Name env) (Environment.Root env)
                                 (Environment.Folder env) (Environment.DBConnection env)
                                 windows in
                    let envs := <[Z.to_nat envIdx := env]> envs in
                    let '(e, d) := config.Save envs (disk w) in
                    let w := {| disk := d; server := server w |} in
                    match e with
                    | Some err => failed err w
                    | None =>
                        let session := tmux.SessionName (Environment.Name env) in
                        if tmux.HasSession session (server w) then
                          let '(e, s) :=
                            tmux.swapWindow session sourceWindow destinationWindow
                              (server w) in
                          let w := {| disk := disk w; server := s |} in
                          (windowMovedMsg (Environment.Name env) direction
                             ((λ e, Errorf "swap live tmux windows: %w" [e]) <$> e) None, w)
                        else (windowMovedMsg (Environment.Name env) direction None None, w)
                    end
              end
        end
    end.

(** The body of a command; [None] for the commands that are run by the
    Bubble Tea runtime itself or that hand the terminal to tmux. *)
Definition run (c : Cmd) : option (World → Msg * World) :=
  match c with
  | ui.loadConfigCmd => Some loadConfigCmd
  | ui.loadSessionsCmd => Some loadSessionsCmd
  | ui.saveThemePreferenceCmd theme => Some (saveThemePreferenceCmd theme)
  | ui.createEnvironmentCmd name root windows =>
      Some (createEnvironmentCmd name root windows)
  | ui.saveTemplateCmd originalName name windows =>
      Some (saveTemplateCmd originalName name windows)
  | ui.killSessionCmd session => Some (killSessionCmd session)
  | ui.deleteTemplateCmd name => Some (deleteTemplateCmd name)
  | ui.deleteEnvironmentCmd name => Some (deleteEnvironmentCmd name)
  | ui.moveWindowOrderCmd envName windowName direction =>
      Some (moveWindowOrderCmd envName windowName direction)
  | _ => None
  end.

End WithHost.
End exec.

(** * Facts about package strings *)

Section StringFacts.
Import strings.

Lemma sapp_nil_l s : "" +:+ s = s.
Proof. reflexivity. Qed.

Lemma sapp_cons c s t : String c s +:+ t = String c (s +:+ t).
Proof. reflexivity. Qed.

Lemma sapp_nil_r s : s +:+ "" = s.
Proof. induction s as [|c s IH]; [done|]. by rewrite sapp_cons, IH. Qed.


Lemma sapp_eq_nil a b : a +:+ b = "" → a = "" ∧ b = "".
Proof. destruct a; [done|]. by rewrite sapp_cons. Qed.

(** A byte occurs in a string: [Contains] with a one-byte needle. *)
Lemma Contains_cons a s c :
  Contains (String a s) (String c "") = Ascii.eqb c a || Contains s (String c "").
Proof. simpl. destruct s; by rewrite ?andb_true_r. Qed.

Lemma Contains_nil c : Contains "" (String c "") = false.
Proof. reflexivity. Qed.

Lemma Contains_app s t c :
  Contains (s +:+ t) (String c "") = Contains s (String c "") || Contains t (String c "").
Proof.
  induction s as [|a s IH]; [done|].
  by rewrite sapp_cons, !Contains_cons, IH, orb_assoc.
Qed.

Lemma TrimLeft_cons_keep c s : Ascii.is_space c = false → TrimLeft (String c s) = String c s.
Proof. intros Hc. simpl. by rewrite Hc. Qed.

Lemma TrimRight_app s t :
  TrimRight (s +:+ t) = if decide (TrimRight t = "") then TrimRight s else s +:+ TrimRight t.
Proof.
  induction s as [|a s IH].
  - rewrite sapp_nil_l. by destruct (decide _) as [->|].
  - rewrite sapp_cons. simpl. rewrite IH.
    destruct (decide (TrimRight t = "")) as [E|E]; [done|].
    rewrite sapp_cons. destruct (s +:+ TrimRight t) eqn:E'; [|done].
    by apply sapp_eq_nil in E' as [_ ?].
Qed.

Lemma TrimLeft_suffix s : ∃ p, s = p +:+ TrimLeft s ∧ TrimLeft p = "".
Proof.
  induction s as [|a s [p [IH1 IH2]]]; [by exists ""|].
  simpl. destruct (Ascii.is_space a) eqn:Ha.
  - exists (String a p). rewrite sapp_cons, <-IH1. split; [done|]. simpl. by rewrite Ha.
  - by exists "".
Qed.

Lemma TrimLeft_idem s : TrimLeft (TrimLeft s) = TrimLeft s.
Proof.
  induction s as [|a s IH]; [done|]. simpl.
  destruct (Ascii.is_space a) eqn:Ha; [done|]. simpl. by rewrite Ha.
Qed.

Lemma TrimRight_idem s : TrimRight (TrimRight s) = TrimRight s.
Proof.
  induction s as [|a s IH]; [done|]. simpl.
  destruct (TrimRight s) as [|b r] eqn:E.
  - destruct (Ascii.is_space a) eqn:Ha; [done|]. simpl. by rewrite Ha.
  - simpl in *. by rewrite IH.
Qed.


Lemma TrimLeft_TrimRight s : TrimLeft (TrimRight s) = TrimRight (TrimLeft s).
Proof.
  induction s as [|a s IH]; [done|]. simpl.
  destruct (Ascii.is_space a) eqn:Ha.
  - rewrite <-IH. destruct (TrimRight s) eqn:E; simpl; by rewrite ?Ha.
  - simpl. destruct (TrimRight s); simpl; by rewrite Ha.
Qed.

Lemma TrimSpace_idem s : TrimSpace (TrimSpace s) = TrimSpace s.
Proof.
  unfold TrimSpace. by rewrite <-TrimLeft_TrimRight, TrimRight_idem, TrimLeft_TrimRight, TrimLeft_idem.
Qed.
End StringFacts.
Section StringFacts2.
Import strings.

Lemma TrimSpace_fix s : TrimSpace s = s → TrimLeft s = s ∧ TrimRight s = s.
Proof.
  intros E. assert (TrimLeft s = s) as EL.
  { rewrite <-E at 1. unfold TrimSpace.
    by rewrite <-TrimLeft_TrimRight, TrimLeft_idem, TrimLeft_TrimRight. }
  split; [done|]. unfold TrimSpace in E. by rewrite EL in E.
Qed.

Lemma TrimSpace_parts s : TrimLeft s = s → TrimRight s = s → TrimSpace s = s.
Proof. unfold TrimSpace. by intros -> ->. Qed.

Lemma TrimSpace_TrimLeft s : TrimLeft (TrimSpace s) = TrimSpace s.
Proof. apply TrimSpace_fix, TrimSpace_idem. Qed.

Lemma TrimSpace_TrimRight s : TrimRight (TrimSpace s) = TrimSpace s.
Proof. apply TrimSpace_fix, TrimSpace_idem. Qed.

Lemma length_sapp a b :
  String.length (a +:+ b) = (String.length a + String.length b)%nat.
Proof. induction a as [|x a IH]; [done|]. rewrite sapp_cons. simpl. by rewrite IH. Qed.

(** A string without leading white space, when not empty, starts with a
    byte that is not white space. *)
Lemma TrimLeft_fix_head s :
  TrimLeft s = s → s ≠ "" → ∃ c r, s = String c r ∧ Ascii.is_space c = false.
Proof.
  destruct s as [|c r]; [done|]. intros E _. exists c, r. split; [done|].
  destruct (Ascii.is_space c) eqn:Hc; [|done]. simpl in E. rewrite Hc in E.
  destruct (TrimLeft_suffix r) as [p [E1 _]]. rewrite E in E1.
  apply (f_equal String.length) in E1. revert E1.
  rewrite length_sapp. simpl. lia.
Qed.

Lemma TrimLeft_app_keep a b : TrimLeft a = a → a ≠ "" → TrimLeft (a +:+ b) = a +:+ b.
Proof.
  intros E N. destruct (TrimLeft_fix_head a E N) as (c & r & -> & Hc).
  rewrite sapp_cons. by apply TrimLeft_cons_keep.
Qed.

Lemma TrimRight_app_keep a b : TrimRight b = b → b ≠ "" → TrimRight (a +:+ b) = a +:+ b.
Proof.
  intros E N. rewrite TrimRight_app, E. by destruct (decide _).
Qed.

Lemma TrimSpace_app_keep a b :
  TrimSpace a = a → a ≠ "" → TrimSpace b = b → b ≠ "" → TrimSpace (a +:+ b) = a +:+ b.
Proof.
  intros [Ea _]%TrimSpace_fix Na [_ Eb]%TrimSpace_fix Nb.
  unfold TrimSpace. rewrite TrimLeft_app_keep by done. by apply TrimRight_app_keep.
Qed.






Lemma TrimRight_prefix s : ∃ q, s = TrimRight s +:+ q ∧ TrimRight q = "".
Proof.
  induction s as [|a s (q & IH1 & IH2)]; [by exists ""|].
  simpl. destruct (TrimRight s) as [|b r] eqn:E.
  - destruct (Ascii.is_space a) eqn:Ha.
    + exists (String a s). split; [done|]. simpl. by rewrite E, Ha.
    + exists q. rewrite sapp_cons. split; [|done]. by rewrite IH1 at 1.
  - exists q. rewrite sapp_cons. split; [|done]. by rewrite IH1 at 1.
Qed.

(** *** Counting a byte *)

Fixpoint count (c : ascii) (s : string) : nat :=
  match s with
  | "" => 0
  | String a s' => (if Ascii.eqb a c then 1 else 0) + count c s'
  end.

Lemma count_app c a b : count c (a +:+ b) = (count c a + count c b)%nat.
Proof. induction a as [|x a IH]; [done|]. rewrite sapp_cons. simpl. rewrite IH. lia. Qed.

Lemma Contains_count s c : Contains s (String c "") = false ↔ count c s = 0%nat.
Proof.
  induction s as [|a s IH]; [done|]. rewrite Contains_cons. simpl.
  rewrite (eqb_sym c a). destruct (Ascii.eqb a c); simpl; [split; [done|lia]|]. done.
Qed.

Lemma Contains_count_true s c : Contains s (String c "") = true ↔ (0 < count c s)%nat.
Proof.
  destruct (Contains s (String c "")) eqn:E.
  - split; [|done]. intros _. destruct (count c s) eqn:E'; [|lia].
    apply Contains_count in E'. congruence.
  - apply Contains_count in E. rewrite E. split; [done|lia].
Qed.

Lemma count_TrimLeft_blank c p :
  Ascii.is_space c = false → TrimLeft p = "" → count c p = 0%nat.
Proof.
  intros Hc. induction p as [|a p IH]; [done|]. simpl.
  destruct (Ascii.is_space a) eqn:Ha; [|done]. intros E. rewrite IH by done.
  destruct (Ascii.eqb_spec a c) as [->|]; [congruence|done].
Qed.

Lemma count_TrimRight_blank c q :
  Ascii.is_space c = false → TrimRight q = "" → count c q = 0%nat.
Proof.
  intros Hc. induction q as [|a q IH]; [done|]. simpl.
  destruct (TrimRight q) eqn:E; [|done].
  destruct (Ascii.is_space a) eqn:Ha; [|done]. intros _. rewrite IH by done.
  destruct (Ascii.eqb_spec a c) as [->|]; [congruence|done].
Qed.

Lemma count_TrimSpace c s : Ascii.is_space c = false → count c (TrimSpace s) = count c s.
Proof.
  intros Hc. unfold TrimSpace.
  destruct (TrimLeft_suffix s) as (p & E1 & E2).
  destruct (TrimRight_prefix (TrimLeft s)) as (q & E3 & E4).
  rewrite E1 at 2. rewrite E3 at 2. rewrite !count_app.
  rewrite (count_TrimLeft_blank c p), (count_TrimRight_blank c q) by done. lia.
Qed.

Lemma Contains_TrimSpace c s :
  Ascii.is_space c = false →
  Contains (TrimSpace s) (String c "") = Contains s (String c "").
Proof.
  intros Hc. destruct (Contains s (String c "")) eqn:E.
  - apply Contains_count_true. rewrite count_TrimSpace by done. by apply Contains_count_true.
  - apply Contains_count. rewrite count_TrimSpace by done. by apply Contains_count.
Qed.

(** *** Split, SplitN and Join *)

Lemma Split_not_nil s c : Split s c ≠ [].
Proof. destruct s as [|a s]; [done|]. simpl. destruct (Ascii.eqb a c); [done|]. by destruct (Split s c). Qed.

Lemma length_Split s c : length (Split s c) = S (count c s).
Proof.
  induction s as [|a s IH]; [done|]. simpl.
  destruct (Ascii.eqb a c); simpl; [by rewrite IH|].
  pose proof (Split_not_nil s c). destruct (Split s c); [done|]. simpl in *. lia.
Qed.



Lemma SplitN2_none s c : count c s = 0%nat → SplitN2 s c = [s].
Proof.
  induction s as [|a s IH]; [done|]. simpl.
  destruct (Ascii.eqb a c); [done|]. intros E. by rewrite IH.
Qed.


(** A string with an occurrence of [c] is cut at the first one. *)
Lemma count_cut s c :
  (0 < count c s)%nat → ∃ a b, s = a +:+ String c b ∧ count c a = 0%nat.
Proof.
  induction s as [|x s IH]; simpl; [lia|].
  destruct (Ascii.eqb_spec x c) as [->|Hx].
  - intros _. by exists "", s.
  - intros H. destruct IH as (a & b & -> & Ha); [lia|].
    exists (String x a), b. split; [done|]. simpl.
    destruct (Ascii.eqb_spec x c); [done|lia].
Qed.



End StringFacts2.
(** * The window-spec codec *)

Section Codec.
Import strings config ui.

(** [free c s]: the byte [c] does not occur in [s]. *)
Definition free (c : ascii) (s : string) : Prop := Contains s (String c "") = false.




Lemma free_count c s : free c s ↔ count c s = 0%nat.
Proof. apply Contains_count. Qed.


Lemma count_TrimRight c s : Ascii.is_space c = false → count c (TrimRight s) = count c s.
Proof.
  intros Hc. destruct (TrimRight_prefix s) as (q & E1 & E2).
  rewrite E1 at 2. rewrite count_app, (count_TrimRight_blank c q) by done. lia.
Qed.






(** More than three [|]-separated parts and no [=]: refused. *)
Lemma parseWindowEntry_invalid entry :
  free "=" entry → 3 < len (Split entry "|") →
  parseWindowEntry entry = inl (Errorf "invalid window entry %q" [TrimSpace entry]).
Proof.
  intros He Hlen. unfold parseWindowEntry, free in *.
  rewrite length_Split in Hlen.
  assert (count "|" (TrimSpace entry) = count "|" entry) as Hc by by apply count_TrimSpace.
  destruct (decide _) as [E|_].
  { rewrite E in Hc. simpl in Hc. lia. }
  rewrite Contains_TrimSpace, He by done.
  assert (Contains (TrimSpace entry) "|" = true) as ->.
  { apply Contains_count_true. lia. }
  rewrite length_Split, Hc. by rewrite (proj2 (Z.ltb_lt _ _)) by lia.
Qed.

End Codec.
Section RoundTrip.
Import strings config ui.


















(** Every entry with an [=] is a name, the first [=], and the rest. *)
Lemma entry_eq_form entry :
  Contains entry "=" = true →
  ∃ name rest, entry = name +:+ "=" +:+ rest ∧ free "=" name.
Proof.
  intros H%Contains_count_true. destruct (count_cut _ _ H) as (a & b & -> & Ha).
  exists a, b. split; [done|]. by apply free_count.
Qed.


(** C6: an entry without [=] that [|] splits into more than three segments
    is refused, and the error carries the entry (trimmed, as the decoder
    reads it): its text is the quoted entry after [invalid window entry]. *)
Theorem parseWindowEntry_too_many_segments entry :
  free "=" entry → 3 < len (Split entry "|") →
  parseWindowEntry entry = inl (Errorf "invalid window entry %q" [TrimSpace entry]) ∧
  ∀ `{Host}, Error (Errorf "invalid window entry %q" [TrimSpace entry])
             = "invalid window entry " +:+ strconv_Quote (TrimSpace entry).
Proof.
  intros He Hlen. split; [by apply parseWindowEntry_invalid|].
  intros host. cbn. by rewrite sapp_nil_r.
Qed.

End RoundTrip.

(** * Session names *)

Section SessionName.
Import strings.








End SessionName.

(** * Sorting *)

Section Sorting.
Context {A : Type} (less : A → A → bool).

(** [notAfter a b]: [b] does not sort before [a]. *)
Definition notAfter (a b : A) : Prop := less b a = false.

Lemma insertSorted_perm x l : Permutation (x :: l) (insertSorted less x l).
Proof.
  induction l as [|y l IH]; [done|]. simpl. destruct (less y x); [|done].
  rewrite <-IH. apply perm_swap.
Qed.

Lemma sort_SliceStable_perm l : Permutation l (sort_SliceStable less l).
Proof.
  induction l as [|x l IH]; [done|]. simpl.
  rewrite <-insertSorted_perm. by constructor.
Qed.

Lemma insertSorted_hd x y l :
  notAfter y x → HdRel notAfter y l → HdRel notAfter y (insertSorted less x l).
Proof.
  intros Hyx Hl. destruct l as [|z l]; simpl; [by constructor|].
  destruct (less z x); constructor; [by inversion Hl|done].
Qed.

Lemma insertSorted_sorted x l :
  strictWeak less → Sorted notAfter l → Sorted notAfter (insertSorted less x l).
Proof.
  intros (Hirr & Htr & _). induction 1 as [|y l Hs IH Hhd]; simpl.
  { repeat constructor. }
  destruct (less y x) eqn:E.
  - constructor; [done|]. apply insertSorted_hd; [|done]. unfold notAfter.
    destruct (less x y) eqn:E'; [|done]. by rewrite <-(Hirr y), (Htr y x y).
  - constructor; [by constructor|]. by constructor.
Qed.

Lemma sort_SliceStable_sorted l :
  strictWeak less → Sorted notAfter (sort_SliceStable less l).
Proof.
  intros H. induction l as [|x l IH]; simpl; [constructor|]. by apply insertSorted_sorted.
Qed.


End Sorting.

(** A host to run the program on: paths are left as they are, quoting is by
    apostrophes, and [sort.Slice] happens to be the stable sort. *)
#[refine] Instance plainHost : Host := {|
  UserConfigDir := inr "/home/dev/.config";
  ExpandEnv := id;
  UserHomeDir := Some "/home/dev";
  filepath_Join := λ elems, strings.Join elems "/";
  filepath_Clean := id;
  strconv_Quote := λ s, "'" +:+ s +:+ "'";
  sort_Slice := @sort_SliceStable;
|}.
Proof.
  - intros. apply sort_SliceStable_perm.
  - intros. by apply sort_SliceStable_sorted.
Defined.

Section StringOrder.
Import strings.





End StringOrder.

(** * Loading the config *)

Section LoadConfig.
Import strings config ui.











End LoadConfig.

(** * Selection indices stay in bounds *)

Section Selection.
Import strings config ui.

(** An index into a list of [n] elements: 0 when the list is empty,
    otherwise between 0 and [n - 1]. *)
Definition inBounds (i n : Z) : Prop :=
  (n = 0 → i = 0) ∧ (n ≠ 0 → 0 ≤ i ≤ n - 1).

Definition selectionInv (m : Model) : Prop :=
  inBounds (selectedEnv m) (len (environments m)) ∧
  inBounds (selectedWindow m) (len (currentWindowNames m)) ∧
  inBounds (selectedTemplate m) (len (templates m)) ∧
  inBounds (themePickerCursor m) (len (filteredThemeIndices m)).

(** The states the program can be in: [NewModel], and what [Update] makes
    of such a state and any message. *)
Inductive reachable `{Host} : Model → Prop :=
| reachable_init : reachable NewModel
| reachable_step m msg m' c :
    reachable m → Update m msg = Some (m', c) → reachable m'.

(** The result of a step: it did not panic and the indices are in bounds. *)
Definition stepOK (r : option (Model * Cmd)) : Prop :=
  ∃ m' c, r = Some (m', c) ∧ selectionInv m'.

(** The fields the invariant reads. *)
Definition view (m : Model) :=
  (environments m, selectedEnv m, selectedWindow m, sessionWindows m,
   templates m, selectedTemplate m, themes m, themeQuery m, themePickerCursor m).

(** [currentWindowNames] reads three fields only. *)
Definition windowNamesAt (envs : list Environment.t) (sel : Z)
    (sw : gmap string (list string)) : list string :=
  currentWindowNames
    (NewModel <| environments := envs |> <| selectedEnv := sel |> <| sessionWindows := sw |>).

Lemma currentWindowNames_at m :
  currentWindowNames m = windowNamesAt (environments m) (selectedEnv m) (sessionWindows m).
Proof. reflexivity. Qed.

Lemma filteredThemeIndices_at m :
  filteredThemeIndices m
  = filteredFrom (ToLower (TrimSpace (themeQuery m))) 0 (themes m).
Proof. reflexivity. Qed.

Lemma selectionInv_at m :
  selectionInv m ↔
  inBounds (selectedEnv m) (len (environments m)) ∧
  inBounds (selectedWindow m)
    (len (windowNamesAt (environments m) (selectedEnv m) (sessionWindows m))) ∧
  inBounds (selectedTemplate m) (len (templates m)) ∧
  inBounds (themePickerCursor m)
    (len (filteredFrom (ToLower (TrimSpace (themeQuery m))) 0 (themes m))).
Proof. reflexivity. Qed.

Lemma selectionInv_frame m m' : view m' = view m → selectionInv m → selectionInv m'.
Proof.
  unfold view. intros [= E1 E2 E3 E4 E5 E6 E7 E8 E9]. rewrite !selectionInv_at.
  by rewrite E1, E2, E3, E4, E5, E6, E7, E8, E9.
Qed.

Lemma inBounds_0 n : 0 ≤ n → inBounds 0 n.
Proof. unfold inBounds. lia. Qed.

Lemma inBounds_nonneg i n : inBounds i n → 0 ≤ n → 0 ≤ i.
Proof. unfold inBounds. lia. Qed.

Lemma index_is_Some {A} (l : list A) i : 0 ≤ i < len l → is_Some (index l i).
Proof.
  intros H. unfold index. rewrite (proj2 (Z.ltb_ge _ _)) by lia.
  apply lookup_lt_is_Some. lia.
Qed.

Lemma stepOK_Some m c : selectionInv m → stepOK (Some (m, c)).
Proof. intros. by exists m, c. Qed.

Lemma stepOK_frame m m' c : view m' = view m → selectionInv m → stepOK (Some (m', c)).
Proof. intros E H. apply stepOK_Some. by apply (selectionInv_frame m). Qed.

Lemma captureCurrentWindowCmd_Some m :
  selectionInv m → is_Some (captureCurrentWindowCmd m).
Proof.
  intros (_ & Hw & _). unfold captureCurrentWindowCmd.
  destruct (currentEnv m); [|done]. case_match; [done|].
  destruct (_ || _) eqn:E; [done|]. apply orb_false_iff in E as [E1 E2].
  apply bool_decide_eq_false in E1. apply Z.leb_gt in E2.
  destruct (index_is_Some (currentWindowNames m) (selectedWindow m)) as [w ->]; [|done].
  unfold inBounds in Hw. lia.
Qed.

Lemma stepOK_capture m : selectionInv m → stepOK (c ← captureCurrentWindowCmd m; Some (m, c)).
Proof.
  intros H. destruct (captureCurrentWindowCmd_Some m H) as [c ->]. by apply stepOK_Some.
Qed.

End Selection.

Import config ui.

Create HintDb frame.

(** ** Proof steps for record updates *)

Ltac bounds :=
  repeat match goal with
  | H : _ || _ = false |- _ => apply orb_false_iff in H as [? ?]
  | H : _ && _ = true |- _ => apply andb_true_iff in H as [? ?]
  | H : (_ <? _) = true |- _ => apply Z.ltb_lt in H
  | H : (_ <? _) = false |- _ => apply Z.ltb_ge in H
  | H : (_ <=? _) = true |- _ => apply Z.leb_le in H
  | H : (_ <=? _) = false |- _ => apply Z.leb_gt in H
  | H : (_ =? _) = true |- _ => apply Z.eqb_eq in H
  | H : (_ =? _) = false |- _ => apply Z.eqb_neq in H
  end;
  unfold inBounds in *; lia.

Ltac is_field p :=
  lazymatch p with
  | width => idtac
  | height => idtac
  | environments => idtac
  | templates => idtac
  | focusPane => idtac
  | selectedEnv => idtac
  | selectedWindow => idtac
  | selectedTemplate => idtac
  | sessions => idtac
  | sessionWindows => idtac
  | createMode => idtac
  | createField => idtac
  | createName => idtac
  | createRoot => idtac
  | createTemplate => idtac
  | createCustom => idtac
  | templateMode => idtac
  | templateField => idtac
  | templateName => idtac
  | templateSpec => idtac
  | templateEditing => idtac
  | templateOrigin => idtac
  | showShortcuts => idtac
  | showThemePicker => idtac
  | themeQuery => idtac
  | themePickerCursor => idtac
  | killConfirm => idtac
  | deleteConfirm => idtac
  | templateDeleteConfirm => idtac
  | pendingSelect => idtac
  | pendingTemplateSelect => idtac
  | themes => idtac
  | themeIndex => idtac
  | status => idtac
  | previewContent => idtac
  | previewSession => idtac
  | previewWindow => idtac
  | previewProcess => idtac
  end.

(** Reads of a field of an updated record. *)
Ltac fields :=
  repeat match goal with
  | |- context [?p (set ?f ?v ?m)] =>
      is_field p;
      let t := eval cbn
        [set width height environments templates focusPane selectedEnv selectedWindow
       selectedTemplate sessions sessionWindows createMode createField createName
       createRoot createTemplate createCustom templateMode templateField templateName
       templateSpec templateEditing templateOrigin showShortcuts showThemePicker
       themeQuery themePickerCursor killConfirm deleteConfirm templateDeleteConfirm
       pendingSelect pendingTemplateSelect themes themeIndex status previewContent
       previewSession previewWindow previewProcess set_width set_height
       set_environments set_templates set_focusPane set_selectedEnv set_selectedWindow
       set_selectedTemplate set_sessions set_sessionWindows set_createMode
       set_createField set_createName set_createRoot set_createTemplate
       set_createCustom set_templateMode set_templateField set_templateName
       set_templateSpec set_templateEditing set_templateOrigin set_showShortcuts
       set_showThemePicker set_themeQuery set_themePickerCursor set_killConfirm
       set_deleteConfirm set_templateDeleteConfirm set_pendingSelect
       set_pendingTemplateSelect set_themes set_themeIndex set_status
       set_previewContent set_previewSession set_previewWindow set_previewProcess] in (p (set f v m)) in
      change (p (set f v m)) with t
  end.

(** One [let] whose value has no case analysis left is substituted. *)
Ltac zeta1 :=
  match goal with
  | |- context G [let x := ?v in @?b x] =>
      lazymatch v with
      | context [if _ then _ else _] => fail
      | context [match _ with Some _ => _ | None => _ end] => fail
      | context [let _ := _ in _] => fail
      | _ => idtac
      end;
      let t := eval cbv beta in (b v) in
      let g := context G [t] in change g; fields
  end.

Ltac case1 :=
  match goal with
  | |- context [if ?c then _ else _] =>
      lazymatch type of c with
      | bool => let E := fresh "E" in destruct c eqn:E
      | _ => destruct c
      end
  | |- context [match ?c with Some _ => _ | None => _ end] =>
      let E := fresh "E" in destruct c eqn:E
  | |- context [match ?c with inl _ => _ | inr _ => _ end] =>
      let E := fresh "E" in destruct c eqn:E
  end.

(** Run through the lets and the case analyses of a function body. *)
Ltac run := repeat first [zeta1 | case1].

(** Updates of the other fields do not show in [view]. *)
Lemma view_set_width v m : view (m <| width := v |>) = view m.
Proof. reflexivity. Qed.
Lemma view_set_height v m : view (m <| height := v |>) = view m.
Proof. reflexivity. Qed.
Lemma view_set_focusPane v m : view (m <| focusPane := v |>) = view m.
Proof. reflexivity. Qed.
Lemma view_set_sessions v m : view (m <| sessions := v |>) = view m.
Proof. reflexivity. Qed.
Lemma view_set_createMode v m : view (m <| createMode := v |>) = view m.
Proof. reflexivity. Qed.
Lemma view_set_createField v m : view (m <| createField := v |>) = view m.
Proof. reflexivity. Qed.
Lemma view_set_createName v m : view (m <| createName := v |>) = view m.
Proof. reflexivity. Qed.
Lemma view_set_createRoot v m : view (m <| createRoot := v |>) = view m.
Proof. reflexivity. Qed.
Lemma view_set_createTemplate v m : view (m <| createTemplate := v |>) = view m.
Proof. reflexivity. Qed.
Lemma view_set_createCustom v m : view (m <| createCustom := v |>) = view m.
Proof. reflexivity. Qed.
Lemma view_set_templateMode v m : view (m <| templateMode := v |>) = view m.
Proof. reflexivity. Qed.
Lemma view_set_templateField v m : view (m <| templateField := v |>) = view m.
Proof. reflexivity. Qed.
Lemma view_set_templateName v m : view (m <| templateName := v |>) = view m.
Proof. reflexivity. Qed.
Lemma view_set_templateSpec v m : view (m <| templateSpec := v |>) = view m.
Proof. reflexivity. Qed.
Lemma view_set_templateEditing v m : view (m <| templateEditing := v |>) = view m.
Proof. reflexivity. Qed.
Lemma view_set_templateOrigin v m : view (m <| templateOrigin := v |>) = view m.
Proof. reflexivity. Qed.
Lemma view_set_showShortcuts v m : view (m <| showShortcuts := v |>) = view m.
Proof. reflexivity. Qed.
Lemma view_set_showThemePicker v m : view (m <| showThemePicker := v |>) = view m.
Proof. reflexivity. Qed.
Lemma view_set_killConfirm v m : view (m <| killConfirm := v |>) = view m.
Proof. reflexivity. Qed.
Lemma view_set_deleteConfirm v m : view (m <| deleteConfirm := v |>) = view m.
Proof. reflexivity. Qed.
Lemma view_set_templateDeleteConfirm v m : view (m <| templateDeleteConfirm := v |>) = view m.
Proof. reflexivity. Qed.
Lemma view_set_pendingSelect v m : view (m <| pendingSelect := v |>) = view m.
Proof. reflexivity. Qed.
Lemma view_set_pendingTemplateSelect v m : view (m <| pendingTemplateSelect := v |>) = view m.
Proof. reflexivity. Qed.
Lemma view_set_themeIndex v m : view (m <| themeIndex := v |>) = view m.
Proof. reflexivity. Qed.
Lemma view_set_status v m : view (m <| status := v |>) = view m.
Proof. reflexivity. Qed.
Lemma view_set_previewContent v m : view (m <| previewContent := v |>) = view m.
Proof. reflexivity. Qed.
Lemma view_set_previewSession v m : view (m <| previewSession := v |>) = view m.
Proof. reflexivity. Qed.
Lemma view_set_previewWindow v m : view (m <| previewWindow := v |>) = view m.
Proof. reflexivity. Qed.
Lemma view_set_previewProcess v m : view (m <| previewProcess := v |>) = view m.
Proof. reflexivity. Qed.

#[global] Hint Rewrite
  view_set_width view_set_height view_set_focusPane view_set_sessions
  view_set_createMode view_set_createField view_set_createName view_set_createRoot
  view_set_createTemplate view_set_createCustom view_set_templateMode
  view_set_templateField view_set_templateName view_set_templateSpec
  view_set_templateEditing view_set_templateOrigin view_set_showShortcuts
  view_set_showThemePicker view_set_killConfirm view_set_deleteConfirm
  view_set_templateDeleteConfirm view_set_pendingSelect view_set_pendingTemplateSelect
  view_set_themeIndex view_set_status view_set_previewContent view_set_previewSession
  view_set_previewWindow view_set_previewProcess
  : view.

Section SelectionSteps.
Import strings config ui.

#[local] Arguments windowNamesAt : simpl never.
#[local] Arguments filteredFrom : simpl never.
#[local] Arguments TrimSpace : simpl never.
#[local] Arguments ToLower : simpl never.

Definition cursorInv (m : Model) : Prop :=
  inBounds (themePickerCursor m)
    (len (filteredFrom (ToLower (TrimSpace (themeQuery m))) 0 (themes m))).

Definition selInv3 (m : Model) : Prop :=
  inBounds (selectedEnv m) (len (environments m)) ∧
  inBounds (selectedWindow m)
    (len (windowNamesAt (environments m) (selectedEnv m) (sessionWindows m))) ∧
  inBounds (selectedTemplate m) (len (templates m)).

Lemma selectionInv_split m : selectionInv m ↔ selInv3 m ∧ cursorInv m.
Proof. rewrite selectionInv_at. unfold selInv3, cursorInv. tauto. Qed.

Lemma moveEnv_inv delta m : selectionInv m → selectionInv (moveEnv delta m).
Proof.
  rewrite selectionInv_at. intros (He & Hw & Ht & Hc). cbv beta delta [moveEnv]. run.
  all: rewrite selectionInv_at; simpl in *; repeat split; try done; bounds.
Qed.

Lemma moveWindow_inv delta m : selectionInv m → selectionInv (moveWindow delta m).
Proof.
  rewrite selectionInv_at. intros (He & Hw & Ht & Hc). cbv beta delta [moveWindow]. run.
  all: rewrite selectionInv_at; rewrite ?currentWindowNames_at in *; simpl in *;
    repeat split; try done; bounds.
Qed.

Lemma moveTemplate_inv delta m : selectionInv m → selectionInv (moveTemplate delta m).
Proof.
  rewrite selectionInv_at. intros (He & Hw & Ht & Hc). cbv beta delta [moveTemplate]. run.
  all: rewrite selectionInv_at; simpl in *; repeat split; try done; bounds.
Qed.

Lemma normalizeSelection_inv m : cursorInv m → selectionInv (normalizeSelection m).
Proof.
  unfold cursorInv. intros Hc. cbv beta delta [normalizeSelection]. run.
  all: rewrite selectionInv_at; rewrite ?currentWindowNames_at in *; simpl in *.
  all: repeat split; try done; bounds.
Qed.

Lemma normalizeThemePickerCursor_inv m :
  selInv3 m → selectionInv (normalizeThemePickerCursor m).
Proof.
  intros (He & Hw & Ht). cbv beta delta [normalizeThemePickerCursor].
  rewrite filteredThemeIndices_at. run.
  all: rewrite selectionInv_at; simpl in *; repeat split; try done; bounds.
Qed.

Lemma firstIndex_bound {A} (p : A → bool) l i :
  firstIndex p l = Some i → 0 ≤ i < len l.
Proof.
  revert i. induction l as [|x l IH]; intros i; simpl; [done|].
  destruct (p x); [intros [= <-]; lia|].
  destruct (firstIndex p l) as [j|]; simpl; [|done].
  intros [= <-]. specialize (IH j eq_refl). lia.
Qed.

Lemma openThemePicker_inv m : selectionInv m → selectionInv (openThemePicker m).
Proof.
  rewrite selectionInv_at. intros (He & Hw & Ht & Hc). unfold openThemePicker.
  rewrite filteredThemeIndices_at. simpl.
  destruct (firstIndex _ _) as [i|] eqn:E.
  - apply firstIndex_bound in E.
    rewrite selectionInv_at; simpl; repeat split; try done; bounds.
  - rewrite selectionInv_at; simpl; repeat split; try done; bounds.
Qed.

Lemma applyCurrentTheme_cursor m : cursorInv m → cursorInv (applyCurrentTheme m).
Proof.
  unfold cursorInv. intros Hc. cbv beta delta [applyCurrentTheme]. run; simpl in *; try done.
  all: assert (themes m = []) as Ht by (by destruct (themes m)).
  all: rewrite Ht in Hc; change (filteredFrom _ 0 []) with (@nil Z) in Hc; simpl in Hc.
  all: assert (themePickerCursor m = 0) as -> by bounds; bounds.
Qed.

End SelectionSteps.

(** ** One step of the state machine keeps the indices in bounds *)

Section Steps.
Import strings config ui.
Context `{Host}.

Ltac frame :=
  run; cbn [fst]; autorewrite with view; first [reflexivity | solve [eauto with frame]].

Lemma view_toggleFocusPane m : view (toggleFocusPane m) = view m.
Proof. cbv beta delta [toggleFocusPane]. frame. Qed.

Lemma view_normalizeCreateTemplate m : view (normalizeCreateTemplate m) = view m.
Proof. cbv beta delta [normalizeCreateTemplate]. frame. Qed.

Lemma view_moveCreateTemplate delta m : view (moveCreateTemplate delta m) = view m.
Proof. cbv beta delta [moveCreateTemplate]. frame. Qed.

Lemma view_shiftCreateField direction m : view (shiftCreateField direction m) = view m.
Proof. cbv beta delta [shiftCreateField]. frame. Qed.

Lemma view_appendCreateField s m : view (appendCreateField s m) = view m.
Proof. cbv beta delta [appendCreateField]. frame. Qed.

Lemma view_backspaceCreateField m : view (backspaceCreateField m) = view m.
Proof. cbv beta delta [backspaceCreateField]. frame. Qed.

Lemma view_clearCreateField m : view (clearCreateField m) = view m.
Proof. cbv beta delta [clearCreateField]. frame. Qed.

Lemma view_appendTemplateField s m : view (appendTemplateField s m) = view m.
Proof. cbv beta delta [appendTemplateField]. frame. Qed.

Lemma view_backspaceTemplateField m : view (backspaceTemplateField m) = view m.
Proof. cbv beta delta [backspaceTemplateField]. frame. Qed.

Lemma view_clearTemplateField m : view (clearTemplateField m) = view m.
Proof. cbv beta delta [clearTemplateField]. frame. Qed.

Lemma view_openCreateTemplateMode m : view (openCreateTemplateMode m) = view m.
Proof. cbv beta delta [openCreateTemplateMode]. frame. Qed.

#[local] Hint Resolve view_toggleFocusPane view_normalizeCreateTemplate
  view_moveCreateTemplate view_shiftCreateField view_appendCreateField
  view_backspaceCreateField view_clearCreateField view_appendTemplateField
  view_backspaceTemplateField view_clearTemplateField view_openCreateTemplateMode
  : frame.

Lemma view_startEditTemplateMode m : view (startEditTemplateMode m).1 = view m.
Proof. cbv beta delta [startEditTemplateMode]. frame. Qed.

Lemma view_startDeleteTemplate m : view (startDeleteTemplate m).1 = view m.
Proof. cbv beta delta [startDeleteTemplate]. frame. Qed.

Lemma view_startKillSession m : view (startKillSession m).1 = view m.
Proof. cbv beta delta [startKillSession]. frame. Qed.

Lemma view_startDeleteEnvironment m : view (startDeleteEnvironment m).1 = view m.
Proof. cbv beta delta [startDeleteEnvironment]. frame. Qed.

Lemma view_updateCreateMode m msg : view (updateCreateMode m msg).1 = view m.
Proof. cbv beta delta [updateCreateMode]. frame. Qed.

Lemma view_updateTemplateMode m msg : view (updateTemplateMode m msg).1 = view m.
Proof. cbv beta delta [updateTemplateMode]. frame. Qed.


#[local] Arguments windowNamesAt : simpl never.
#[local] Arguments filteredFrom : simpl never.
#[local] Arguments TrimSpace : simpl never.
#[local] Arguments ToLower : simpl never.

Ltac is_view_field f :=
  lazymatch f with
  | environments => idtac | selectedEnv => idtac | selectedWindow => idtac
  | sessionWindows => idtac | templates => idtac | selectedTemplate => idtac
  | themes => idtac | themeQuery => idtac | themePickerCursor => idtac
  end.

Ltac inv_peel :=
  repeat match goal with
  | |- selectionInv (set ?f ?v ?m') =>
      tryif is_view_field f then fail else
      (apply (selectionInv_frame m'); [autorewrite with view; reflexivity|])
  end.

Lemma selInv3_cursor m : selectionInv m → selInv3 m.
Proof. by intros [? _]%selectionInv_split. Qed.

Lemma applyCurrentTheme_inv m : selectionInv m → selectionInv (applyCurrentTheme m).
Proof.
  intros [H3 Hc]%selectionInv_split. apply selectionInv_split. split.
  - unfold selInv3 in *. cbv beta delta [applyCurrentTheme]. run; by simpl.
  - by apply applyCurrentTheme_cursor.
Qed.

Lemma normalizeCursor_after m m' :
  selectionInv m →
  environments m' = environments m → selectedEnv m' = selectedEnv m →
  selectedWindow m' = selectedWindow m → sessionWindows m' = sessionWindows m →
  templates m' = templates m → selectedTemplate m' = selectedTemplate m →
  selectionInv (normalizeThemePickerCursor m').
Proof.
  intros [H3 _]%selectionInv_split E1 E2 E3 E4 E5 E6.
  apply normalizeThemePickerCursor_inv. unfold selInv3 in *.
  by rewrite E1, E2, E3, E4, E5, E6.
Qed.

Ltac keep :=
  inv_peel;
  lazymatch goal with
  | |- selectionInv (moveEnv _ _) => apply moveEnv_inv; keep
  | |- selectionInv (moveWindow _ _) => apply moveWindow_inv; keep
  | |- selectionInv (moveTemplate _ _) => apply moveTemplate_inv; keep
  | |- selectionInv (openThemePicker _) => apply openThemePicker_inv; keep
  | |- selectionInv (applyCurrentTheme _) => apply applyCurrentTheme_inv; keep
  | |- selectionInv (normalizeThemePickerCursor (set _ _ ?m0)) =>
      apply (normalizeCursor_after m0); [keep|reflexivity..]
  | |- selectionInv (set _ _ _) => fail
  | |- _ =>
      first [ assumption
            | eapply selectionInv_frame; [solve [eauto with frame nocore]|keep] ]
  end.

Lemma stepOK_pair (r : Model * Cmd) : selectionInv r.1 → stepOK (Some r).
Proof. destruct r as [m c]. apply stepOK_Some. Qed.

Ltac leaf :=
  cbn [mbind option_bind];
  lazymatch goal with
  | |- stepOK (Some (_, _)) => apply stepOK_Some; keep
  | |- stepOK (Some _) => apply stepOK_pair; keep
  | |- stepOK (captureCurrentWindowCmd _ ≫= _) => apply stepOK_capture; keep
  end.

#[local] Hint Resolve view_startEditTemplateMode view_startDeleteTemplate
  view_startKillSession view_startDeleteEnvironment view_updateCreateMode
  view_updateTemplateMode : frame.

Lemma updateThemePickerMode_ok m msg :
  selectionInv m → stepOK (updateThemePickerMode m msg).
Proof.
  intros Hm. cbv beta delta [updateThemePickerMode]. run; try leaf.
  rewrite filteredThemeIndices_at in *.
  destruct (index_is_Some (filteredFrom (ToLower (TrimSpace (themeQuery m))) 0 (themes m))
              (themePickerCursor m)) as [x ->].
  { destruct Hm as (_ & _ & _ & Hc). rewrite filteredThemeIndices_at in Hc. bounds. }
  cbn [mbind option_bind]. run. leaf.
Qed.

Lemma currentWindowNames_set_status v m :
  currentWindowNames (m <| status := v |>) = currentWindowNames m.
Proof. reflexivity. Qed.

Lemma startAttachSelected_ok m : selectionInv m → stepOK (startAttachSelected m).
Proof.
  intros Hm. cbv beta delta [startAttachSelected]. run; try leaf.
  destruct (index_is_Some (currentWindowNames m) (selectedWindow m)) as [x Hx].
  { destruct Hm as (_ & Hw & _). bounds. }
  rewrite Hx. cbn [mbind option_bind]. run. leaf.
Qed.

Lemma startMoveWindow_ok direction m :
  selectionInv m → stepOK (startMoveWindow direction m).
Proof.
  intros Hm. cbv beta delta [startMoveWindow]. run; try leaf.
  destruct (index_is_Some (currentWindowNames m) (selectedWindow m)) as [x Hx].
  { bounds. }
  rewrite Hx. cbn [mbind option_bind]. run. leaf.
Qed.

Lemma updateEnvironmentPanelKey_ok m key :
  selectionInv m → stepOK (updateEnvironmentPanelKey m key).
Proof.
  intros Hm. cbv beta delta [updateEnvironmentPanelKey]. run; try leaf.
  by apply startAttachSelected_ok.
Qed.

Lemma updateWindowPanelKey_ok m key :
  selectionInv m → stepOK (updateWindowPanelKey m key).
Proof.
  intros Hm. cbv beta delta [updateWindowPanelKey]. run; try leaf.
  all: first [by apply startMoveWindow_ok | by apply startAttachSelected_ok].
Qed.

Lemma updateTemplatesPanelKey_ok m key :
  selectionInv m → stepOK (Some (updateTemplatesPanelKey m key)).
Proof.
  intros Hm. cbv beta delta [updateTemplatesPanelKey]. run; leaf.
Qed.


Lemma updateKey_ok m msg : selectionInv m → stepOK (updateKey m msg).
Proof.
  intros Hm. cbv beta delta [updateKey]. run.
  all: try leaf.
  all: first [ by apply updateThemePickerMode_ok
             | apply updateEnvironmentPanelKey_ok; keep
             | apply updateWindowPanelKey_ok; keep
             | apply updateTemplatesPanelKey_ok; keep ].
Qed.

Lemma cursorInv_frame m m' :
  themes m' = themes m → themeQuery m' = themeQuery m →
  themePickerCursor m' = themePickerCursor m → cursorInv m → cursorInv m'.
Proof. unfold cursorInv. by intros -> -> ->. Qed.

Lemma normalizeCreateTemplate_cursor m : cursorInv m → cursorInv (normalizeCreateTemplate m).
Proof.
  pose proof (view_normalizeCreateTemplate m) as [= _ _ _ _ _ _ E1 E2 E3].
  by apply cursorInv_frame.
Qed.

Ltac cursor_peel :=
  repeat match goal with
  | |- cursorInv (set ?f ?v ?m') =>
      lazymatch f with
      | themes => fail | themeQuery => fail | themePickerCursor => fail
      | _ => apply (cursorInv_frame m'); [reflexivity..|]
      end
  | |- cursorInv (applyCurrentTheme _) => apply applyCurrentTheme_cursor
  | |- cursorInv (normalizeCreateTemplate _) => apply normalizeCreateTemplate_cursor
  end.

(** Sequencing: what is known of the value of a [let] is all that the rest
    of the handler needs. *)
Lemma let_cursor (v : Model) (rest : Model → option (Model * Cmd)) :
  cursorInv v → (∀ x, cursorInv x → stepOK (rest x)) → stepOK (let x := v in rest x).
Proof. intros Hv Hrest. by apply Hrest. Qed.

Lemma let_selection (v : Model) (rest : Model → option (Model * Cmd)) :
  selectionInv v → (∀ x, selectionInv x → stepOK (rest x)) →
  stepOK (let x := v in rest x).
Proof. intros Hv Hrest. by apply Hrest. Qed.

Ltac seq lem :=
  lazymatch goal with
  | |- stepOK (let x := ?v in @?rest x) => apply (lem v rest); cbv beta
  end.

Lemma Update_config_ok m envs tpls theme :
  selectionInv m → stepOK (Update m (configLoadedMsg envs tpls theme None)).
Proof.
  intros Hm. cbv beta delta [Update]; cbv beta iota.
  apply selectionInv_split in Hm as [_ Hc].
  do 5 (seq let_cursor; [run; cursor_peel; done|]; clear m Hc; intros m Hc).
  seq let_selection; [by apply normalizeSelection_inv|]. clear m Hc. intros m Hm.
  run; leaf.
Qed.

Lemma Update_sessions_ok m names windows :
  selectionInv m → stepOK (Update m (sessionsLoadedMsg names windows None)).
Proof.
  intros Hm. cbv beta delta [Update]; cbv beta iota.
  apply selectionInv_split in Hm as [_ Hc].
  seq let_cursor; [cursor_peel; done|]; clear m Hc; intros m Hc.
  seq let_selection; [by apply normalizeSelection_inv|]. clear m Hc. intros m Hm.
  leaf.
Qed.

Lemma Update_ok m msg : selectionInv m → stepOK (Update m msg).
Proof.
  intros Hm. destruct msg.
  3: { destruct err; [|by apply Update_config_ok].
       cbv beta delta [Update]; cbv beta iota. leaf. }
  3: { destruct err; [|by apply Update_sessions_ok].
       cbv beta delta [Update]; cbv beta iota. leaf. }
  all: cbv beta delta [Update]; cbv beta iota.
  2: by apply updateKey_ok.
  all: run; leaf.
Qed.
End Steps.

Lemma NewModel_inv : selectionInv NewModel.
Proof. repeat split; intros; vm_compute in *; congruence. Qed.

(** C10: from every reachable state, processing any message does not panic
    and leaves every selection index in bounds: [selectedEnv] is 0 when
    there is no environment and otherwise between 0 and
    [len environments - 1]; [selectedWindow] likewise for the current list
    of window names; [selectedTemplate] likewise for the templates; and
    [themePickerCursor] likewise for the filtered list of themes.  The
    reachable states themselves are in bounds. *)
Theorem selection_indices_in_bounds `{Host} m :
  reachable m →
  selectionInv m ∧
  ∀ msg, ∃ m' c, Update m msg = Some (m', c) ∧ selectionInv m'.
Proof.
  intros Hr. assert (selectionInv m) as Hm.
  { induction Hr as [|m msg m' c _ IH Hstep]; [apply NewModel_inv|].
    destruct (Update_ok m msg IH) as (m'' & c' & E & Hinv). congruence. }
  split; [done|]. intros msg. by apply Update_ok.
Qed.

(** * The commands against the config file *)

Section Commands.
Import strings.
Context `{Host}.

(** The stored environment a request names: the first one whose trimmed
    name is the requested name, case-insensitively. *)
Definition persistedEnv (w : exec.World) (envName : string) : option Environment.t :=
  match (config.Load (exec.disk w)).1 with
  | inr envs =>
      i ← firstIndex
             (λ e, EqualFold (TrimSpace (Environment.Name e)) (TrimSpace envName)) envs;
      index envs i
  | inl _ => None
  end.

(** The window of [env] a request names: the first one whose normalized
    name is the normalized requested name. *)
Definition targetWindowIndex (env : Environment.t) (windowName : string) : option Z :=
  firstIndex
    (λ x, bool_decide (normalizeWindowName (WindowTemplate.Name x)
                       = normalizeWindowName windowName))
    (Environment.Windows env).

Lemma LoadAll_keeps_disk d data d' :
  config.LoadAll d = (inr data, d') → Environments data ≠ [] → d' = d.
Proof.
  unfold config.LoadAll, config.EnsureExists, config.WriteFile.
  destruct ConfigFilePath as [e|p]; [by intros [= ]|].
  destruct (file d) as [|e|cfg] eqn:Ef.
  - destruct (writeErr d); simpl; [by intros [= ]|].
    by intros [= <- <-].
  - rewrite Ef. by intros [= ].
  - rewrite Ef. by intros [= _ <-].
Qed.

Lemma Load_keeps_disk d envs d' :
  config.Load d = (inr envs, d') → envs ≠ [] → d' = d.
Proof.
  unfold config.Load. destruct (config.LoadAll d) as [[e|data] d''] eqn:E; [by intros [= ]|].
  intros [= <- <-]. by apply (LoadAll_keeps_disk _ _ _ E).
Qed.

Lemma World_eta w : {| exec.disk := exec.disk w; exec.server := exec.server w |} = w.
Proof. by destruct w. Qed.

Lemma firstIndex_index {A} (p : A → bool) l i :
  firstIndex p l = Some i → ∃ x, index l i = Some x ∧ p x = true.
Proof.
  revert i. induction l as [|y l IH]; intros i; simpl; [done|].
  destruct (p y) eqn:Ey; [intros [= <-]; by exists y|].
  destruct (firstIndex p l) as [j|] eqn:Ej; simpl; [|done]. intros [= <-].
  destruct (IH j eq_refl) as (x & Hx & Px). exists x. split; [|done].
  pose proof (firstIndex_bound _ _ _ Ej) as Hb. unfold inBounds in Hb.
  unfold index in *.
  destruct (j <? 0) eqn:Ej0; [done|]. apply Z.ltb_ge in Ej0.
  rewrite (proj2 (Z.ltb_ge _ _)) by lia.
  replace (Z.to_nat (Z.succ j)) with (S (Z.to_nat j)) by lia. done.
Qed.

Lemma persistedEnv_load w envName env :
  persistedEnv w envName = Some env →
  ∃ envs i,
    config.Load (exec.disk w) = (inr envs, exec.disk w)
    ∧ firstIndex (λ e, EqualFold (TrimSpace (Environment.Name e)) (TrimSpace envName)) envs
      = Some i
    ∧ index envs i = Some env.
Proof.
  unfold persistedEnv.
  destruct (config.Load (exec.disk w)) as [[e|envs] d] eqn:E; simpl; [done|].
  destruct (firstIndex _ envs) as [i|] eqn:Ei; simpl; [|done]. intros Hi.
  exists envs, i. split; [|done].
  rewrite (Load_keeps_disk _ _ _ E); [done|]. intros ->. unfold index in Hi. by destruct (i <? 0), (Z.to_nat i).
Qed.




(** C4.  A reorder request is resolved against the stored environment it
    names and, in it, the first window with the requested normalized
    name.  When that environment has fewer than two windows, when the
    window is the first one and the direction is -1, or when it is the
    last one and the direction is +1, the command returns an error and
    the config file and the tmux server are as before.  In the list
    itself, the same three cases only set the status line: no command is
    issued. *)
Theorem moveWindowOrderCmd_boundary w envName windowName env :
  persistedEnv w envName = Some env →
  (len (Environment.Windows env) < 2 → ∀ direction, ∃ err,
     exec.moveWindowOrderCmd envName windowName direction w
     = (windowMovedMsg "" 0 None (Some err), w))
  ∧ (targetWindowIndex env windowName = Some 0 → ∃ err,
     exec.moveWindowOrderCmd envName windowName (-1) w
     = (windowMovedMsg "" 0 None (Some err), w))
  ∧ (targetWindowIndex env windowName = Some (len (Environment.Windows env) - 1) → ∃ err,
     exec.moveWindowOrderCmd envName windowName 1 w
     = (windowMovedMsg "" 0 None (Some err), w))
  ∧ (∀ m direction,
       len (currentWindowNames m) < 2
       ∨ direction < 0 ∧ selectedWindow m = 0
       ∨ 0 < direction ∧ selectedWindow m = len (currentWindowNames m) - 1 →
       ∃ text, startMoveWindow direction m = Some (m <| status := text |>, nilCmd)).
Proof.
  intros (envs & i & HL & Hi & He)%persistedEnv_load.
  assert (∀ direction, direction ≠ 0 →
    exec.moveWindowOrderCmd envName windowName direction w
    = let windows := Environment.Windows env in
      let failed err := (windowMovedMsg "" 0 None (Some err), w) in
      if len windows <? 2 then
        failed (Errorf "environment %q has fewer than 2 windows" [Environment.Name env])
      else match targetWindowIndex env windowName with
           | None => failed (Errorf "window %q not found in template" [windowName])
           | Some sourceIdx =>
               if (sourceIdx + direction <? 0) || (len windows <=? sourceIdx + direction)
               then if direction <? 0 then failed (Errorf "window is already first" [])
                    else failed (Errorf "window is already last" [])
               else exec.moveWindowOrderCmd envName windowName direction w
           end) as Hrun.
  { intros direction Hd. cbv zeta. unfold targetWindowIndex.
    destruct (len (Environment.Windows env) <? 2) eqn:E2.
    { cbv beta delta [exec.moveWindowOrderCmd]. cbv zeta.
      rewrite decide_False by done. rewrite HL, Hi, He. simpl default.
      by rewrite E2, World_eta. }
    destruct (firstIndex _ (Environment.Windows env)) as [src|] eqn:Es.
    2:{ cbv beta delta [exec.moveWindowOrderCmd]. cbv zeta.
        rewrite decide_False by done. rewrite HL, Hi, He. simpl default.
        by rewrite E2, Es, World_eta. }
    destruct ((src + direction <? 0) || _) eqn:Eb; [|done].
    cbv beta delta [exec.moveWindowOrderCmd]. cbv zeta.
    rewrite decide_False by done. rewrite HL, Hi, He. simpl default.
    rewrite E2, Es, Eb, World_eta. by destruct (direction <? 0). }
  split; [|split; [|split]].
  - intros Hlt direction. destruct (decide (direction = 0)) as [->|Hd].
    { eexists. cbv beta delta [exec.moveWindowOrderCmd]. cbv zeta.
      by rewrite decide_True by done. }
    rewrite (Hrun _ Hd). cbv zeta. rewrite (proj2 (Z.ltb_lt _ _) Hlt). by eexists.
  - intros Ht. rewrite (Hrun (-1)) by done. cbv zeta. rewrite Ht.
    destruct (_ <? 2); [by eexists|]. simpl. by eexists.
  - intros Ht. rewrite (Hrun 1) by done. cbv zeta. rewrite Ht.
    destruct (_ <? 2); [by eexists|].
    replace (len (Environment.Windows env) <=? len (Environment.Windows env) - 1 + 1)
      with true by (symmetry; apply Z.leb_le; lia).
    rewrite orb_true_r. simpl. by eexists.
  - intros m direction Hcase. cbv beta delta [startMoveWindow]. cbv zeta.
    destruct (currentEnv m); [|by eexists].
    destruct (_ <? 2) eqn:E2; [by eexists|].
    destruct ((selectedWindow m <? 0) || _) eqn:Er; [by eexists|].
    destruct ((direction <? 0) && _) eqn:El; [by eexists|].
    destruct ((0 <? direction) && _) eqn:Eg; [by eexists|].
    exfalso. apply Z.ltb_ge in E2. apply andb_false_iff in El, Eg.
    rewrite Z.ltb_ge, Z.eqb_neq in El, Eg. lia.
Qed.

End Commands.

(** ** A config file with one environment *)

Definition stagingEnv : Environment.t :=
  Environment.mk "staging" "/srv/staging" "" ""
    [WindowTemplate.mk "editor" "nvim ." ""; WindowTemplate.mk "shell" "" ""].

Definition stagingDisk : config.Disk :=
  {| file := Document {| fsEnvironments := [stagingEnv]; fsTemplates := [];
                         fsTheme := "Midnight" |};
     writeErr := None |}.

Definition stagingData : config.Data :=
  {| Environments := [stagingEnv]; Templates := DefaultTemplates; Theme := "Midnight" |}.

(** tmux is installed and the session of the environment is live. *)
Definition stagingWorld : exec.World :=
  {| exec.disk := stagingDisk;
     exec.server := {| tmux.installed := true;
                       tmux.sessions := {[ "ide-staging" := ["editor"; "shell"] ]} |} |}.

Lemma stagingDisk_loads : config.LoadAll stagingDisk = (inr stagingData, stagingDisk).
Proof. reflexivity. Qed.



Lemma moveWindowOrderCmd_boundary_witness :
  (∃ err, exec.moveWindowOrderCmd "Staging" "editor" (-1) stagingWorld
          = (windowMovedMsg "" 0 None (Some err), stagingWorld))
  ∧ (∃ err, exec.moveWindowOrderCmd "Staging" "shell" 1 stagingWorld
            = (windowMovedMsg "" 0 None (Some err), stagingWorld)).
Proof.
  assert (persistedEnv stagingWorld "Staging" = Some stagingEnv) as He
    by (vm_compute; reflexivity).
  split.
  - apply (moveWindowOrderCmd_boundary stagingWorld "Staging" "editor" stagingEnv He).
    vm_compute; reflexivity.
  - apply (moveWindowOrderCmd_boundary stagingWorld "Staging" "shell" stagingEnv He).
    vm_compute; reflexivity.
Defined.

(** ** Key sequences *)

(** A key press whose [String()] is [key]. *)
Definition press (key : string) : Msg :=
  KeyMsg {| tea.key_String := key; tea.Runes := key; tea.Alt := false |}.

(** The messages handed to [Update] one after the other; the commands
    returned are collected in order.  [None]: a step panicked. *)
Fixpoint feed `{Host} (m : Model) (msgs : list Msg) : option (Model * list Cmd) :=
  match msgs with
  | [] => Some (m, [])
  | msg :: rest =>
      '(m, c) ← Update m msg;
      '(m, cs) ← feed m rest;
      Some (m, c :: cs)
  end.

(** The list after the config file with the one environment is loaded. *)
Definition stagingModel : Model :=
  default NewModel
    (fst <$> Update NewModel (configLoadedMsg [stagingEnv] DefaultTemplates "Midnight" None)).

(** C2, at the failing input.  With the environment staging selected,
    d arms the confirmation; the key ? (pressed twice: the shortcuts
    overlay opens and closes) is handled before the code that disarms, so
    the confirmation is still armed in Normal mode and a single d then
    issues the delete command.  The same holds with ctrl+t in place of ?. *)
Theorem deleteConfirm_survives_overlay_keys :
  (∃ m, feed stagingModel [press "d"; press "?"; press "?"]
        = Some (m, [nilCmd; nilCmd; nilCmd])
        ∧ deleteConfirm m = "staging"
        ∧ showShortcuts m = false ∧ showThemePicker m = false
        ∧ environments m = [stagingEnv]
        ∧ snd <$> Update m (press "d") = Some (deleteEnvironmentCmd "staging"))
  ∧ (∃ m, feed stagingModel [press "d"; press "ctrl+t"; press "ctrl+t"]
          = Some (m, [nilCmd; nilCmd; nilCmd])
          ∧ deleteConfirm m = "staging"
          ∧ showShortcuts m = false ∧ showThemePicker m = false
          ∧ snd <$> Update m (press "d") = Some (deleteEnvironmentCmd "staging"))
  ∧ (∃ m, feed stagingModel [press "d"; press "j"] = Some (m, [nilCmd; nilCmd])
          ∧ deleteConfirm m = "").
Proof.
  split; [|split].
  - eexists. split; [vm_compute; reflexivity|]. repeat split; vm_compute; reflexivity.
  - eexists. split; [vm_compute; reflexivity|]. repeat split; vm_compute; reflexivity.
  - eexists. split; [vm_compute; reflexivity|]. vm_compute; reflexivity.
Qed.

(** * The two load results, in either order *)

(** What a state holds besides the status line, the three selection
    indices and the two session maps. *)
Definition core (m : Model) :=
  (width m, height m, environments m, templates m, focusPane m, createMode m,
   createField m, createName m, createRoot m, createTemplate m, createCustom m,
   templateMode m, templateField m, templateName m, templateSpec m, templateEditing
   m, templateOrigin m, showShortcuts m, showThemePicker m, themeQuery m,
   themePickerCursor m, killConfirm m, deleteConfirm m, templateDeleteConfirm m,
   pendingSelect m, pendingTemplateSelect m, themes m, themeIndex m, previewContent
   m, previewSession m, previewWindow m, previewProcess m).

(** Everything but the status line and the three selection indices. *)
Definition loadedData (m : Model) := (core m, sessions m, sessionWindows m).

(** Both messages through [Update], [first] first.  [None]: a step panicked. *)
Definition applyBoth `{Host} (m : Model) (first second : Msg) : option Model :=
  '(m, _) ← Update m first;
  '(m, _) ← Update m second;
  Some m.

Lemma core_set_status v m : core (m <| status := v |>) = core m.
Proof. reflexivity. Qed.

Lemma core_set_selectedEnv v m : core (m <| selectedEnv := v |>) = core m.
Proof. reflexivity. Qed.

Lemma core_set_selectedWindow v m : core (m <| selectedWindow := v |>) = core m.
Proof. reflexivity. Qed.

Lemma core_set_selectedTemplate v m : core (m <| selectedTemplate := v |>) = core m.
Proof. reflexivity. Qed.

Lemma core_set_sessions v m : core (m <| sessions := v |>) = core m.
Proof. reflexivity. Qed.

Lemma core_set_sessionWindows v m : core (m <| sessionWindows := v |>) = core m.
Proof. reflexivity. Qed.

Create HintDb coredata discriminated.
#[global] Hint Rewrite core_set_status core_set_selectedEnv core_set_selectedWindow core_set_selectedTemplate core_set_sessions core_set_sessionWindows : coredata.

Lemma core_cong_width v x y : core x = core y → core (x <| width := v |>) = core (y <| width := v |>).
Proof. intros Hc. destruct x, y. simpl in *. by simplify_eq. Qed.

Lemma core_cong_height v x y : core x = core y → core (x <| height := v |>) = core (y <| height := v |>).
Proof. intros Hc. destruct x, y. simpl in *. by simplify_eq. Qed.

Lemma core_cong_environments v x y : core x = core y → core (x <| environments := v |>) = core (y <| environments := v |>).
Proof. intros Hc. destruct x, y. simpl in *. by simplify_eq. Qed.

Lemma core_cong_templates v x y : core x = core y → core (x <| templates := v |>) = core (y <| templates := v |>).
Proof. intros Hc. destruct x, y. simpl in *. by simplify_eq. Qed.

Lemma core_cong_focusPane v x y : core x = core y → core (x <| focusPane := v |>) = core (y <| focusPane := v |>).
Proof. intros Hc. destruct x, y. simpl in *. by simplify_eq. Qed.

Lemma core_cong_selectedEnv v x y : core x = core y → core (x <| selectedEnv := v |>) = core (y <| selectedEnv := v |>).
Proof. intros Hc. destruct x, y. simpl in *. by simplify_eq. Qed.

Lemma core_cong_selectedWindow v x y : core x = core y → core (x <| selectedWindow := v |>) = core (y <| selectedWindow := v |>).
Proof. intros Hc. destruct x, y. simpl in *. by simplify_eq. Qed.

Lemma core_cong_selectedTemplate v x y : core x = core y → core (x <| selectedTemplate := v |>) = core (y <| selectedTemplate := v |>).
Proof. intros Hc. destruct x, y. simpl in *. by simplify_eq. Qed.

Lemma core_cong_sessions v x y : core x = core y → core (x <| sessions := v |>) = core (y <| sessions := v |>).
Proof. intros Hc. destruct x, y. simpl in *. by simplify_eq. Qed.

Lemma core_cong_sessionWindows v x y : core x = core y → core (x <| sessionWindows := v |>) = core (y <| sessionWindows := v |>).
Proof. intros Hc. destruct x, y. simpl in *. by simplify_eq. Qed.

Lemma core_cong_createMode v x y : core x = core y → core (x <| createMode := v |>) = core (y <| createMode := v |>).
Proof. intros Hc. destruct x, y. simpl in *. by simplify_eq. Qed.

Lemma core_cong_createField v x y : core x = core y → core (x <| createField := v |>) = core (y <| createField := v |>).
Proof. intros Hc. destruct x, y. simpl in *. by simplify_eq. Qed.

Lemma core_cong_createName v x y : core x = core y → core (x <| createName := v |>) = core (y <| createName := v |>).
Proof. intros Hc. destruct x, y. simpl in *. by simplify_eq. Qed.

Lemma core_cong_createRoot v x y : core x = core y → core (x <| createRoot := v |>) = core (y <| createRoot := v |>).
Proof. intros Hc. destruct x, y. simpl in *. by simplify_eq. Qed.

Lemma core_cong_createTemplate v x y : core x = core y → core (x <| createTemplate := v |>) = core (y <| createTemplate := v |>).
Proof. intros Hc. destruct x, y. simpl in *. by simplify_eq. Qed.

Lemma core_cong_createCustom v x y : core x = core y → core (x <| createCustom := v |>) = core (y <| createCustom := v |>).
Proof. intros Hc. destruct x, y. simpl in *. by simplify_eq. Qed.

Lemma core_cong_templateMode v x y : core x = core y → core (x <| templateMode := v |>) = core (y <| templateMode := v |>).
Proof. intros Hc. destruct x, y. simpl in *. by simplify_eq. Qed.

Lemma core_cong_templateField v x y : core x = core y → core (x <| templateField := v |>) = core (y <| templateField := v |>).
Proof. intros Hc. destruct x, y. simpl in *. by simplify_eq. Qed.

Lemma core_cong_templateName v x y : core x = core y → core (x <| templateName := v |>) = core (y <| templateName := v |>).
Proof. intros Hc. destruct x, y. simpl in *. by simplify_eq. Qed.

Lemma core_cong_templateSpec v x y : core x = core y → core (x <| templateSpec := v |>) = core (y <| templateSpec := v |>).
Proof. intros Hc. destruct x, y. simpl in *. by simplify_eq. Qed.

Lemma core_cong_templateEditing v x y : core x = core y → core (x <| templateEditing := v |>) = core (y <| templateEditing := v |>).
Proof. intros Hc. destruct x, y. simpl in *. by simplify_eq. Qed.

Lemma core_cong_templateOrigin v x y : core x = core y → core (x <| templateOrigin := v |>) = core (y <| templateOrigin := v |>).
Proof. intros Hc. destruct x, y. simpl in *. by simplify_eq. Qed.

Lemma core_cong_showShortcuts v x y : core x = core y → core (x <| showShortcuts := v |>) = core (y <| showShortcuts := v |>).
Proof. intros Hc. destruct x, y. simpl in *. by simplify_eq. Qed.

Lemma core_cong_showThemePicker v x y : core x = core y → core (x <| showThemePicker := v |>) = core (y <| showThemePicker := v |>).
Proof. intros Hc. destruct x, y. simpl in *. by simplify_eq. Qed.

Lemma core_cong_themeQuery v x y : core x = core y → core (x <| themeQuery := v |>) = core (y <| themeQuery := v |>).
Proof. intros Hc. destruct x, y. simpl in *. by simplify_eq. Qed.

Lemma core_cong_themePickerCursor v x y : core x = core y → core (x <| themePickerCursor := v |>) = core (y <| themePickerCursor := v |>).
Proof. intros Hc. destruct x, y. simpl in *. by simplify_eq. Qed.

Lemma core_cong_killConfirm v x y : core x = core y → core (x <| killConfirm := v |>) = core (y <| killConfirm := v |>).
Proof. intros Hc. destruct x, y. simpl in *. by simplify_eq. Qed.

Lemma core_cong_deleteConfirm v x y : core x = core y → core (x <| deleteConfirm := v |>) = core (y <| deleteConfirm := v |>).
Proof. intros Hc. destruct x, y. simpl in *. by simplify_eq. Qed.

Lemma core_cong_templateDeleteConfirm v x y : core x = core y → core (x <| templateDeleteConfirm := v |>) = core (y <| templateDeleteConfirm := v |>).
Proof. intros Hc. destruct x, y. simpl in *. by simplify_eq. Qed.

Lemma core_cong_pendingSelect v x y : core x = core y → core (x <| pendingSelect := v |>) = core (y <| pendingSelect := v |>).
Proof. intros Hc. destruct x, y. simpl in *. by simplify_eq. Qed.

Lemma core_cong_pendingTemplateSelect v x y : core x = core y → core (x <| pendingTemplateSelect := v |>) = core (y <| pendingTemplateSelect := v |>).
Proof. intros Hc. destruct x, y. simpl in *. by simplify_eq. Qed.

Lemma core_cong_themes v x y : core x = core y → core (x <| themes := v |>) = core (y <| themes := v |>).
Proof. intros Hc. destruct x, y. simpl in *. by simplify_eq. Qed.

Lemma core_cong_themeIndex v x y : core x = core y → core (x <| themeIndex := v |>) = core (y <| themeIndex := v |>).
Proof. intros Hc. destruct x, y. simpl in *. by simplify_eq. Qed.

Lemma core_cong_status v x y : core x = core y → core (x <| status := v |>) = core (y <| status := v |>).
Proof. intros Hc. destruct x, y. simpl in *. by simplify_eq. Qed.

Lemma core_cong_previewContent v x y : core x = core y → core (x <| previewContent := v |>) = core (y <| previewContent := v |>).
Proof. intros Hc. destruct x, y. simpl in *. by simplify_eq. Qed.

Lemma core_cong_previewSession v x y : core x = core y → core (x <| previewSession := v |>) = core (y <| previewSession := v |>).
Proof. intros Hc. destruct x, y. simpl in *. by simplify_eq. Qed.

Lemma core_cong_previewWindow v x y : core x = core y → core (x <| previewWindow := v |>) = core (y <| previewWindow := v |>).
Proof. intros Hc. destruct x, y. simpl in *. by simplify_eq. Qed.

Lemma core_cong_previewProcess v x y : core x = core y → core (x <| previewProcess := v |>) = core (y <| previewProcess := v |>).
Proof. intros Hc. destruct x, y. simpl in *. by simplify_eq. Qed.

Ltac core_cong :=
  repeat lazymatch goal with
  | |- core (set ?f _ _) = core (set ?f _ _) =>
      lazymatch f with
      | width => simple apply core_cong_width
      | height => simple apply core_cong_height
      | environments => simple apply core_cong_environments
      | templates => simple apply core_cong_templates
      | focusPane => simple apply core_cong_focusPane
      | selectedEnv => simple apply core_cong_selectedEnv
      | selectedWindow => simple apply core_cong_selectedWindow
      | selectedTemplate => simple apply core_cong_selectedTemplate
      | sessions => simple apply core_cong_sessions
      | sessionWindows => simple apply core_cong_sessionWindows
      | createMode => simple apply core_cong_createMode
      | createField => simple apply core_cong_createField
      | createName => simple apply core_cong_createName
      | createRoot => simple apply core_cong_createRoot
      | createTemplate => simple apply core_cong_createTemplate
      | createCustom => simple apply core_cong_createCustom
      | templateMode => simple apply core_cong_templateMode
      | templateField => simple apply core_cong_templateField
      | templateName => simple apply core_cong_templateName
      | templateSpec => simple apply core_cong_templateSpec
      | templateEditing => simple apply core_cong_templateEditing
      | templateOrigin => simple apply core_cong_templateOrigin
      | showShortcuts => simple apply core_cong_showShortcuts
      | showThemePicker => simple apply core_cong_showThemePicker
      | themeQuery => simple apply core_cong_themeQuery
      | themePickerCursor => simple apply core_cong_themePickerCursor
      | killConfirm => simple apply core_cong_killConfirm
      | deleteConfirm => simple apply core_cong_deleteConfirm
      | templateDeleteConfirm => simple apply core_cong_templateDeleteConfirm
      | pendingSelect => simple apply core_cong_pendingSelect
      | pendingTemplateSelect => simple apply core_cong_pendingTemplateSelect
      | themes => simple apply core_cong_themes
      | themeIndex => simple apply core_cong_themeIndex
      | status => simple apply core_cong_status
      | previewContent => simple apply core_cong_previewContent
      | previewSession => simple apply core_cong_previewSession
      | previewWindow => simple apply core_cong_previewWindow
      | previewProcess => simple apply core_cong_previewProcess
      end
  end.

Section LoadOrder.
Context `{Host}.

(** Two states with the same [core]; with the same status line when
    [withStatus] is set; with the same selected environment and template
    when [withPicks] is set. *)
Definition sameCore (withStatus withPicks : bool) (x y : Model) : Prop :=
  core x = core y
  ∧ (withStatus = true → status x = status y)
  ∧ (withPicks = true →
     selectedEnv x = selectedEnv y ∧ selectedTemplate x = selectedTemplate y).

(** Both steps went through, with no command, to states that [R] relates. *)
Definition agree (R : Model → Model → Prop) (r r' : option (Model * Cmd)) : Prop :=
  ∃ x y, r = Some (x, nilCmd) ∧ r' = Some (y, nilCmd) ∧ R x y.

Lemma let_agree (R R' : Model → Model → Prop) v v'
    (rest rest' : Model → option (Model * Cmd)) :
  R v v' → (∀ x y, R x y → agree R' (rest x) (rest' y)) →
  agree R' (let x := v in rest x) (let y := v' in rest' y).
Proof. intros Hv Hrest. by apply Hrest. Qed.

(** The step went through, with no command, to a state where [P] holds. *)
Definition lands (P : Model → Prop) (r : option (Model * Cmd)) : Prop :=
  ∃ x, r = Some (x, nilCmd) ∧ P x.

Lemma let_lands (P Q : Model → Prop) v (rest : Model → option (Model * Cmd)) :
  P v → (∀ x, P x → lands Q (rest x)) → lands Q (let x := v in rest x).
Proof. intros Hv Hrest. by apply Hrest. Qed.

Ltac seq2 b p :=
  lazymatch goal with
  | |- agree ?R' (let x := ?v in @?rest x) (let y := ?v' in @?rest' y) =>
      apply (let_agree (sameCore b p) R' v v' rest rest'); cbv beta
  end.

Ltac seq1 P :=
  lazymatch goal with
  | |- lands ?Q (let x := ?v in @?rest x) => apply (let_lands P Q v rest); cbv beta
  end.

(** Reads of [y] become reads of [x] where the two are known to agree. *)
Ltac same_reads :=
  repeat match goal with
  | Heq : ?p ?x = ?p ?y |- context [?p ?y] => is_field p; rewrite <- Heq
  end.

Ltac same_open :=
  lazymatch goal with
  | Hx : sameCore ?b ?p ?x ?y |- _ =>
      let Hc := fresh "Hc" in let Hs := fresh "Hs" in let Hp := fresh "Hp" in
      destruct Hx as (Hc & Hs & Hp); pose proof Hc as Hcore;
      unfold core in Hc; injection Hc as ?; intros;
      destruct b; [specialize (Hs eq_refl)|clear Hs];
      (destruct p; [destruct (Hp eq_refl) as [? ?]; clear Hp|clear Hp])
  end.

Ltac run2 := repeat first [progress fields | progress same_reads | zeta1 | case1].

Ltac same_leaf :=
  split; [core_cong; assumption|split];
  intros; try split; fields; same_reads; first [reflexivity|discriminate].

Ltac same_step := same_open; run2; same_leaf.

(** *** What [normalizeSelection] does *)

(** An index brought into a list of [n] elements, as [normalizeSelection]
    does it. *)
Definition clampIndex (n i : Z) : Z :=
  if decide (n = 0) then 0
  else
    let i := if n <=? i then n - 1 else i in
    if i <? 0 then 0 else i.

Lemma clampIndex_inBounds n i : inBounds i n → clampIndex n i = i.
Proof.
  unfold inBounds, clampIndex. intros [H0 H1]. case_decide; [by rewrite H0|].
  specialize (H1 ltac:(done)). rewrite (proj2 (Z.leb_gt _ _)) by lia.
  by rewrite (proj2 (Z.ltb_ge _ _)) by lia.
Qed.

Lemma normalizeSelection_keeps m :
  core (normalizeSelection m) = core m
  ∧ status (normalizeSelection m) = status m
  ∧ sessions (normalizeSelection m) = sessions m
  ∧ sessionWindows (normalizeSelection m) = sessionWindows m.
Proof.
  cbv beta delta [normalizeSelection]. run.
  all: autorewrite with coredata; fields; done.
Qed.

Lemma core_normalizeSelection m : core (normalizeSelection m) = core m.
Proof. apply normalizeSelection_keeps. Qed.

Lemma status_normalizeSelection m : status (normalizeSelection m) = status m.
Proof. apply normalizeSelection_keeps. Qed.

Lemma sessions_normalizeSelection m : sessions (normalizeSelection m) = sessions m.
Proof. apply normalizeSelection_keeps. Qed.

Lemma sessionWindows_normalizeSelection m :
  sessionWindows (normalizeSelection m) = sessionWindows m.
Proof. apply normalizeSelection_keeps. Qed.

Lemma normalizeSelection_picks m :
  selectedEnv (normalizeSelection m) = clampIndex (len (environments m)) (selectedEnv m)
  ∧ selectedTemplate (normalizeSelection m)
    = clampIndex (len (templates m)) (selectedTemplate m).
Proof.
  cbv beta delta [normalizeSelection]. run.
  all: fields; unfold clampIndex; split.
  all: repeat first [case_decide | case_match]; bounds.
Qed.

Lemma normalizeSelection_selInv3 m : selInv3 (normalizeSelection m).
Proof.
  cbv beta delta [normalizeSelection]. run.
  all: unfold selInv3; rewrite ?currentWindowNames_at in *; simpl in *.
  all: repeat split; try done; bounds.
Qed.

Lemma captureCurrentWindowCmd_in_bounds m :
  inBounds (selectedWindow m) (len (currentWindowNames m)) →
  is_Some (captureCurrentWindowCmd m).
Proof.
  intros Hw. unfold captureCurrentWindowCmd.
  destruct (currentEnv m); [|done]. case_match; [done|].
  destruct (_ || _) eqn:E; [done|]. apply orb_false_iff in E as [E1 E2].
  apply bool_decide_eq_false in E1. apply Z.leb_gt in E2.
  destruct (index_is_Some (currentWindowNames m) (selectedWindow m)) as [w ->]; [|done].
  unfold inBounds in Hw. lia.
Qed.

(** *** The session-load handler *)

Lemma Update_sessions_result m names windows :
  ∃ c, Update m (sessionsLoadedMsg names windows None)
       = Some (normalizeSelection
                 (m <| sessions := list_to_set names |> <| sessionWindows := windows |>), c).
Proof.
  cbv beta delta [Update]; cbv beta iota zeta.
  destruct (captureCurrentWindowCmd_in_bounds
              (normalizeSelection
                 (m <| sessions := list_to_set names |> <| sessionWindows := windows |>)))
    as [c ->]; [|by exists c].
  rewrite currentWindowNames_at. apply normalizeSelection_selInv3.
Qed.

Lemma Update_sessions_error m names windows e :
  Update m (sessionsLoadedMsg names windows (Some e))
  = Some (m <| status := "Tmux error: " +:+ Error e |>, nilCmd).
Proof. reflexivity. Qed.

(** *** The config-load handler *)

Lemma Update_config_error m envs tpls theme e :
  Update m (configLoadedMsg envs tpls theme (Some e))
  = Some (m <| status := "Config error: " +:+ Error e |>, nilCmd).
Proof. reflexivity. Qed.

Lemma Update_config_same b p m m' envs tpls theme :
  sameCore b p m m' →
  agree (sameCore b p) (Update m (configLoadedMsg envs tpls theme None))
                       (Update m' (configLoadedMsg envs tpls theme None)).
Proof.
  intros Hm. cbv beta delta [Update]; cbv beta iota.
  seq2 b p; [same_step|]. clear m m' Hm. intros m m' Hm.
  seq2 b p; [cbv beta delta [themeIndexByName applyCurrentTheme]; same_step|].
  clear m m' Hm. intros m m' Hm.
  seq2 b p; [cbv beta delta [normalizeCreateTemplate]; same_step|].
  clear m m' Hm. intros m m' Hm.
  seq2 b p; [same_step|]. clear m m' Hm. intros m m' Hm.
  seq2 b p; [same_step|]. clear m m' Hm. intros m m' Hm.
  seq2 b p.
  { destruct Hm as (Hc & Hs & Hp). split; [|split].
    - by rewrite !core_normalizeSelection.
    - intros Hb. rewrite !status_normalizeSelection. by apply Hs.
    - intros Hpt. destruct (Hp Hpt) as [He Ht].
      destruct (normalizeSelection_picks m) as [-> ->].
      destruct (normalizeSelection_picks m') as [-> ->].
      unfold core in Hc. injection Hc as ?; intros. split; congruence. }
  clear m m' Hm. intros m m' Hm.
  seq2 b p; [same_step|]. clear m m' Hm. intros m m' Hm.
  by exists m, m'.
Qed.

Ltac keeps_sessions :=
  lazymatch goal with
  | Hx : sessions ?x = _ ∧ sessionWindows ?x = _ |- _ =>
      destruct Hx as [<- <-]; run; split; fields; reflexivity
  end.

Lemma Update_config_sessions s w m envs tpls theme :
  sessions m = s ∧ sessionWindows m = w →
  lands (λ x, sessions x = s ∧ sessionWindows x = w)
    (Update m (configLoadedMsg envs tpls theme None)).
Proof.
  set (P := λ x, sessions x = s ∧ sessionWindows x = w).
  intros Hm. cbv beta delta [Update]; cbv beta iota.
  seq1 P; [subst P; cbv beta in *; keeps_sessions|]. clear m Hm. intros m Hm.
  seq1 P; [subst P; cbv beta in *; cbv beta delta [themeIndexByName applyCurrentTheme];
           keeps_sessions|].
  clear m Hm. intros m Hm.
  seq1 P; [subst P; cbv beta in *; cbv beta delta [normalizeCreateTemplate];
           keeps_sessions|].
  clear m Hm. intros m Hm.
  seq1 P; [subst P; cbv beta in *; keeps_sessions|]. clear m Hm. intros m Hm.
  seq1 P; [subst P; cbv beta in *; keeps_sessions|]. clear m Hm. intros m Hm.
  seq1 P.
  { subst P; cbv beta in *.
    by rewrite sessions_normalizeSelection, sessionWindows_normalizeSelection. }
  clear m Hm. intros m Hm.
  seq1 P; [subst P; cbv beta in *; keeps_sessions|]. clear m Hm. intros m Hm.
  exists m. by split.
Qed.

Lemma applyBoth_eq m a b x c y d :
  Update m a = Some (x, c) → Update x b = Some (y, d) → applyBoth m a b = Some y.
Proof. unfold applyBoth. intros -> . simpl. by intros ->. Qed.

Lemma selectedEnv_normalizeSelection m :
  selectedEnv (normalizeSelection m) = clampIndex (len (environments m)) (selectedEnv m).
Proof. apply normalizeSelection_picks. Qed.

Lemma selectedTemplate_normalizeSelection m :
  selectedTemplate (normalizeSelection m)
  = clampIndex (len (templates m)) (selectedTemplate m).
Proof. apply normalizeSelection_picks. Qed.

Lemma Update_lands_in_bounds m msg x c :
  selectionInv m → Update m msg = Some (x, c) → selectionInv x.
Proof.
  intros Hm E. destruct (Update_ok m msg Hm) as (x' & c' & E' & Hx).
  rewrite E in E'. by injection E' as -> _.
Qed.

(** C5 (amended).  From every state and for every config-load result and
    session-load result, handling the two in either order goes through,
    and the two final states hold the same data: they agree on every
    field other than the status line and the three selection indices
    (both handlers write those).  They also agree on the status line when
    the session-load result carries no error, and on the selected
    environment and the selected template when the indices of the
    starting state are in bounds. *)
Theorem load_results_commute_on_data m envs tpls theme cerr names windows serr :
  ∃ m1 m2,
    applyBoth m (configLoadedMsg envs tpls theme cerr) (sessionsLoadedMsg names windows serr)
    = Some m1
    ∧ applyBoth m (sessionsLoadedMsg names windows serr) (configLoadedMsg envs tpls theme cerr)
      = Some m2
    ∧ loadedData m1 = loadedData m2
    ∧ (serr = None → status m1 = status m2)
    ∧ (selectionInv m →
       selectedEnv m1 = selectedEnv m2 ∧ selectedTemplate m1 = selectedTemplate m2).
Proof.
  destruct cerr as [ce|], serr as [se|].
  - exists (m <| status := "Config error: " +:+ Error ce |>
              <| status := "Tmux error: " +:+ Error se |>),
           (m <| status := "Tmux error: " +:+ Error se |>
              <| status := "Config error: " +:+ Error ce |>).
    split.
    { exact (applyBoth_eq _ _ _ _ _ _ _ (Update_config_error _ _ _ _ _)
               (Update_sessions_error _ _ _ _)). }
    split.
    { exact (applyBoth_eq _ _ _ _ _ _ _ (Update_sessions_error _ _ _ _)
               (Update_config_error _ _ _ _ _)). }
    split; [|split; [done|]].
    + unfold loadedData. autorewrite with coredata. by fields.
    + intros _. by fields.
  - destruct (Update_sessions_result m names windows) as [c2 E2].
    destruct (Update_sessions_result (m <| status := "Config error: " +:+ Error ce |>)
                names windows) as [c1 E1].
    eexists _, _.
    split; [exact (applyBoth_eq _ _ _ _ _ _ _ (Update_config_error _ _ _ _ _) E1)|].
    split; [exact (applyBoth_eq _ _ _ _ _ _ _ E2 (Update_config_error _ _ _ _ _))|].
    split; [|split].
    + unfold loadedData.
      rewrite core_normalizeSelection, sessions_normalizeSelection,
        sessionWindows_normalizeSelection.
      autorewrite with coredata. fields.
      rewrite core_normalizeSelection, sessions_normalizeSelection,
        sessionWindows_normalizeSelection.
      autorewrite with coredata. by fields.
    + intros _. rewrite status_normalizeSelection. by fields.
    + intros _. fields.
      by rewrite !selectedEnv_normalizeSelection, !selectedTemplate_normalizeSelection.
  - destruct (Update_config_same false true m
                (m <| status := "Tmux error: " +:+ Error se |>) envs tpls theme)
      as (x & y & Ex & Ey & Hc & _ & Hp); [by repeat split|].
    destruct (Update_config_sessions _ _ m envs tpls theme (conj eq_refl eq_refl))
      as (x1 & Ex1 & Hs1 & Hw1).
    rewrite Ex in Ex1. injection Ex1 as <-.
    destruct (Update_config_sessions _ _ (m <| status := "Tmux error: " +:+ Error se |>)
                envs tpls theme (conj eq_refl eq_refl))
      as (y1 & Ey1 & Hs2 & Hw2).
    rewrite Ey in Ey1. injection Ey1 as <-.
    exists (x <| status := "Tmux error: " +:+ Error se |>), y.
    split; [exact (applyBoth_eq _ _ _ _ _ _ _ Ex (Update_sessions_error _ _ _ _))|].
    split; [exact (applyBoth_eq _ _ _ _ _ _ _ (Update_sessions_error _ _ _ _) Ey)|].
    split; [|split; [done|]].
    + unfold loadedData. autorewrite with coredata. fields.
      rewrite Hc, Hs1, Hw1, Hs2, Hw2. by fields.
    + intros _. fields. by apply Hp.
  - destruct (Update_sessions_result m names windows) as [c2 E2].
    set (z := normalizeSelection
                (m <| sessions := list_to_set names |> <| sessionWindows := windows |>)) in *.
    destruct (Update_config_same true false m z envs tpls theme)
      as (x & y & Ex & Ey & Hc & Hs & _).
    { subst z. split; [|split; [|done]].
      - rewrite core_normalizeSelection. by autorewrite with coredata.
      - intros _. rewrite status_normalizeSelection. by fields. }
    destruct (Update_sessions_result x names windows) as [c1 E1].
    destruct (Update_config_sessions _ _ z envs tpls theme (conj eq_refl eq_refl))
      as (y1 & Ey1 & Hs2 & Hw2).
    rewrite Ey in Ey1. injection Ey1 as <-.
    eexists _, y. split; [exact (applyBoth_eq _ _ _ _ _ _ _ Ex E1)|].
    split; [exact (applyBoth_eq _ _ _ _ _ _ _ E2 Ey)|].
    split; [|split].
    + unfold loadedData.
      rewrite core_normalizeSelection, sessions_normalizeSelection,
        sessionWindows_normalizeSelection.
      autorewrite with coredata. fields. rewrite Hc, Hs2, Hw2. subst z.
      rewrite sessions_normalizeSelection, sessionWindows_normalizeSelection. by fields.
    + intros _. rewrite status_normalizeSelection. fields. by apply Hs.
    + intros Hm.
      pose proof (Update_lands_in_bounds _ _ _ _ Hm Ex) as (Hxe & _ & Hxt & _).
      destruct Hm as (Hme & _ & Hmt & _).
      destruct (Update_config_same true true m z envs tpls theme)
        as (x' & y' & Ex' & Ey' & _ & _ & Hp).
      { subst z. split; [|split].
        - rewrite core_normalizeSelection. by autorewrite with coredata.
        - intros _. rewrite status_normalizeSelection. by fields.
        - intros _.
          rewrite selectedEnv_normalizeSelection, selectedTemplate_normalizeSelection.
          fields. by rewrite !clampIndex_inBounds. }
      rewrite Ex in Ex'. injection Ex' as <-. rewrite Ey in Ey'. injection Ey' as <-.
      rewrite selectedEnv_normalizeSelection, selectedTemplate_normalizeSelection.
      fields. rewrite !clampIndex_inBounds by done. by apply Hp.
Qed.

End LoadOrder.

(** ** Two loads whose order shows *)

Definition apiEnv : Environment.t :=
  Environment.mk "api" "/srv/api" "" ""
    [WindowTemplate.mk "editor" "nvim ." ""; WindowTemplate.mk "shell" "" ""].

(** The list shows staging, tmux has a one-window session of another
    environment, and the second window of staging is selected. *)
Definition busyModel : Model :=
  default NewModel
    (fst <$> feed NewModel
       [configLoadedMsg [stagingEnv] DefaultTemplates "Midnight" None;
        sessionsLoadedMsg ["ide-api"] {[ "ide-api" := ["logs"] ]} None;
        press "2"; press "j"]).

Definition configFailed : Msg :=
  configLoadedMsg [] [] "" (Some (Errorf "parse config json: %w" ["unexpected end"])).

Definition sessionsFailed : Msg :=
  sessionsLoadedMsg [] ∅ (Some (Errorf "tmux is not installed or not in PATH" [])).

Definition configRenamed : Msg :=
  configLoadedMsg [apiEnv] DefaultTemplates "Midnight" None.

Definition sessionsGone : Msg := sessionsLoadedMsg [] ∅ None.

(** C5, as stated, fails.  When both results carry an error, the status
    line is the one of the handler that ran last.  When both succeed,
    the selected window can differ: the config handler clamps it against
    the one live window of the renamed environment when it runs first,
    and against the two configured windows when the sessions are already
    known to be gone. *)
Lemma load_results_order_shows :
  (status <$> applyBoth NewModel configFailed sessionsFailed
   = Some "Tmux error: tmux is not installed or not in PATH"
   ∧ status <$> applyBoth NewModel sessionsFailed configFailed
     = Some "Config error: parse config json: unexpected end"
   ∧ applyBoth NewModel configFailed sessionsFailed
     ≠ applyBoth NewModel sessionsFailed configFailed)
  ∧ (selectedWindow <$> applyBoth busyModel configRenamed sessionsGone = Some 0
     ∧ selectedWindow <$> applyBoth busyModel sessionsGone configRenamed = Some 1
     ∧ applyBoth busyModel configRenamed sessionsGone
       ≠ applyBoth busyModel sessionsGone configRenamed).
Proof.
  assert (∀ {A} (f : Model → A) (a b : option Model) x y,
            f <$> a = Some x → f <$> b = Some y → x ≠ y → a ≠ b) as Hne.
  { intros A f a b x y Ea Eb Hxy ->. rewrite Ea in Eb. by injection Eb. }
  split.
  - assert (status <$> applyBoth NewModel configFailed sessionsFailed
            = Some "Tmux error: tmux is not installed or not in PATH") as E1
      by (vm_compute; reflexivity).
    assert (status <$> applyBoth NewModel sessionsFailed configFailed
            = Some "Config error: parse config json: unexpected end") as E2
      by (vm_compute; reflexivity).
    split; [done|]. split; [done|]. by apply (Hne _ _ _ _ _ _ E1 E2).
  - assert (selectedWindow <$> applyBoth busyModel configRenamed sessionsGone = Some 0) as E1
      by (vm_compute; reflexivity).
    assert (selectedWindow <$> applyBoth busyModel sessionsGone configRenamed = Some 1) as E2
      by (vm_compute; reflexivity).
    split; [done|]. split; [done|]. by apply (Hne _ _ _ _ _ _ E1 E2).
Qed.

(** * The theorems at concrete inputs *)



Lemma parseWindowEntry_too_many_segments_witness :
  parseWindowEntry "a|b|c|d" = inl (Errorf "invalid window entry %q" ["a|b|c|d"]).
Proof.
  apply (parseWindowEntry_too_many_segments "a|b|c|d"); vm_compute; reflexivity.
Defined.






Lemma selection_indices_in_bounds_witness :
  selectionInv NewModel
  ∧ ∀ msg, ∃ m' c, Update NewModel msg = Some (m', c) ∧ selectionInv m'.
Proof. apply (selection_indices_in_bounds NewModel). apply reachable_init. Defined.
